(** * External peer protocol engine: device sessions and MCP process sessions

    A shallow embedding of [core/device_communication.py],
    [core/mcp_loader.py] and the request path of [core/mcp_manager.py],
    together with the part of CPython's [json] module these files call
    ([json.dumps] with its default separators and [ensure_ascii], and
    [json.loads]).

    Conventions of the embedding.
    - A Python [str] is a Rocq [string]; every character is a code point
      below 256.  The escape [\uXXXX] with a code point above 00ff has no
      image in this type and is rejected by the decoder of the model.
      The error texts of the source that lie outside this range stand as
      their UTF-8 bytes; they are compared, never encoded.
    - A Python [dict] is an insertion-ordered association list with the
      update discipline of [dict.__setitem__] (module [Dict]).
    - Finite floats are an abstract type with the operations the source
      uses (class [PyFloat]); the three non-finite values are concrete.
    - Objects that the source shares by reference (connections, futures,
      sockets, processes) live in stores indexed by allocation order.
    - An exception is the [Raise] outcome of a computation in the monad
      [M]; state written before the exception is kept, as in Python. *)

From Stdlib Require Import ZArith NArith String Ascii List Bool Lia.
From Stdlib Require Import DecimalString DecimalN DecimalPos DecimalFacts.
From stdpp Require Import base option list.

Open Scope string_scope.

#[global] Instance string_eq_decision : EqDecision string := string_dec.
#[global] Instance ascii_eq_decision : EqDecision ascii := ascii_dec.

(** ** Python dictionaries *)

Module Dict.
Section Dict.
Context {K V : Type} `{EqDecision K}.

(** [d.get(k)] *)
Fixpoint get (k : K) (d : list (K * V)) : option V :=
  match d with
  | [] => None
  | (k', v) :: d' => if decide (k = k') then Some v else get k d'
  end.

(** [k in d] *)
Definition mem (k : K) (d : list (K * V)) : bool :=
  match get k d with Some _ => true | None => false end.

(** [d[k] = v]: an existing key keeps its position, a new key is
    appended. *)
Fixpoint set (k : K) (v : V) (d : list (K * V)) : list (K * V) :=
  match d with
  | [] => [(k, v)]
  | (k', v') :: d' =>
      if decide (k = k') then (k, v) :: d' else (k', v') :: set k v d'
  end.

(** [d.pop(k, None)], keeping the dictionary only. *)
Fixpoint pop (k : K) (d : list (K * V)) : list (K * V) :=
  match d with
  | [] => []
  | (k', v') :: d' =>
      if decide (k = k') then pop k d' else (k', v') :: pop k d'
  end.

Definition keys (d : list (K * V)) : list K := map fst d.
Definition values (d : list (K * V)) : list V := map snd d.

(** [dict(pairs)] *)
Definition of_pairs (ps : list (K * V)) : list (K * V) :=
  fold_left (fun d kv => set (fst kv) (snd kv) d) ps [].
End Dict.
End Dict.

(** ** Exceptions *)

(** The exception classes that the modelled code can raise. *)
Inductive exn : Type :=
| JSONDecodeError
| AttributeError
| TypeError
| ValueError
| KeyError
| BrokenPipeError
| FileNotFoundError
| RuntimeError
| TimeoutError.

Inductive outcome (A : Type) : Type :=
| Return (a : A)
| Raise (e : exn).
Arguments Return {A} a.
Arguments Raise {A} e.

(** ** Computations: state and exceptions *)

Section Computations.
Context {S : Type}.

Definition ST (A : Type) : Type := S -> outcome A * S.

Definition ret {A} (a : A) : ST A := fun w => (Return a, w).

Definition raise {A} (e : exn) : ST A := fun w => (Raise e, w).

Definition bind {A B} (m : ST A) (k : A -> ST B) : ST B :=
  fun w =>
    match m w with
    | (Return a, w') => k a w'
    | (Raise e, w') => (Raise e, w')
    end.

(** [try: m  except Exception as e: h e] *)
Definition try_except {A} (m : ST A) (h : exn -> ST A) : ST A :=
  fun w =>
    match m w with
    | (Return a, w') => (Return a, w')
    | (Raise e, w') => h e w'
    end.

Definition lift {A} (o : outcome A) : ST A := fun w => (o, w).

Definition gets {A} (f : S -> A) : ST A := fun w => (Return (f w), w).

Definition modify (f : S -> S) : ST unit := fun w => (Return tt, f w).

Fixpoint for_each {A} (l : list A) (body : A -> ST unit) : ST unit :=
  match l with
  | [] => ret tt
  | x :: l' => bind (body x) (fun _ => for_each l' body)
  end.

(** A computation keeps [I] as an invariant, whether it returns or
    raises, and every value it returns satisfies [R]. *)
Definition hoare {A} (I : S -> Prop) (m : ST A) (R : A -> Prop) : Prop :=
  forall w, I w -> I (snd (m w)) /\ forall a, fst (m w) = Return a -> R a.

(** A computation returns: no exception gets out of it. *)
Definition returns {A} (m : ST A) : Prop :=
  forall w, exists a, fst (m w) = Return a.

(** The state after a computation is related by [Rel] to the state
    before it. *)
Definition follows {A} (Rel : S -> S -> Prop) (m : ST A) : Prop :=
  forall w, Rel w (snd (m w)).

End Computations.
Arguments ST : clear implicits.

Notation "x <- m ;; k" := (bind m (fun x => k))
  (at level 100, m at next level, right associativity, only parsing).
Notation "m ;;; k" := (bind m (fun _ => k))
  (at level 100, right associativity, only parsing).

(** ** Lexical layer of the JSON codec *)

Open Scope char_scope.

Definition is_digit (c : ascii) : bool :=
  (48 <=? nat_of_ascii c)%nat && (nat_of_ascii c <=? 57)%nat.

(** [WHITESPACE] of [json.decoder]: space, tab, line feed, carriage return. *)
Definition is_ws (c : ascii) : bool :=
  (c =? " ") || (c =? "009") || (c =? "010") || (c =? "013").

Fixpoint skip_ws (s : string) : string :=
  match s with
  | String c s' => if is_ws c then skip_ws s' else s
  | EmptyString => s
  end.

(** The longest prefix of digits, and what follows it. *)
Fixpoint span_digits (s : string) : string * string :=
  match s with
  | String c s' =>
      if is_digit c
      then let (ds, r) := span_digits s' in (String c ds, r)
      else (EmptyString, s)
  | EmptyString => (EmptyString, EmptyString)
  end.

(** [NUMBER_RE] of [json.scanner], group by group: an integer part (an
    optional minus sign, then a lone zero or a digit run that starts with
    1 to 9), an optional fraction (a point and at least one digit) and an
    optional exponent (e or E, an optional sign, at least one digit).
    Each scanner returns the text of its group and the rest. *)
Definition scan_integer (s : string) : option (string * string) :=
  let (sign, s1) :=
    match s with
    | String c r => if c =? "-" then (String c EmptyString, r) else (EmptyString, s)
    | EmptyString => (EmptyString, s)
    end in
  match s1 with
  | String c r =>
      if c =? "0" then Some (sign ++ String c EmptyString, r)%string
      else if is_digit c
           then let (ds, r') := span_digits r in Some (sign ++ String c ds, r')%string
           else None
  | EmptyString => None
  end.

Definition scan_frac (s : string) : string * string :=
  match s with
  | String p (String c r) =>
      if (p =? ".") && is_digit c
      then let (ds, r') := span_digits r in (String p (String c ds), r')
      else (EmptyString, s)
  | _ => (EmptyString, s)
  end.

Definition scan_exp (s : string) : string * string :=
  match s with
  | String e r =>
      if (e =? "e") || (e =? "E") then
        let (sign, r1) :=
          match r with
          | String c r' =>
              if (c =? "+") || (c =? "-") then (String c EmptyString, r') else (EmptyString, r)
          | EmptyString => (EmptyString, r)
          end in
        match r1 with
        | String c r2 =>
            if is_digit c
            then let (ds, r3) := span_digits r2 in
                 (String e (sign ++ String c ds), r3)%string
            else (EmptyString, s)
        | EmptyString => (EmptyString, s)
        end
      else (EmptyString, s)
  | EmptyString => (EmptyString, s)
  end.

(** [NUMBER_RE.match]: the three groups and the rest of the input. *)
Definition match_number (s : string) : option (string * string * string * string) :=
  match scan_integer s with
  | Some (integer, r1) =>
      let (frac, r2) := scan_frac r1 in
      let (exp, r3) := scan_exp r2 in
      Some (integer, frac, exp, r3)
  | None => None
  end.

(** The text matched by [NUMBER_RE], whether it has a fraction or an
    exponent, and the rest of the input. *)
Definition lex_number (s : string) : option (string * bool * string) :=
  match match_number s with
  | Some (integer, frac, exp, rest) =>
      Some ((integer ++ frac ++ exp)%string,
            negb (String.eqb frac EmptyString && String.eqb exp EmptyString),
            rest)
  | None => None
  end.

(** What may follow a number without being taken into it. *)
Definition number_delim (rest : string) : bool :=
  match rest with
  | String c _ => negb (is_digit c || (c =? ".") || (c =? "e") || (c =? "E"))
  | EmptyString => true
  end.

(** [int.__repr__] and [int(text)] on the text of an integer group. *)
Definition digits_of_N (n : N) : string := NilEmpty.string_of_uint (N.to_uint n).

Definition N_of_digits (s : string) : N :=
  match NilEmpty.uint_of_string s with
  | Some d => N.of_uint d
  | None => 0%N
  end.

Definition int_repr (z : Z) : string :=
  if (z <? 0)%Z then String "-" (digits_of_N (Z.abs_N z)) else digits_of_N (Z.abs_N z).

Definition int_of_literal (s : string) : Z :=
  match s with
  | String c r => if c =? "-" then (- Z.of_N (N_of_digits r))%Z else Z.of_N (N_of_digits s)
  | EmptyString => 0%Z
  end.

(** *** String literals *)

Definition hex_digit (n : nat) : ascii :=
  if (n <? 10)%nat then ascii_of_nat (48 + n) else ascii_of_nat (87 + n).

Definition hex_value (c : ascii) : option nat :=
  let n := nat_of_ascii c in
  if (48 <=? n)%nat && (n <=? 57)%nat then Some (n - 48)%nat
  else if (97 <=? n)%nat && (n <=? 102)%nat then Some (n - 87)%nat
  else if (65 <=? n)%nat && (n <=? 70)%nat then Some (n - 55)%nat
  else None.

(** [ESCAPE_ASCII] and [ESCAPE_DCT] of [json.encoder]: one character of
    a string, as written by [ensure_ascii] encoding. *)
Definition escape_char (c : ascii) : string :=
  let n := nat_of_ascii c in
  if c =? "034" then String "\" (String "034" EmptyString)
  else if c =? "\" then String "\" (String "\" EmptyString)
  else if c =? "010" then String "\" (String "n" EmptyString)
  else if c =? "013" then String "\" (String "r" EmptyString)
  else if c =? "009" then String "\" (String "t" EmptyString)
  else if c =? "008" then String "\" (String "b" EmptyString)
  else if c =? "012" then String "\" (String "f" EmptyString)
  else if (32 <=? n)%nat && (n <=? 126)%nat then String c EmptyString
  else String "\" (String "u" (String "0" (String "0"
         (String (hex_digit (n / 16)) (String (hex_digit (n mod 16)) EmptyString))))).

Fixpoint escape_string (s : string) : string :=
  match s with
  | String c s' => (escape_char c ++ escape_string s')%string
  | EmptyString => EmptyString
  end.

(** [py_encode_basestring_ascii] *)
Definition quote (s : string) : string :=
  String "034" (escape_string s ++ String "034" EmptyString)%string.

(** [BACKSLASH] of [json.decoder]. *)
Definition unescape (c : ascii) : option ascii :=
  if c =? "034" then Some "034"
  else if c =? "\" then Some "\"
  else if c =? "/" then Some "/"
  else if c =? "b" then Some "008"
  else if c =? "f" then Some "012"
  else if c =? "n" then Some "010"
  else if c =? "r" then Some "013"
  else if c =? "t" then Some "009"
  else None.

Definition cons_result (c : ascii) (r : option (string * string)) : option (string * string) :=
  match r with
  | Some (x, rest) => Some (String c x, rest)
  | None => None
  end.

(** [scanstring] (strict), started after the opening quote: the decoded
    string and the input after the closing quote. *)
Fixpoint scanstring (s : string) : option (string * string) :=
  match s with
  | EmptyString => None
  | String c s' =>
      if c =? "034" then Some (EmptyString, s')
      else if c =? "\" then
        match s' with
        | String e s'' =>
            if e =? "u" then
              match s'' with
              | String h1 (String h2 (String h3 (String h4 r))) =>
                  match hex_value h1, hex_value h2, hex_value h3, hex_value h4 with
                  | Some a, Some b, Some x, Some y =>
                      if ((a =? 0) && (b =? 0))%nat
                      then cons_result (ascii_of_nat (16 * x + y)) (scanstring r)
                      else None
                  | _, _, _, _ => None
                  end
              | _ => None
              end
            else
              match unescape e with
              | Some c' => cons_result c' (scanstring s'')
              | None => None
              end
        | EmptyString => None
        end
      else if (nat_of_ascii c <? 32)%nat then None
      else cons_result c (scanstring s')
  end.

Close Scope char_scope.

(** *** Heads of texts *)

Open Scope char_scope.

(** The head of a string does not continue a run of digits. *)
Definition not_digit_head (s : string) : bool :=
  match s with
  | String c _ => negb (is_digit c)
  | EmptyString => true
  end.

(** The head of a text that [NUMBER_RE] matches. *)
Definition number_head (s : string) : bool :=
  match s with
  | String c r =>
      is_digit c
      || ((c =? "-") && match r with String d _ => is_digit d | EmptyString => false end)
  | EmptyString => false
  end.

(** The head of a text that starts a value inside an array or an
    object: not whitespace and not a closing bracket. *)
Definition value_head (s : string) : bool :=
  match s with
  | String c _ => negb (is_ws c) && negb (c =? "]") && negb (c =? "}")
  | EmptyString => false
  end.

Close Scope char_scope.

(** ** Floats *)

(** The finite values of Python's [float], with the operations the
    modelled code applies to them.  [float_repr] is [float.__repr__] and
    [float_of_literal] is [float(text)] on the text matched by
    [NUMBER_RE], which may overflow to an infinity. *)
Class PyFloat : Type := {
  float : Type;
  float_eq_dec :: EqDecision float;
  float_repr : float -> string;
  float_sub : float -> float -> float;
  float_ltb : float -> float -> bool;
  float_truth : float -> bool;
  float_of_literal_finite : string -> option float;
}.

(** What the proofs of the codec assume of the floats: [float.__repr__]
    writes a literal of [NUMBER_RE] with a fraction or an exponent,
    [float] reads it back, and [<] is asymmetric. *)
Class PyFloatLaws `{PyFloat} : Prop := {
  float_repr_lex : forall x rest,
    number_delim rest = true ->
    lex_number (float_repr x ++ rest) = Some (float_repr x, true, rest);
  float_of_repr : forall x, float_of_literal_finite (float_repr x) = Some x;
  float_ltb_asym : forall a b, float_ltb a b = true -> float_ltb b a = false;
}.

Section Json.
Context `{PyFloat}.

(** A Python float: finite, or one of the three values that
    [json.dumps] writes as [Infinity], [-Infinity] and [NaN]. *)
Inductive pyfloat : Type :=
| Finite (x : float)
| Inf
| NegInf
| NaN.

(** [float(text)]: a literal whose magnitude is beyond the finite range
    reads as an infinity of its sign. *)
Definition float_of_literal (s : string) : pyfloat :=
  match float_of_literal_finite s with
  | Some x => Finite x
  | None =>
      match s with
      | String c _ => if (c =? "-")%char then NegInf else Inf
      | EmptyString => Inf
      end
  end.

(** ** JSON values: what [json.loads] returns and [json.dumps] accepts *)

Unset Elimination Schemes.
Inductive json : Type :=
| JNull
| JBool (b : bool)
| JInt (z : Z)
| JFloat (f : pyfloat)
| JStr (s : string)
| JArr (xs : list json)
| JObj (kvs : list (string * json)).
Set Elimination Schemes.

(** *** Encoding: [json.dumps] *)

Fixpoint sep_join (sep : string) (l : list string) : string :=
  match l with
  | [] => EmptyString
  | [x] => x
  | x :: l' => x ++ sep ++ sep_join sep l'
  end.

(** [floatstr] of [json.encoder] (with [allow_nan]). *)
Definition floatstr (f : pyfloat) : string :=
  match f with
  | Finite x => float_repr x
  | Inf => "Infinity"
  | NegInf => "-Infinity"
  | NaN => "NaN"
  end.

Fixpoint dumps (v : json) : string :=
  match v with
  | JNull => "null"
  | JBool true => "true"
  | JBool false => "false"
  | JInt z => int_repr z
  | JFloat f => floatstr f
  | JStr s => quote s
  | JArr xs => "[" ++ sep_join ", " (map dumps xs) ++ "]"
  | JObj kvs =>
      "{" ++ sep_join ", " (map (fun kv => quote (fst kv) ++ ": " ++ dumps (snd kv)) kvs) ++ "}"
  end.

(** *** Decoding: [json.loads] *)

(** [s.startswith(lit)], returning what follows. *)
Fixpoint strip_prefix (lit s : string) : option string :=
  match lit, s with
  | EmptyString, _ => Some s
  | String a lit', String b s' => if (a =? b)%char then strip_prefix lit' s' else None
  | String _ _, EmptyString => None
  end.

(** [_match_number]: an integer unless a fraction or an exponent was
    matched. *)
Definition scan_number (s : string) : option (json * string) :=
  match match_number s with
  | Some (integer, frac, exp, rest) =>
      match frac, exp with
      | EmptyString, EmptyString => Some (JInt (int_of_literal integer), rest)
      | _, _ => Some (JFloat (float_of_literal (integer ++ frac ++ exp)), rest)
      end
  | None => None
  end.

(** The constants that [scan_once] tries before a number. *)
Definition scan_constant (s : string) : option (json * string) :=
  match strip_prefix "null" s with Some r => Some (JNull, r) | None =>
  match strip_prefix "true" s with Some r => Some (JBool true, r) | None =>
  match strip_prefix "false" s with Some r => Some (JBool false, r) | None =>
  match strip_prefix "NaN" s with Some r => Some (JFloat NaN, r) | None =>
  match strip_prefix "Infinity" s with Some r => Some (JFloat Inf, r) | None =>
  match strip_prefix "-Infinity" s with Some r => Some (JFloat NegInf, r) | None =>
  None end end end end end end.

(** [scan_once], with [JSONObject] and [JSONArray] as the loops
    [parse_members] and [parse_elements].  The fuel bounds the number of
    nested calls; [loads] starts with more fuel than the text has
    characters, and every call consumes one. *)
Fixpoint scan_once (fuel : nat) (s : string) {struct fuel} : option (json * string) :=
  match fuel with
  | O => None
  | S n =>
      match s with
      | String c r =>
          if (c =? "034")%char then
            match scanstring r with
            | Some (x, r') => Some (JStr x, r')
            | None => None
            end
          else if (c =? "{")%char then
            match skip_ws r with
            | String c1 r1 =>
                if (c1 =? "}")%char then Some (JObj [], r1)
                else parse_members n (String c1 r1) []
            | EmptyString => None
            end
          else if (c =? "[")%char then
            match skip_ws r with
            | String c1 r1 =>
                if (c1 =? "]")%char then Some (JArr [], r1)
                else parse_elements n (String c1 r1) []
            | EmptyString => None
            end
          else
            match scan_constant s with
            | Some res => Some res
            | None => scan_number s
            end
      | EmptyString => None
      end
  end
with parse_members (fuel : nat) (s : string) (acc : list (string * json))
       {struct fuel} : option (json * string) :=
  match fuel with
  | O => None
  | S n =>
      match s with
      | String q r =>
          if (q =? "034")%char then
            match scanstring r with
            | Some (key, r1) =>
                match skip_ws r1 with
                | String colon r2 =>
                    if (colon =? ":")%char then
                      match scan_once n (skip_ws r2) with
                      | Some (v, r3) =>
                          let acc' := Dict.set key v acc in
                          match skip_ws r3 with
                          | String c r4 =>
                              if (c =? "}")%char then Some (JObj acc', r4)
                              else if (c =? ",")%char then parse_members n (skip_ws r4) acc'
                              else None
                          | EmptyString => None
                          end
                      | None => None
                      end
                    else None
                | EmptyString => None
                end
            | None => None
            end
          else None
      | EmptyString => None
      end
  end
with parse_elements (fuel : nat) (s : string) (acc : list json)
       {struct fuel} : option (json * string) :=
  match fuel with
  | O => None
  | S n =>
      match scan_once n s with
      | Some (v, r1) =>
          let acc' := (acc ++ [v])%list in
          match skip_ws r1 with
          | String c r2 =>
              if (c =? "]")%char then Some (JArr acc', r2)
              else if (c =? ",")%char then parse_elements n (skip_ws r2) acc'
              else None
          | EmptyString => None
          end
      | None => None
      end
  end.

(** [JSONDecoder.decode]: leading whitespace, one value, trailing
    whitespace, and nothing else. *)
Definition loads (s : string) : outcome json :=
  let s0 := skip_ws s in
  match scan_once (S (String.length s0)) s0 with
  | Some (v, r) =>
      match skip_ws r with
      | EmptyString => Return v
      | String _ _ => Raise JSONDecodeError
      end
  | None => Raise JSONDecodeError
  end.

(** A value that [json.dumps] and [json.loads] carry faithfully: the
    keys of every object are distinct and no number is NaN, which does
    not compare equal to itself. *)
Fixpoint distinct (l : list string) : bool :=
  match l with
  | [] => true
  | k :: l' => negb (existsb (String.eqb k) l') && distinct l'
  end.

Fixpoint json_valid (v : json) : bool :=
  match v with
  | JFloat NaN => false
  | JArr xs => forallb json_valid xs
  | JObj kvs => distinct (map fst kvs) && forallb (fun kv => json_valid (snd kv)) kvs
  | _ => true
  end.

(** *** Python operations on decoded values *)

(** Truth value testing. *)
Definition py_truthy (v : json) : bool :=
  match v with
  | JNull => false
  | JBool b => b
  | JInt z => negb (z =? 0)%Z
  | JFloat (Finite x) => float_truth x
  | JFloat _ => true
  | JStr s => negb (String.eqb s EmptyString)
  | JArr xs => match xs with [] => false | _ => true end
  | JObj kvs => match kvs with [] => false | _ => true end
  end.

(** [obj.get(key, default)]: only a dict has [get]. *)
Definition py_get (obj : json) (key : string) (default : json) : outcome json :=
  match obj with
  | JObj kvs => Return (match Dict.get key kvs with Some v => v | None => default end)
  | _ => Raise AttributeError
  end.

(** [value == "text"] *)
Definition py_eq_str (v : json) (s : string) : bool :=
  match v with
  | JStr x => String.eqb x s
  | _ => false
  end.

(** [k in d] where [d] is a dict with str keys and [k] is any value:
    an unhashable [k] raises, a value that is not a str is not a key. *)
Definition py_in_dict {V : Type} (k : json) (d : list (string * V)) : outcome bool :=
  match k with
  | JStr s => Return (Dict.mem s d)
  | JArr _ | JObj _ => Raise TypeError
  | _ => Return false
  end.

(** The text of one member of an object. *)
Definition member_text (kv : string * json) : string :=
  quote (fst kv) ++ ": " ++ dumps (snd kv).

(** The round-trip property of one value, at every sufficient fuel and
    in front of every continuation that cannot extend a number. *)
Definition roundtrips (v : json) : Prop :=
  forall fuel rest,
    String.length (dumps v) <= fuel ->
    number_delim rest = true ->
    scan_once fuel (dumps v ++ rest) = Some (v, rest).

End Json.

(** ** core/device_communication.py: message protocol *)

Module MessageType.
Inductive t : Type :=
| COMMAND | RESPONSE | ACK
| HEARTBEAT | STATUS
| EVENT | ERROR
| STREAM_START | STREAM_DATA | STREAM_END.

#[global] Instance eq_dec : EqDecision t.
Proof. solve_decision. Defined.

(** [.value] *)
Definition value (x : t) : string :=
  match x with
  | COMMAND => "command"
  | RESPONSE => "response"
  | ACK => "ack"
  | HEARTBEAT => "heartbeat"
  | STATUS => "status"
  | EVENT => "event"
  | ERROR => "error"
  | STREAM_START => "stream_start"
  | STREAM_DATA => "stream_data"
  | STREAM_END => "stream_end"
  end.

Definition members : list t :=
  [COMMAND; RESPONSE; ACK; HEARTBEAT; STATUS; EVENT; ERROR;
   STREAM_START; STREAM_DATA; STREAM_END].

(** The member whose value is the given text, if any. *)
Definition of_value (s : string) : option t :=
  find (fun m => String.eqb (value m) s) members.
End MessageType.

(** [core/device_registry.py], as far as the connection manager uses it. *)
Module DeviceStatus.
Inductive t : Type := OFFLINE | ONLINE | BUSY | ERROR | UNKNOWN.

#[global] Instance eq_dec : EqDecision t.
Proof. solve_decision. Defined.
End DeviceStatus.

(** [str.lower] on code points below 256. *)
Definition char_lower (c : ascii) : ascii :=
  let n := nat_of_ascii c in
  if ((65 <=? n) && (n <=? 90))%nat then ascii_of_nat (n + 32)
  else if ((192 <=? n) && (n <=? 222) && negb (n =? 215))%nat then ascii_of_nat (n + 32)
  else c.

Fixpoint str_lower (s : string) : string :=
  match s with
  | String c s' => String (char_lower c) (str_lower s')
  | EmptyString => EmptyString
  end.

(** [s[:n]] *)
Fixpoint str_take (n : nat) (s : string) : string :=
  match n, s with
  | S n', String c s' => String c (str_take n' s')
  | _, _ => EmptyString
  end.

Module DeviceMessage.
Section DeviceMessage.
Context `{PyFloat}.

(** The dataclass [DeviceMessage].  Only [type] is converted on
    decoding; the other fields hold whatever value the peer sent. *)
Record t : Type := {
  type : MessageType.t;
  action : json;
  payload : json;
  message_id : json;
  timestamp : json;
  device_id : json;
  correlation_id : json;
}.

Definition to_json (m : t) : string :=
  dumps (JObj [
    ("type", JStr (MessageType.value (type m)));
    ("action", action m);
    ("payload", payload m);
    ("message_id", message_id m);
    ("timestamp", timestamp m);
    ("device_id", device_id m);
    ("correlation_id", correlation_id m)]).

(** [message.device_id = device_id] *)
Definition set_device_id (d : json) (m : t) : t :=
  {| type := type m; action := action m; payload := payload m;
     message_id := message_id m; timestamp := timestamp m;
     device_id := d; correlation_id := correlation_id m |}.
End DeviceMessage.
End DeviceMessage.

Module DeviceConnection.
Section DeviceConnection.
Context `{PyFloat}.

(** The dataclass [DeviceConnection].  [websocket] is a reference into
    the socket store and [pending_requests] maps a message id to a
    reference into the future store. *)
Record t : Type := {
  device_id : string;
  websocket : option nat;
  connected_at : float;
  last_heartbeat : float;
  last_message : float;
  messages_sent : nat;
  messages_received : nat;
  commands_executed : nat;
  errors : nat;
  status : string;
  pending_requests : list (string * nat);
}.

Definition set_last_heartbeat (x : float) (c : t) : t :=
  {| device_id := device_id c; websocket := websocket c;
     connected_at := connected_at c; last_heartbeat := x;
     last_message := last_message c; messages_sent := messages_sent c;
     messages_received := messages_received c;
     commands_executed := commands_executed c; errors := errors c;
     status := status c; pending_requests := pending_requests c |}.

Definition set_last_message (x : float) (c : t) : t :=
  {| device_id := device_id c; websocket := websocket c;
     connected_at := connected_at c; last_heartbeat := last_heartbeat c;
     last_message := x; messages_sent := messages_sent c;
     messages_received := messages_received c;
     commands_executed := commands_executed c; errors := errors c;
     status := status c; pending_requests := pending_requests c |}.

Definition incr_messages_sent (c : t) : t :=
  {| device_id := device_id c; websocket := websocket c;
     connected_at := connected_at c; last_heartbeat := last_heartbeat c;
     last_message := last_message c; messages_sent := S (messages_sent c);
     messages_received := messages_received c;
     commands_executed := commands_executed c; errors := errors c;
     status := status c; pending_requests := pending_requests c |}.

Definition incr_messages_received (c : t) : t :=
  {| device_id := device_id c; websocket := websocket c;
     connected_at := connected_at c; last_heartbeat := last_heartbeat c;
     last_message := last_message c; messages_sent := messages_sent c;
     messages_received := S (messages_received c);
     commands_executed := commands_executed c; errors := errors c;
     status := status c; pending_requests := pending_requests c |}.

Definition incr_commands_executed (c : t) : t :=
  {| device_id := device_id c; websocket := websocket c;
     connected_at := connected_at c; last_heartbeat := last_heartbeat c;
     last_message := last_message c; messages_sent := messages_sent c;
     messages_received := messages_received c;
     commands_executed := S (commands_executed c); errors := errors c;
     status := status c; pending_requests := pending_requests c |}.

Definition incr_errors (c : t) : t :=
  {| device_id := device_id c; websocket := websocket c;
     connected_at := connected_at c; last_heartbeat := last_heartbeat c;
     last_message := last_message c; messages_sent := messages_sent c;
     messages_received := messages_received c;
     commands_executed := commands_executed c; errors := S (errors c);
     status := status c; pending_requests := pending_requests c |}.

Definition set_pending_requests (p : list (string * nat)) (c : t) : t :=
  {| device_id := device_id c; websocket := websocket c;
     connected_at := connected_at c; last_heartbeat := last_heartbeat c;
     last_message := last_message c; messages_sent := messages_sent c;
     messages_received := messages_received c;
     commands_executed := commands_executed c; errors := errors c;
     status := status c; pending_requests := p |}.

(** [is_alive(timeout)], given the reading of [time.time()]. *)
Definition is_alive (now : float) (timeout : float) (c : t) : bool :=
  float_ltb (float_sub now (last_heartbeat c)) timeout.
End DeviceConnection.
End DeviceConnection.

(** ** The state of the connection manager and of its environment *)

Section World.
Context `{PyFloat}.

(** An [asyncio.Future]. *)
Inductive Future : Type :=
| Pending
| Done (result : json)
| Cancelled.

(** A WebSocket of the server framework: what was sent on it, whether it
    was closed on this side, and whether the transport is broken, in
    which case [send_text] raises. *)
Record WebSocket : Type := {
  ws_sent : list string;
  ws_closed : bool;
  ws_broken : bool;
}.

(** A registered message handler: called with the device id and the
    message, it returns a value or raises. *)
Definition Handler : Type := string -> DeviceMessage.t -> outcome json.

(** The singleton [DeviceCommunication] (first six fields), the objects
    it refers to, the device registry it reports to, the record of the
    callbacks' invocations by [_emit_event], and the two sources of
    values the code draws from its environment: [time.time()] and
    [str(uuid.uuid4())[:8]].  [clock n] is the n-th reading that this
    module takes; the readings that the registry takes for its own
    records are not counted. *)
Record World : Type := {
  connections : list (string * nat);
  _heartbeat_task : bool;
  _message_handlers : list (string * Handler);
  heartbeat_interval : float;
  heartbeat_timeout : float;
  command_timeout : float;
  conn_store : list DeviceConnection.t;
  future_store : list Future;
  socket_store : list WebSocket;
  registry_devices : list (string * DeviceStatus.t);
  registry_events : list (string * string);
  emitted : list (string * string);
  clock : nat -> float;
  clock_reads : nat;
  uuid8 : nat -> string;
  uuid_draws : nat;
}.

Definition set_connections (x : list (string * nat)) (w : World) : World :=
  {| connections := x; _heartbeat_task := _heartbeat_task w;
     _message_handlers := _message_handlers w;
     heartbeat_interval := heartbeat_interval w;
     heartbeat_timeout := heartbeat_timeout w;
     command_timeout := command_timeout w;
     conn_store := conn_store w; future_store := future_store w;
     socket_store := socket_store w;
     registry_devices := registry_devices w;
     registry_events := registry_events w; emitted := emitted w;
     clock := clock w; clock_reads := clock_reads w;
     uuid8 := uuid8 w; uuid_draws := uuid_draws w |}.

Definition set_heartbeat_task (x : bool) (w : World) : World :=
  {| connections := connections w; _heartbeat_task := x;
     _message_handlers := _message_handlers w;
     heartbeat_interval := heartbeat_interval w;
     heartbeat_timeout := heartbeat_timeout w;
     command_timeout := command_timeout w;
     conn_store := conn_store w; future_store := future_store w;
     socket_store := socket_store w;
     registry_devices := registry_devices w;
     registry_events := registry_events w; emitted := emitted w;
     clock := clock w; clock_reads := clock_reads w;
     uuid8 := uuid8 w; uuid_draws := uuid_draws w |}.


Definition set_conn_store (x : list DeviceConnection.t) (w : World) : World :=
  {| connections := connections w; _heartbeat_task := _heartbeat_task w;
     _message_handlers := _message_handlers w;
     heartbeat_interval := heartbeat_interval w;
     heartbeat_timeout := heartbeat_timeout w;
     command_timeout := command_timeout w;
     conn_store := x; future_store := future_store w;
     socket_store := socket_store w;
     registry_devices := registry_devices w;
     registry_events := registry_events w; emitted := emitted w;
     clock := clock w; clock_reads := clock_reads w;
     uuid8 := uuid8 w; uuid_draws := uuid_draws w |}.

Definition set_future_store (x : list Future) (w : World) : World :=
  {| connections := connections w; _heartbeat_task := _heartbeat_task w;
     _message_handlers := _message_handlers w;
     heartbeat_interval := heartbeat_interval w;
     heartbeat_timeout := heartbeat_timeout w;
     command_timeout := command_timeout w;
     conn_store := conn_store w; future_store := x;
     socket_store := socket_store w;
     registry_devices := registry_devices w;
     registry_events := registry_events w; emitted := emitted w;
     clock := clock w; clock_reads := clock_reads w;
     uuid8 := uuid8 w; uuid_draws := uuid_draws w |}.

Definition set_socket_store (x : list WebSocket) (w : World) : World :=
  {| connections := connections w; _heartbeat_task := _heartbeat_task w;
     _message_handlers := _message_handlers w;
     heartbeat_interval := heartbeat_interval w;
     heartbeat_timeout := heartbeat_timeout w;
     command_timeout := command_timeout w;
     conn_store := conn_store w; future_store := future_store w;
     socket_store := x;
     registry_devices := registry_devices w;
     registry_events := registry_events w; emitted := emitted w;
     clock := clock w; clock_reads := clock_reads w;
     uuid8 := uuid8 w; uuid_draws := uuid_draws w |}.

Definition set_registry (d : list (string * DeviceStatus.t))
    (e : list (string * string)) (w : World) : World :=
  {| connections := connections w; _heartbeat_task := _heartbeat_task w;
     _message_handlers := _message_handlers w;
     heartbeat_interval := heartbeat_interval w;
     heartbeat_timeout := heartbeat_timeout w;
     command_timeout := command_timeout w;
     conn_store := conn_store w; future_store := future_store w;
     socket_store := socket_store w;
     registry_devices := d;
     registry_events := e; emitted := emitted w;
     clock := clock w; clock_reads := clock_reads w;
     uuid8 := uuid8 w; uuid_draws := uuid_draws w |}.

Definition set_emitted (x : list (string * string)) (w : World) : World :=
  {| connections := connections w; _heartbeat_task := _heartbeat_task w;
     _message_handlers := _message_handlers w;
     heartbeat_interval := heartbeat_interval w;
     heartbeat_timeout := heartbeat_timeout w;
     command_timeout := command_timeout w;
     conn_store := conn_store w; future_store := future_store w;
     socket_store := socket_store w;
     registry_devices := registry_devices w;
     registry_events := registry_events w; emitted := x;
     clock := clock w; clock_reads := clock_reads w;
     uuid8 := uuid8 w; uuid_draws := uuid_draws w |}.

Definition set_clock_reads (x : nat) (w : World) : World :=
  {| connections := connections w; _heartbeat_task := _heartbeat_task w;
     _message_handlers := _message_handlers w;
     heartbeat_interval := heartbeat_interval w;
     heartbeat_timeout := heartbeat_timeout w;
     command_timeout := command_timeout w;
     conn_store := conn_store w; future_store := future_store w;
     socket_store := socket_store w;
     registry_devices := registry_devices w;
     registry_events := registry_events w; emitted := emitted w;
     clock := clock w; clock_reads := x;
     uuid8 := uuid8 w; uuid_draws := uuid_draws w |}.

Definition set_uuid_draws (x : nat) (w : World) : World :=
  {| connections := connections w; _heartbeat_task := _heartbeat_task w;
     _message_handlers := _message_handlers w;
     heartbeat_interval := heartbeat_interval w;
     heartbeat_timeout := heartbeat_timeout w;
     command_timeout := command_timeout w;
     conn_store := conn_store w; future_store := future_store w;
     socket_store := socket_store w;
     registry_devices := registry_devices w;
     registry_events := registry_events w; emitted := emitted w;
     clock := clock w; clock_reads := clock_reads w;
     uuid8 := uuid8 w; uuid_draws := x |}.

(** The computations of the connection manager. *)
Definition M (A : Type) : Type := ST World A.

End World.


(** ** core/device_communication.py: [DeviceCommunication] *)

Section DeviceCommunication.
Context `{PyFloat}.

(** *** The environment *)

(** [time.time()] *)
Definition time_time : M float :=
  fun w => (Return (clock w (clock_reads w)), set_clock_reads (S (clock_reads w)) w).

(** [str(uuid.uuid4())[:8]] *)
Definition uuid4_8 : M string :=
  fun w => (Return (uuid8 w (uuid_draws w)), set_uuid_draws (S (uuid_draws w)) w).

(** [asyncio.Future()] *)
Definition new_future : M nat :=
  fun w => (Return (length (future_store w)),
            set_future_store (future_store w ++ [Pending])%list w).

(** [websocket.send_text(text)] *)
Definition ws_send_text (ws : nat) (text : string) : M unit :=
  fun w =>
    match socket_store w !! ws with
    | Some s =>
        if ws_closed s || ws_broken s then (Raise RuntimeError, w)
        else (Return tt,
              set_socket_store
                (<[ws := {| ws_sent := (ws_sent s ++ [text])%list;
                            ws_closed := ws_closed s;
                            ws_broken := ws_broken s |}]> (socket_store w)) w)
    | None => (Raise RuntimeError, w)
    end.

(** [websocket.close()] *)
Definition ws_close (ws : nat) : M unit :=
  fun w =>
    match socket_store w !! ws with
    | Some s =>
        if ws_closed s then (Raise RuntimeError, w)
        else (Return tt,
              set_socket_store
                (<[ws := {| ws_sent := ws_sent s; ws_closed := true;
                            ws_broken := ws_broken s |}]> (socket_store w)) w)
    | None => (Raise RuntimeError, w)
    end.

(** [device_registry.update_status(device_id, status=status)] *)
Definition registry_update_status (device_id : string) (status : DeviceStatus.t) : M bool :=
  fun w =>
    match Dict.get device_id (registry_devices w) with
    | None => (Return false, w)
    | Some old_status =>
        let devices := Dict.set device_id status (registry_devices w) in
        let events :=
          if decide (old_status = status) then registry_events w
          else match status with
               | DeviceStatus.ONLINE => (registry_events w ++ [("online", device_id)])%list
               | DeviceStatus.OFFLINE => (registry_events w ++ [("offline", device_id)])%list
               | _ => registry_events w
               end in
        (Return true, set_registry devices events w)
    end.

(** [device_registry.register(device_id=device_id, device_type=platform, ...)]:
    the device is stored with status ONLINE; [device_type.lower()]
    raises when the platform is not a str. *)
Definition registry_register (device_id : string) (platform : json) : M unit :=
  match platform with
  | JStr _ =>
      modify (fun w =>
        set_registry (Dict.set device_id DeviceStatus.ONLINE (registry_devices w))
                     (registry_events w ++ [("registered", device_id)])%list w)
  | _ => raise AttributeError
  end.

(** *** Objects *)

(** [self.connections.get(device_id)], with the object it refers to. *)
Definition lookup_conn (device_id : string) (w : World) : option (nat * DeviceConnection.t) :=
  match Dict.get device_id (connections w) with
  | Some c =>
      match conn_store w !! c with
      | Some conn => Some (c, conn)
      | None => None
      end
  | None => None
  end.

(** An attribute assignment on the connection object [c]. *)
Definition update_conn (c : nat) (f : DeviceConnection.t -> DeviceConnection.t) : M unit :=
  modify (fun w =>
    match conn_store w !! c with
    | Some conn => set_conn_store (<[c := f conn]> (conn_store w)) w
    | None => w
    end).

(** [DeviceMessage(type=..., ...)]: the two default factories run in the
    order of the fields. *)
Definition new_message (ty : MessageType.t) (action payload device_id correlation_id : json)
  : M DeviceMessage.t :=
  mid <- uuid4_8 ;;
  ts <- time_time ;;
  ret {| DeviceMessage.type := ty;
         DeviceMessage.action := action;
         DeviceMessage.payload := payload;
         DeviceMessage.message_id := JStr mid;
         DeviceMessage.timestamp := JFloat (Finite ts);
         DeviceMessage.device_id := device_id;
         DeviceMessage.correlation_id := correlation_id |}.

(** [MessageType(value)] *)
Definition MessageType_call (v : json) : outcome MessageType.t :=
  match v with
  | JStr s =>
      match MessageType.of_value s with
      | Some m => Return m
      | None => Raise ValueError
      end
  | _ => Raise ValueError
  end.

(** [DeviceMessage.from_json(data)] *)
Definition from_json (data : string) : M DeviceMessage.t :=
  obj <- lift (loads data) ;;
  ty_value <- lift (py_get obj "type" (JStr "command")) ;;
  ty <- lift (MessageType_call ty_value) ;;
  action <- lift (py_get obj "action" (JStr "")) ;;
  payload <- lift (py_get obj "payload" (JObj [])) ;;
  message_id <- lift (py_get obj "message_id" (JStr "")) ;;
  now <- time_time ;;
  timestamp <- lift (py_get obj "timestamp" (JFloat (Finite now))) ;;
  device_id <- lift (py_get obj "device_id" (JStr "")) ;;
  correlation_id <- lift (py_get obj "correlation_id" (JStr "")) ;;
  ret {| DeviceMessage.type := ty;
         DeviceMessage.action := action;
         DeviceMessage.payload := payload;
         DeviceMessage.message_id := message_id;
         DeviceMessage.timestamp := timestamp;
         DeviceMessage.device_id := device_id;
         DeviceMessage.correlation_id := correlation_id |}.

(** *** Events *)

(** [_emit_event]: every callback of the event's list is called and an
    exception of a callback is logged; the model records the call. *)
Definition _emit_event (event_type device_id : string) : M unit :=
  modify (fun w => set_emitted (emitted w ++ [(event_type, device_id)])%list w).

(** *** Connection management *)

(** [connect(device_id, websocket)].  The body cannot raise after the
    registry call, whose own exceptions are swallowed. *)
Definition connect (device_id : string) (websocket : nat) : M bool :=
  try_except
    (t1 <- time_time ;;
     t2 <- time_time ;;
     t3 <- time_time ;;
     let conn := {| DeviceConnection.device_id := device_id;
                    DeviceConnection.websocket := Some websocket;
                    DeviceConnection.connected_at := t1;
                    DeviceConnection.last_heartbeat := t2;
                    DeviceConnection.last_message := t3;
                    DeviceConnection.messages_sent := 0;
                    DeviceConnection.messages_received := 0;
                    DeviceConnection.commands_executed := 0;
                    DeviceConnection.errors := 0;
                    DeviceConnection.status := "connected";
                    DeviceConnection.pending_requests := [] |} in
     modify (fun w =>
       set_connections (Dict.set device_id (length (conn_store w)) (connections w))
         (set_conn_store (conn_store w ++ [conn])%list w)) ;;;
     try_except (registry_update_status device_id DeviceStatus.ONLINE ;;; ret tt)
                (fun _ => ret tt) ;;;
     modify (set_heartbeat_task true) ;;;
     _emit_event "connected" device_id ;;;
     ret true)
    (fun _ => ret false).

(** [disconnect(device_id)] *)
Definition disconnect (device_id : string) : M bool :=
  fun w =>
    match Dict.get device_id (connections w) with
    | None => (Return false, w)
    | Some c =>
        (modify (fun w => set_connections (Dict.pop device_id (connections w)) w) ;;;
         match conn_store w !! c with
         | Some conn =>
             match DeviceConnection.websocket conn with
             | Some ws => try_except (ws_close ws) (fun _ => ret tt)
             | None => ret tt
             end
         | None => ret tt
         end ;;;
         try_except (registry_update_status device_id DeviceStatus.OFFLINE ;;; ret tt)
                    (fun _ => ret tt) ;;;
         _emit_event "disconnected" device_id ;;;
         ret true) w
    end.

(** [is_connected(device_id)] *)
Definition is_connected (device_id : string) : M bool :=
  fun w =>
    match lookup_conn device_id w with
    | Some (_, conn) =>
        (now <- time_time ;;
         ret (DeviceConnection.is_alive now (heartbeat_timeout w) conn)) w
    | None => (Return false, w)
    end.

(** *** Sending *)

(** [send(device_id, message)] *)
Definition send (device_id : string) (message : DeviceMessage.t) : M bool :=
  fun w =>
    match lookup_conn device_id w with
    | Some (c, conn) =>
        match DeviceConnection.websocket conn with
        | Some ws =>
            try_except
              (let message := DeviceMessage.set_device_id (JStr device_id) message in
               ws_send_text ws (DeviceMessage.to_json message) ;;;
               update_conn c DeviceConnection.incr_messages_sent ;;;
               now <- time_time ;;
               update_conn c (DeviceConnection.set_last_message now) ;;;
               ret true)
              (fun _ =>
               update_conn c DeviceConnection.incr_errors ;;;
               ret false) w
        | None => (Return false, w)
        end
    | None => (Return false, w)
    end.

(** A [send_command] suspended in [asyncio.wait_for]: the connection
    object and the message id it holds in local variables, the future
    it awaits and the timeout in force. *)
Record PendingCall : Type := {
  call_conn : nat;
  call_message_id : string;
  call_future : nat;
  call_timeout : float;
}.

Inductive CallProgress : Type :=
| Returned (result : json)
| Awaiting (call : PendingCall).

Definition failure (error : string) : json :=
  JObj [("success", JBool false); ("error", JStr error)].

(** The [finally] clause of [send_command]:
    [conn.pending_requests.pop(message.message_id, None)]. *)
Definition pop_pending (c : nat) (message_id : string) : M unit :=
  update_conn c (fun conn =>
    DeviceConnection.set_pending_requests
      (Dict.pop message_id (DeviceConnection.pending_requests conn)) conn).

(** [send_command(device_id, action, params, timeout)] up to its
    suspension in [asyncio.wait_for], or to its return if it does not
    get there. *)
Definition send_command_begin (device_id : string) (action : string)
    (params : option json) (timeout : option float) : M CallProgress :=
  fun w =>
    match lookup_conn device_id w with
    | Some (c, conn) =>
        match DeviceConnection.websocket conn with
        | Some _ =>
            let timeout :=
              match timeout with
              | Some t => if float_truth t then t else command_timeout w
              | None => command_timeout w
              end in
            let payload :=
              match params with
              | Some p => if py_truthy p then p else JObj []
              | None => JObj []
              end in
            (mid <- uuid4_8 ;;
             ts <- time_time ;;
             let message :=
               {| DeviceMessage.type := MessageType.COMMAND;
                  DeviceMessage.action := JStr action;
                  DeviceMessage.payload := payload;
                  DeviceMessage.message_id := JStr mid;
                  DeviceMessage.timestamp := JFloat (Finite ts);
                  DeviceMessage.device_id := JStr "";
                  DeviceMessage.correlation_id := JStr "" |} in
             future <- new_future ;;
             update_conn c (fun conn =>
               DeviceConnection.set_pending_requests
                 (Dict.set mid future (DeviceConnection.pending_requests conn)) conn) ;;;
             success <- send device_id message ;;
             if success
             then ret (Awaiting {| call_conn := c; call_message_id := mid;
                                   call_future := future; call_timeout := timeout |})
             else (pop_pending c mid ;;; ret (Returned (failure "发送失败")))) w
        | None => (Return (Returned (failure "设备未连接")), w)
        end
    | None => (Return (Returned (failure "设备未连接")), w)
    end.

(** The rest of [send_command], run when [asyncio.wait_for] returns:
    with the result if the future is done, or by raising [TimeoutError]
    after cancelling the future if [timed_out].  [None]: the call stays
    suspended. *)
Definition send_command_resume (call : PendingCall) (timed_out : bool)
  : World -> option (json * World) :=
  fun w =>
    match future_store w !! call_future call with
    | Some (Done response) =>
        match (update_conn (call_conn call) DeviceConnection.incr_commands_executed ;;;
               pop_pending (call_conn call) (call_message_id call)) w with
        | (_, w') => Some (response, w')
        end
    | Some Pending =>
        if timed_out then
          match (modify (fun w =>
                   set_future_store (<[call_future call := Cancelled]> (future_store w)) w) ;;;
                 pop_pending (call_conn call) (call_message_id call)) w with
          | (_, w') => Some (failure "命令超时", w')
          end
        else None
    | _ => None
    end.

(** *** Inbound messages *)

(** [_handle_event]: the two reads of the payload. *)
Definition _handle_event (device_id : string) (message : DeviceMessage.t) : M unit :=
  _ <- lift (py_get (DeviceMessage.payload message) "event_type" (JStr "")) ;;
  _ <- lift (py_get (DeviceMessage.payload message) "data" (JObj [])) ;;
  ret tt.

(** [_handle_status]: its body reads the payload inside a bare
    [try]/[except] and does nothing else. *)
Definition _handle_status (device_id : string) (message : DeviceMessage.t) : M unit :=
  ret tt.

(** [future.set_result(value)] unless [future.done()]. *)
Definition resolve_future (f : nat) (value : json) : M unit :=
  modify (fun w =>
    match future_store w !! f with
    | Some Pending => set_future_store (<[f := Done value]> (future_store w)) w
    | _ => w
    end).

(** The [try] block of [handle_message], for the connection object [c]
    found for [device_id]. *)
Definition handle_message_body (device_id : string) (c : nat) (message_data : string)
  : M (option DeviceMessage.t) :=
  raw_msg <- lift (loads message_data) ;;
  ty <- lift (py_get raw_msg "type" JNull) ;;
  if py_eq_str ty "handshake" then
    try_except
      (device <- gets (fun w => Dict.get device_id (registry_devices w)) ;;
       match device with
       | None =>
           platform <- lift (py_get raw_msg "platform" (JStr "android")) ;;
           _ <- lift (py_get raw_msg "version" (JStr "2.0")) ;;
           registry_register device_id platform
       | Some _ => ret tt
       end)
      (fun _ => ret tt) ;;;
    reply <- new_message MessageType.ACK (JStr "handshake")
               (JObj [("status", JStr "connected"); ("device_id", JStr device_id)])
               (JStr "") (JStr "") ;;
    ret (Some reply)
  else if py_eq_str ty "heartbeat" then
    now <- time_time ;;
    update_conn c (DeviceConnection.set_last_heartbeat now) ;;;
    reply <- new_message MessageType.ACK (JStr "heartbeat") (JObj []) (JStr "") (JStr "") ;;
    ret (Some reply)
  else
    members <- lift (match raw_msg with
                     | JObj kvs => Return kvs
                     | _ => Raise AttributeError
                     end) ;;
    message <-
      (if Dict.mem "type" members && Dict.mem "payload" members then
         ty_lower <- lift (match ty with
                           | JStr s => Return (JStr (str_lower s))
                           | _ => Raise AttributeError
                           end) ;;
         payload <- lift (py_get raw_msg "payload" (JObj [])) ;;
         new_message
           (if py_eq_str ty "TEXT" || py_eq_str ty "COMMAND"
            then MessageType.COMMAND else MessageType.EVENT)
           ty_lower payload (JStr device_id) (JStr "")
       else from_json message_data) ;;
    update_conn c DeviceConnection.incr_messages_received ;;;
    now <- time_time ;;
    update_conn c (DeviceConnection.set_last_message now) ;;;
    match DeviceMessage.type message with
    | MessageType.HEARTBEAT =>
        now <- time_time ;;
        update_conn c (DeviceConnection.set_last_heartbeat now) ;;;
        reply <- new_message MessageType.ACK (JStr "heartbeat") (JObj []) (JStr "")
                   (DeviceMessage.message_id message) ;;
        ret (Some reply)
    | MessageType.RESPONSE =>
        pending <- gets (fun w =>
                     match conn_store w !! c with
                     | Some conn => DeviceConnection.pending_requests conn
                     | None => []
                     end) ;;
        known <- lift (py_in_dict (DeviceMessage.correlation_id message) pending) ;;
        (if known then
           match DeviceMessage.correlation_id message with
           | JStr corr =>
               match Dict.get corr pending with
               | Some future => resolve_future future (DeviceMessage.payload message)
               | None => ret tt
               end
           | _ => ret tt
           end
         else ret tt) ;;;
        ret None
    | MessageType.STATUS =>
        _handle_status device_id message ;;;
        reply <- new_message MessageType.ACK (JStr "status") (JObj []) (JStr "")
                   (DeviceMessage.message_id message) ;;
        ret (Some reply)
    | MessageType.EVENT =>
        _handle_event device_id message ;;;
        ret None
    | MessageType.ERROR =>
        update_conn c DeviceConnection.incr_errors ;;;
        ret None
    | _ =>
        _emit_event "message" device_id ;;;
        handlers <- gets _message_handlers ;;
        registered <- lift (py_in_dict (DeviceMessage.action message) handlers) ;;
        if registered then
          match DeviceMessage.action message with
          | JStr a =>
              match Dict.get a handlers with
              | Some handler =>
                  result <- lift (handler device_id message) ;;
                  if py_truthy result then
                    reply <- new_message MessageType.RESPONSE (DeviceMessage.action message)
                               result (JStr "") (DeviceMessage.message_id message) ;;
                    ret (Some reply)
                  else ret None
              | None => ret None
              end
          | _ => ret None
          end
        else ret None
    end.

(** [handle_message(device_id, message_data)] *)
Definition handle_message (device_id : string) (message_data : string)
  : M (option DeviceMessage.t) :=
  fun w =>
    match lookup_conn device_id w with
    | Some (c, _) =>
        try_except (handle_message_body device_id c message_data)
                   (fun _ => ret None) w
    | None => (Return None, w)
    end.


(** *** Heartbeat *)

(** The body of the loop of [_heartbeat_loop], for one entry of the
    snapshot of the connection map. *)
Definition sweep_body (entry : string * nat) : M unit :=
  conn <- gets (fun w => conn_store w !! snd entry) ;;
  match conn with
  | Some conn =>
      timeout <- gets heartbeat_timeout ;;
      now <- time_time ;;
      if negb (DeviceConnection.is_alive now timeout conn)
      then disconnect (fst entry) ;;; ret tt
      else
        probe <- new_message MessageType.HEARTBEAT (JStr EmptyString) (JObj [])
                   (JStr EmptyString) (JStr EmptyString) ;;
        send (fst entry) probe ;;; ret tt
  | None => ret tt
  end.

(** One round of [_heartbeat_loop], after its sleep. *)
Definition heartbeat_sweep : M unit :=
  try_except
    (_ <- time_time ;;
     snapshot <- gets connections ;;
     for_each snapshot sweep_body)
    (fun _ => ret tt).

(** *** Statistics *)

Definition sum_over (f : DeviceConnection.t -> nat) (w : World) : nat :=
  fold_right (fun entry acc =>
                match conn_store w !! snd entry with
                | Some conn => f conn + acc
                | None => acc
                end) 0 (connections w).

Record Stats : Type := {
  connected_devices : nat;
  total_messages_sent : nat;
  total_messages_received : nat;
  total_commands : nat;
  total_errors : nat;
}.

(** [get_stats()] *)
Definition get_stats (w : World) : Stats :=
  {| connected_devices := length (connections w);
     total_messages_sent := sum_over DeviceConnection.messages_sent w;
     total_messages_received := sum_over DeviceConnection.messages_received w;
     total_commands := sum_over DeviceConnection.commands_executed w;
     total_errors := sum_over DeviceConnection.errors w |}.

End DeviceCommunication.

(** ** core/device_communication.py: queries and broadcast *)

Section DeviceCommunicationMore.
Context `{PyFloat}.

(** [list_connected_devices()]: the comprehension calls [is_alive] on
    every connection, in the order of the connection map, and each call
    reads the clock. *)
Fixpoint list_alive (entries : list (string * nat)) : M (list string) :=
  match entries with
  | [] => ret []
  | (device_id, c) :: rest =>
      conn <- gets (fun w => conn_store w !! c) ;;
      match conn with
      | Some conn =>
          timeout <- gets heartbeat_timeout ;;
          now <- time_time ;;
          others <- list_alive rest ;;
          ret (if DeviceConnection.is_alive now timeout conn
               then device_id :: others else others)
      | None => list_alive rest
      end
  end.

Definition list_connected_devices : M (list string) :=
  entries <- gets connections ;;
  list_alive entries.

(** The loop of [broadcast]: [results[device_id] = await self.send(...)]. *)
Fixpoint broadcast_loop (message : DeviceMessage.t) (device_ids : list string)
    (results : list (string * bool)) : M (list (string * bool)) :=
  match device_ids with
  | [] => ret results
  | device_id :: rest =>
      sent <- send device_id message ;;
      broadcast_loop message rest (Dict.set device_id sent results)
  end.

(** [broadcast(message, device_ids)] *)
Definition broadcast (message : DeviceMessage.t) (device_ids : option (list string))
  : M (list (string * bool)) :=
  device_ids <- match device_ids with
                | Some ids => ret ids
                | None => gets (fun w => Dict.keys (connections w))
                end ;;
  broadcast_loop message device_ids [].

End DeviceCommunicationMore.

(** ** Subprocesses *)

(** A child process as the loader sees it through [subprocess.Popen]:
    the value of [poll()], what was written to its stdin, whether a
    write to stdin raises, the lines it still delivers on stdout before
    end of file, the text on its stderr, and whether it exits within
    the grace period after [terminate()]. *)
Record Process : Type := {
  returncode : option Z;
  stdin_written : list string;
  stdin_broken : bool;
  stdout_lines : list string;
  stderr_text : string;
  exits_on_terminate : bool;
}.

Definition set_returncode (x : option Z) (p : Process) : Process :=
  {| returncode := x; stdin_written := stdin_written p;
     stdin_broken := stdin_broken p; stdout_lines := stdout_lines p;
     stderr_text := stderr_text p; exits_on_terminate := exits_on_terminate p |}.

Definition set_stdin_written (x : list string) (p : Process) : Process :=
  {| returncode := returncode p; stdin_written := x;
     stdin_broken := stdin_broken p; stdout_lines := stdout_lines p;
     stderr_text := stderr_text p; exits_on_terminate := exits_on_terminate p |}.

Definition set_stdout_lines (x : list string) (p : Process) : Process :=
  {| returncode := returncode p; stdin_written := stdin_written p;
     stdin_broken := stdin_broken p; stdout_lines := x;
     stderr_text := stderr_text p; exits_on_terminate := exits_on_terminate p |}.

(** [process.stdin.write(data); process.stdin.flush()] *)
Definition process_write (data : string) (p : Process) : outcome Process :=
  if stdin_broken p then Raise BrokenPipeError
  else Return (set_stdin_written (stdin_written p ++ [data])%list p).

(** [process.stdout.readline().decode()]: the empty string at end of
    file. *)
Definition process_readline (p : Process) : string * Process :=
  match stdout_lines p with
  | line :: rest => (line, set_stdout_lines rest p)
  | [] => (EmptyString, p)
  end.

(** [process.terminate(); process.wait(timeout=5)], with [process.kill()]
    when the wait raises. *)
Definition process_stop (p : Process) : Process :=
  match returncode p with
  | Some _ => p
  | None =>
      if exits_on_terminate p then set_returncode (Some (-15)%Z) p
      else set_returncode (Some (-9)%Z) p
  end.

(** [str.isspace] on code points below 256, and [str.split()]. *)
Definition is_space (c : ascii) : bool :=
  let n := nat_of_ascii c in
  ((9 <=? n) && (n <=? 13) || (28 <=? n) && (n <=? 32) || (n =? 133) || (n =? 160))%nat.

Fixpoint split_words (s : string) (word : string) : list string :=
  match s with
  | String c s' =>
      if is_space c
      then match word with
           | EmptyString => split_words s' EmptyString
           | _ => word :: split_words s' EmptyString
           end
      else split_words s' (word ++ String c EmptyString)
  | EmptyString =>
      match word with
      | EmptyString => []
      | _ => [word]
      end
  end.

Definition str_split (s : string) : list string := split_words s EmptyString.

(** ** core/mcp_loader.py *)

Module MCPServerStatus.
Inductive t : Type := STOPPED | STARTING | RUNNING | ERROR.

#[global] Instance eq_dec : EqDecision t.
Proof. solve_decision. Defined.

Definition value (x : t) : string :=
  match x with
  | STOPPED => "stopped"
  | STARTING => "starting"
  | RUNNING => "running"
  | ERROR => "error"
  end.
End MCPServerStatus.

Section MCPLoader.
Context `{PyFloat}.

Record MCPRequest : Type := {
  req_jsonrpc : string;
  req_id : option Z;
  req_method : string;
  req_params : json;
}.

Definition MCPRequest_to_json (r : MCPRequest) : string :=
  dumps (JObj [
    ("jsonrpc", JStr (req_jsonrpc r));
    ("id", match req_id r with Some i => JInt i | None => JNull end);
    ("method", JStr (req_method r));
    ("params", req_params r)]).

Record MCPResponse : Type := {
  resp_jsonrpc : json;
  resp_id : json;
  resp_result : json;
  resp_error : json;
}.

Definition MCPResponse_from_json (data : string) : outcome MCPResponse :=
  match loads data with
  | Return obj =>
      match py_get obj "jsonrpc" (JStr "2.0"), py_get obj "id" JNull,
            py_get obj "result" JNull, py_get obj "error" JNull with
      | Return j, Return i, Return r, Return e =>
          Return {| resp_jsonrpc := j; resp_id := i; resp_result := r; resp_error := e |}
      | _, _, _, _ => Raise AttributeError
      end
  | Raise e => Raise e
  end.

Record MCPTool : Type := {
  tool_name : json;
  tool_description : json;
  tool_inputSchema : json;
}.

Definition MCPTool_from_dict (data : json) : outcome MCPTool :=
  match py_get data "name" (JStr ""), py_get data "description" (JStr ""),
        py_get data "inputSchema" (JObj []) with
  | Return n, Return d, Return s =>
      Return {| tool_name := n; tool_description := d; tool_inputSchema := s |}
  | _, _, _ => Raise AttributeError
  end.

Record MCPResource : Type := {
  res_uri : json;
  res_name : json;
  res_description : json;
  res_mimeType : json;
}.

Definition MCPResource_from_dict (data : json) : outcome MCPResource :=
  match py_get data "uri" (JStr ""), py_get data "name" (JStr ""),
        py_get data "description" (JStr ""), py_get data "mimeType" (JStr "") with
  | Return u, Return n, Return d, Return m =>
      Return {| res_uri := u; res_name := n; res_description := d; res_mimeType := m |}
  | _, _, _, _ => Raise AttributeError
  end.

Record MCPPrompt : Type := {
  prompt_name : json;
  prompt_description : json;
  prompt_arguments : json;
}.

Definition MCPPrompt_from_dict (data : json) : outcome MCPPrompt :=
  match py_get data "name" (JStr ""), py_get data "description" (JStr ""),
        py_get data "arguments" (JArr []) with
  | Return n, Return d, Return a =>
      Return {| prompt_name := n; prompt_description := d; prompt_arguments := a |}
  | _, _, _ => Raise AttributeError
  end.

(** The dataclass [MCPServerInstance]; [process] refers into the
    process store. *)
Record MCPServerInstance : Type := {
  id : string;
  name : string;
  command : list string;
  args : list string;
  env : list (string * string);
  cwd : string;
  status : MCPServerStatus.t;
  process : option nat;
  error : option string;
  tools : list MCPTool;
  resources : list MCPResource;
  prompts : list MCPPrompt;
  server_info : json;
  capabilities : json;
  created_at : float;
}.

Definition set_status (x : MCPServerStatus.t) (s : MCPServerInstance) : MCPServerInstance :=
  {| id := id s; name := name s; command := command s; args := args s;
     env := env s; cwd := cwd s; status := x; process := process s;
     error := error s; tools := tools s; resources := resources s;
     prompts := prompts s; server_info := server_info s;
     capabilities := capabilities s; created_at := created_at s |}.

Definition set_process (x : option nat) (s : MCPServerInstance) : MCPServerInstance :=
  {| id := id s; name := name s; command := command s; args := args s;
     env := env s; cwd := cwd s; status := status s; process := x;
     error := error s; tools := tools s; resources := resources s;
     prompts := prompts s; server_info := server_info s;
     capabilities := capabilities s; created_at := created_at s |}.

Definition set_error (x : option string) (s : MCPServerInstance) : MCPServerInstance :=
  {| id := id s; name := name s; command := command s; args := args s;
     env := env s; cwd := cwd s; status := status s; process := process s;
     error := x; tools := tools s; resources := resources s;
     prompts := prompts s; server_info := server_info s;
     capabilities := capabilities s; created_at := created_at s |}.

Definition set_tools (x : list MCPTool) (s : MCPServerInstance) : MCPServerInstance :=
  {| id := id s; name := name s; command := command s; args := args s;
     env := env s; cwd := cwd s; status := status s; process := process s;
     error := error s; tools := x; resources := resources s;
     prompts := prompts s; server_info := server_info s;
     capabilities := capabilities s; created_at := created_at s |}.

Definition set_resources (x : list MCPResource) (s : MCPServerInstance) : MCPServerInstance :=
  {| id := id s; name := name s; command := command s; args := args s;
     env := env s; cwd := cwd s; status := status s; process := process s;
     error := error s; tools := tools s; resources := x;
     prompts := prompts s; server_info := server_info s;
     capabilities := capabilities s; created_at := created_at s |}.

Definition set_prompts (x : list MCPPrompt) (s : MCPServerInstance) : MCPServerInstance :=
  {| id := id s; name := name s; command := command s; args := args s;
     env := env s; cwd := cwd s; status := status s; process := process s;
     error := error s; tools := tools s; resources := resources s;
     prompts := x; server_info := server_info s;
     capabilities := capabilities s; created_at := created_at s |}.

Definition set_server_info (info caps : json) (s : MCPServerInstance) : MCPServerInstance :=
  {| id := id s; name := name s; command := command s; args := args s;
     env := env s; cwd := cwd s; status := status s; process := process s;
     error := error s; tools := tools s; resources := resources s;
     prompts := prompts s; server_info := info;
     capabilities := caps; created_at := created_at s |}.

(** The singleton [MCPLoader] (first two fields), the processes it
    started, and its environment: the answer of [subprocess.Popen] to a
    command line (the process as it stands after the start-up sleep, or
    an exception), the text of an exception, the clock and the uuid
    source. *)
Record Loader : Type := {
  servers : list (string * MCPServerInstance);
  _request_id : Z;
  process_store : list Process;
  popen : list string -> outcome Process;
  exn_text : exn -> string;
  loader_clock : nat -> float;
  loader_clock_reads : nat;
  loader_uuid8 : nat -> string;
  loader_uuid_draws : nat;
}.

Definition set_servers (x : list (string * MCPServerInstance)) (l : Loader) : Loader :=
  {| servers := x; _request_id := _request_id l;
     process_store := process_store l; popen := popen l;
     exn_text := exn_text l; loader_clock := loader_clock l;
     loader_clock_reads := loader_clock_reads l;
     loader_uuid8 := loader_uuid8 l; loader_uuid_draws := loader_uuid_draws l |}.

Definition set_request_id (x : Z) (l : Loader) : Loader :=
  {| servers := servers l; _request_id := x;
     process_store := process_store l; popen := popen l;
     exn_text := exn_text l; loader_clock := loader_clock l;
     loader_clock_reads := loader_clock_reads l;
     loader_uuid8 := loader_uuid8 l; loader_uuid_draws := loader_uuid_draws l |}.

Definition set_process_store (x : list Process) (l : Loader) : Loader :=
  {| servers := servers l; _request_id := _request_id l;
     process_store := x; popen := popen l;
     exn_text := exn_text l; loader_clock := loader_clock l;
     loader_clock_reads := loader_clock_reads l;
     loader_uuid8 := loader_uuid8 l; loader_uuid_draws := loader_uuid_draws l |}.

Definition set_loader_draws (reads draws : nat) (l : Loader) : Loader :=
  {| servers := servers l; _request_id := _request_id l;
     process_store := process_store l; popen := popen l;
     exn_text := exn_text l; loader_clock := loader_clock l;
     loader_clock_reads := reads;
     loader_uuid8 := loader_uuid8 l; loader_uuid_draws := draws |}.

Definition L (A : Type) : Type := ST Loader A.

(** An attribute assignment on the server object registered as
    [server_id]. *)
Definition update_server (server_id : string) (f : MCPServerInstance -> MCPServerInstance)
  : L unit :=
  modify (fun l =>
    match Dict.get server_id (servers l) with
    | Some s => set_servers (Dict.set server_id (f s) (servers l)) l
    | None => l
    end).

(** [stdin.write] and [stdin.flush] on the process [p]. *)
Definition write_line (p : nat) (data : string) : L unit :=
  fun l =>
    match process_store l !! p with
    | Some pr =>
        match process_write data pr with
        | Return pr' => (Return tt, set_process_store (<[p := pr']> (process_store l)) l)
        | Raise e => (Raise e, l)
        end
    | None => (Raise BrokenPipeError, l)
    end.

(** [stdout.readline().decode()] on the process [p]. *)
Definition read_line (p : nat) : L string :=
  fun l =>
    match process_store l !! p with
    | Some pr =>
        let (line, pr') := process_readline pr in
        (Return line, set_process_store (<[p := pr']> (process_store l)) l)
    | None => (Return EmptyString, l)
    end.

(** The [try] block of [_send_request]: the request is written on the
    stdin of the process [p], the next line of its stdout is read, and
    a line that is not empty is decoded; after an exception the result
    is [None]. *)
Definition exchange (p : nat) (request : MCPRequest) : L (option MCPResponse) :=
  try_except
    (write_line p (MCPRequest_to_json request ++ String "010"%char EmptyString) ;;;
     response_line <- read_line p ;;
     match response_line with
     | String _ _ =>
         response <- lift (MCPResponse_from_json response_line) ;;
         ret (Some response)
     | EmptyString => ret None
     end)
    (fun _ => ret None).

(** [_send_request(server_id, method, params)] *)
Definition _send_request (server_id : string) (method : string) (params : option json)
  : L (option MCPResponse) :=
  fun l =>
    match Dict.get server_id (servers l) with
    | Some server =>
        match process server with
        | Some p =>
            (modify (fun l => set_request_id (_request_id l + 1)%Z l) ;;;
             request_id <- gets _request_id ;;
             exchange p
               {| req_jsonrpc := "2.0"; req_id := Some request_id;
                  req_method := method;
                  req_params := match params with
                                | Some v => if py_truthy v then v else JObj []
                                | None => JObj []
                                end |}) l
        | None => (Return None, l)
        end
    | None => (Return None, l)
    end.

(** [_send_notification(server_id, method)] *)
Definition _send_notification (server_id : string) (method : string) : L unit :=
  fun l =>
    match Dict.get server_id (servers l) with
    | Some server =>
        match process server with
        | Some p =>
            write_line p
              (dumps (JObj [("jsonrpc", JStr "2.0"); ("method", JStr method);
                            ("params", JObj [])]) ++ String "010"%char EmptyString) l
        | None => (Return tt, l)
        end
    | None => (Return tt, l)
    end.

(** Iteration over a value: the elements of a list, the keys of a dict,
    the characters of a str. *)
Fixpoint chars_of (s : string) : list json :=
  match s with
  | String c s' => JStr (String c EmptyString) :: chars_of s'
  | EmptyString => []
  end.

Definition py_iter (v : json) : outcome (list json) :=
  match v with
  | JArr xs => Return xs
  | JObj kvs => Return (map (fun kv => JStr (fst kv)) kvs)
  | JStr s => Return (chars_of s)
  | _ => Raise TypeError
  end.

(** A list comprehension [[f(x) for x in xs]]. *)
Fixpoint map_outcome {A B} (f : A -> outcome B) (xs : list A) : outcome (list B) :=
  match xs with
  | [] => Return []
  | x :: xs' =>
      match f x with
      | Return y =>
          match map_outcome f xs' with
          | Return ys => Return (y :: ys)
          | Raise e => Raise e
          end
      | Raise e => Raise e
      end
  end.

(** [_refresh_tools], [_refresh_resources], [_refresh_prompts] *)
Definition refresh {A} (server_id method key : string) (from_dict : json -> outcome A)
    (store : list A -> MCPServerInstance -> MCPServerInstance) : L unit :=
  response <- _send_request server_id method (Some (JObj [])) ;;
  match response with
  | Some r =>
      if py_truthy (resp_result r) then
        listed <- lift (py_get (resp_result r) key (JArr [])) ;;
        items <- lift (py_iter listed) ;;
        values <- lift (map_outcome from_dict items) ;;
        update_server server_id (store values)
      else ret tt
  | None => ret tt
  end.

Definition _refresh_tools (server_id : string) : L unit :=
  refresh server_id "tools/list" "tools" MCPTool_from_dict set_tools.

Definition _refresh_resources (server_id : string) : L unit :=
  refresh server_id "resources/list" "resources" MCPResource_from_dict set_resources.

Definition _refresh_prompts (server_id : string) : L unit :=
  refresh server_id "prompts/list" "prompts" MCPPrompt_from_dict set_prompts.

(** [_initialize(server_id)] *)
Definition _initialize (server_id : string) : L bool :=
  response <- _send_request server_id "initialize"
    (Some (JObj [("protocolVersion", JStr "2024-11-05");
                 ("capabilities", JObj []);
                 ("clientInfo", JObj [("name", JStr "UFO-Galaxy");
                                      ("version", JStr "1.0.0")])])) ;;
  match response with
  | Some r =>
      if py_truthy (resp_result r) then
        info <- lift (py_get (resp_result r) "serverInfo" (JObj [])) ;;
        update_server server_id (fun s => set_server_info info (capabilities s) s) ;;;
        caps <- lift (py_get (resp_result r) "capabilities" (JObj [])) ;;
        update_server server_id (fun s => set_server_info (server_info s) caps s) ;;;
        _send_notification server_id "notifications/initialized" ;;;
        _refresh_tools server_id ;;;
        _refresh_resources server_id ;;;
        _refresh_prompts server_id ;;;
        ret true
      else ret false
  | None => ret false
  end.

(** [start(server_id)] *)
Definition start (server_id : string) : L bool :=
  fun l =>
    match Dict.get server_id (servers l) with
    | Some server =>
        try_except
          (update_server server_id (set_status MCPServerStatus.STARTING) ;;;
           let full_command := (command server ++ args server)%list in
           spawned <- (fun l => (popen l full_command, l)) ;;
           p <- (fun l => (Return (length (process_store l)),
                           set_process_store (process_store l ++ [spawned])%list l)) ;;
           update_server server_id (set_process (Some p)) ;;;
           match returncode spawned with
           | Some _ =>
               update_server server_id (set_status MCPServerStatus.ERROR) ;;;
               update_server server_id (set_error (Some (stderr_text spawned))) ;;;
               ret false
           | None =>
               _initialize server_id ;;;
               update_server server_id (set_status MCPServerStatus.RUNNING) ;;;
               ret true
           end)
          (fun e =>
             update_server server_id (set_status MCPServerStatus.ERROR) ;;;
             text <- gets (fun l => exn_text l e) ;;
             update_server server_id (set_error (Some text)) ;;;
             ret false) l
    | None => (Return false, l)
    end.

(** [stop(server_id)] *)
Definition stop (server_id : string) : L bool :=
  fun l =>
    match Dict.get server_id (servers l) with
    | Some server =>
        (match process server with
         | Some p =>
             modify (fun l =>
               match process_store l !! p with
               | Some pr => set_process_store (<[p := process_stop pr]> (process_store l)) l
               | None => l
               end) ;;;
             update_server server_id (set_process None)
         | None => ret tt
         end ;;;
         update_server server_id (set_status MCPServerStatus.STOPPED) ;;;
         ret true) l
    | None => (Return false, l)
    end.

(** The [command] argument of [load]: a str or a list of str. *)
Inductive CommandLine : Type :=
| CommandStr (s : string)
| CommandList (l : list string).

(** [load(name, command, args, env, cwd, auto_start)] *)
Definition load (name : string) (command : CommandLine) (args : option (list string))
    (env : option (list (string * string))) (cwd : string) (auto_start : bool) : L json :=
  server_id <- (fun l => (Return (loader_uuid8 l (loader_uuid_draws l)),
                          set_loader_draws (loader_clock_reads l) (S (loader_uuid_draws l)) l)) ;;
  let command := match command with
                 | CommandStr s => str_split s
                 | CommandList c => c
                 end in
  now <- (fun l => (Return (loader_clock l (loader_clock_reads l)),
                    set_loader_draws (S (loader_clock_reads l)) (loader_uuid_draws l) l)) ;;
  let server :=
    {| id := server_id; name := name; command := command;
       args := match args with Some a => a | None => [] end;
       env := match env with Some e => e | None => [] end;
       cwd := cwd; status := MCPServerStatus.STOPPED; process := None;
       error := None; tools := []; resources := []; prompts := [];
       server_info := JObj []; capabilities := JObj []; created_at := now |} in
  modify (fun l => set_servers (Dict.set server_id server (servers l)) l) ;;;
  started <- (if auto_start then start server_id else ret true) ;;
  server <- gets (fun l => match Dict.get server_id (servers l) with
                           | Some s => s
                           | None => server
                           end) ;;
  if started then
    ret (JObj [("success", JBool true); ("server_id", JStr server_id);
               ("name", JStr name);
               ("status", JStr (MCPServerStatus.value (status server)))])
  else
    ret (JObj [("success", JBool false);
               ("error", match error server with Some e => JStr e | None => JNull end);
               ("server_id", JStr server_id)]).

(** [unload(server_id)] *)
Definition unload (server_id : string) : L json :=
  fun l =>
    match Dict.get server_id (servers l) with
    | Some server =>
        (stop server_id ;;;
         modify (fun l => set_servers (Dict.pop server_id (servers l)) l) ;;;
         ret (JObj [("success", JBool true); ("server_id", JStr server_id);
                    ("name", JStr (name server))])) l
    | None => (Return (failure "服务器不存在"), l)
    end.

(** [call_tool(server_id, tool_name, arguments)] *)
Definition call_tool (server_id tool_name : string) (arguments : option json) : L json :=
  fun l =>
    match Dict.get server_id (servers l) with
    | Some server =>
        if decide (status server = MCPServerStatus.RUNNING) then
          (response <- _send_request server_id "tools/call"
             (Some (JObj [("name", JStr tool_name);
                          ("arguments", match arguments with
                                        | Some a => if py_truthy a then a else JObj []
                                        | None => JObj []
                                        end)])) ;;
           match response with
           | Some r =>
               if py_truthy (resp_error r)
               then ret (JObj [("success", JBool false); ("error", resp_error r)])
               else ret (JObj [("success", JBool true); ("result", resp_result r)])
           | None => ret (failure "请求失败")
           end) l
        else (Return (failure "服务器未运行"), l)
    | None => (Return (failure "服务器不存在"), l)
    end.

End MCPLoader.

(** ** core/mcp_manager.py: the request path *)

Module MCPManager.
Section MCPManager.
Context `{PyFloat}.

(** The dataclass [MCPServer], without its tool list. *)
Record MCPServer : Type := {
  name : string;
  command : list string;
  status : MCPServerStatus.t;
  process : option nat;
  error : option string;
}.

Record Manager : Type := {
  servers : list (string * MCPServer);
  process_store : list Process;
}.

(** [_send_request(server_name, method, params)] *)
Definition _send_request (server_name : string) (method : string) (params : json)
  : ST Manager (option json) :=
  fun m =>
    match Dict.get server_name (servers m) with
    | Some server =>
        match process server with
        | Some p =>
            try_except
              (let request :=
                 JObj [("jsonrpc", JStr "2.0"); ("id", JInt 1);
                       ("method", JStr method); ("params", params)] in
               pr <- lift (match process_store m !! p with
                           | Some pr => Return pr
                           | None => Raise BrokenPipeError
                           end) ;;
               pr <- lift (process_write (dumps request ++ String "010"%char EmptyString) pr) ;;
               let (response, pr) := process_readline pr in
               modify (fun m => {| servers := servers m;
                                  process_store := <[p := pr]> (process_store m) |}) ;;;
               decoded <- lift (loads response) ;;
               ret (Some decoded))
              (fun _ => ret None) m
        | None => (Return None, m)
        end
    | None => (Return None, m)
    end.

End MCPManager.
End MCPManager.

(** ** core/mcp_loader.py: resources, prompts and queries *)

Section MCPLoaderMore.
Context `{PyFloat}.




(** [MCPServerInstance.to_dict()] *)
Definition MCPServerInstance_to_dict (s : MCPServerInstance) : json :=
  JObj [("id", JStr (id s));
        ("name", JStr (name s));
        ("command", JArr (map JStr (command s)));
        ("args", JArr (map JStr (args s)));
        ("status", JStr (MCPServerStatus.value (status s)));
        ("error", match error s with Some e => JStr e | None => JNull end);
        ("tools_count", JInt (Z.of_nat (length (tools s))));
        ("resources_count", JInt (Z.of_nat (length (resources s))));
        ("prompts_count", JInt (Z.of_nat (length (prompts s))));
        ("server_info", server_info s);
        ("capabilities", capabilities s);
        ("created_at", JFloat (Finite (created_at s)))].

(** [list_servers()] *)
Definition list_servers (l : Loader) : list json :=
  map MCPServerInstance_to_dict (Dict.values (servers l)).

(** [get_server(server_id)] *)
Definition get_server (server_id : string) (l : Loader) : option json :=
  match Dict.get server_id (servers l) with
  | Some s => Some (MCPServerInstance_to_dict s)
  | None => None
  end.

(** [list_tools(server_id)] *)
Definition list_tools (server_id : string) (l : Loader) : list json :=
  match Dict.get server_id (servers l) with
  | Some s =>
      map (fun t => JObj [("name", tool_name t);
                          ("description", tool_description t);
                          ("inputSchema", tool_inputSchema t)]) (tools s)
  | None => []
  end.

(** [list_resources(server_id)] *)
Definition list_resources (server_id : string) (l : Loader) : list json :=
  match Dict.get server_id (servers l) with
  | Some s =>
      map (fun r => JObj [("uri", res_uri r);
                          ("name", res_name r);
                          ("description", res_description r);
                          ("mimeType", res_mimeType r)]) (resources s)
  | None => []
  end.

(** [list_prompts(server_id)] *)
Definition list_prompts (server_id : string) (l : Loader) : list json :=
  match Dict.get server_id (servers l) with
  | Some s =>
      map (fun p => JObj [("name", prompt_name p);
                          ("description", prompt_description p);
                          ("arguments", prompt_arguments p)]) (prompts s)
  | None => []
  end.

(** A tool as [list_tools] shows it, read off the dictionary that the
    server gave for it: the three members, with the defaults of
    [MCPTool.from_dict] for the missing ones. *)
Definition advertised_tool (members : list (string * json)) : json :=
  JObj [("name", match Dict.get "name" members with
                 | Some v => v | None => JStr EmptyString end);
        ("description", match Dict.get "description" members with
                        | Some v => v | None => JStr EmptyString end);
        ("inputSchema", match Dict.get "inputSchema" members with
                        | Some v => v | None => JObj [] end)].

End MCPLoaderMore.

Section MCPLoaderWire.
Context `{PyFloat}.

(** The line that [_send_notification] writes. *)
Definition notification_line (method : string) : string :=
  dumps (JObj [("jsonrpc", JStr "2.0"); ("method", JStr method); ("params", JObj [])])
  ++ String "010"%char EmptyString.

(** The parameters of the [initialize] request. *)
Definition initialize_params : json :=
  JObj [("protocolVersion", JStr "2024-11-05");
        ("capabilities", JObj []);
        ("clientInfo", JObj [("name", JStr "UFO-Galaxy");
                             ("version", JStr "1.0.0")])].

(** A process after one line was written to it and one line was read
    from it. *)
Definition exchanged (line : string) (pr : Process) : Process :=
  set_stdout_lines (tl (stdout_lines pr))
    (set_stdin_written (stdin_written pr ++ [line])%list pr).

(** The server [server_id] of the loader, the process it runs and the
    request counter. *)
Definition loader_at (l : Loader) (server_id : string) (server : MCPServerInstance)
    (p : nat) (pr : Process) (n : Z) : Prop :=
  Dict.get server_id (servers l) = Some server
  /\ process server = Some p
  /\ process_store l !! p = Some pr
  /\ _request_id l = n.

End MCPLoaderWire.

(** ** An instance of the float interface *)

(** Floats with integral values: [repr] writes the integer and a zero
    fraction, as Python does below 1e16, and [float] reads the integer
    part back. *)
Definition whole_repr (z : Z) : string := int_repr z ++ ".0".

Definition whole_of_literal (s : string) : option Z :=
  match scan_integer s with
  | Some (integer, _) => Some (int_of_literal integer)
  | None => None
  end.

Definition whole_floats : PyFloat := {|
  float := Z;
  float_eq_dec := Z.eq_dec;
  float_repr := whole_repr;
  float_sub := Z.sub;
  float_ltb := Z.ltb;
  float_truth := fun z => negb (z =? 0)%Z;
  float_of_literal_finite := whole_of_literal;
|}.

(** The float with the given integral value. *)
Definition whole (z : Z) : @float whole_floats := z.

(** ** Notions the properties are stated with *)

Section Spec.
Context `{PyFloat}.

(** A message that [to_json] can write and [from_json] can read back:
    each field holds a value that JSON carries faithfully. *)
Definition valid_message (m : DeviceMessage.t) : bool :=
  json_valid (DeviceMessage.action m)
  && json_valid (DeviceMessage.payload m)
  && json_valid (DeviceMessage.message_id m)
  && json_valid (DeviceMessage.timestamp m)
  && json_valid (DeviceMessage.device_id m)
  && json_valid (DeviceMessage.correlation_id m).

(** The correlation table of the connection object [c]. *)
Definition table_of (w : World) (c : nat) : list (string * nat) :=
  match conn_store w !! c with
  | Some conn => DeviceConnection.pending_requests conn
  | None => []
  end.

(** Two worlds with the same futures, the same connection map, and the
    same correlation table in every connection object. *)
Definition same_core (w w' : World) : Prop :=
  future_store w' = future_store w
  /\ connections w' = connections w
  /\ forall c, table_of w' c = table_of w c.

(** A property of the world that only looks at this core. *)
Definition respects_core (I : World -> Prop) : Prop :=
  forall w w', same_core w w' -> I w -> I w'.

(** A computation that leaves the core as it finds it. *)
Definition keeps_core {A} (m : M A) : Prop :=
  forall w, same_core w (snd (m w)).

(** How a round of the heartbeat loop can change the world, when only
    the devices in [touched] are disconnected: the clock and the timeout
    are the same and the clock has not been read backwards; a device
    that is not connected stays so, and the other devices keep their
    connection; a connection object keeps its heartbeat time, its socket
    and its status; a socket that is closed stays closed; the registry
    keeps the status of the other devices, and a device that is offline
    stays offline; nothing is removed from the two event records. *)
Definition evolves (touched : string -> Prop) (w w' : World) : Prop :=
  clock w' = clock w
  /\ heartbeat_timeout w' = heartbeat_timeout w
  /\ clock_reads w <= clock_reads w'
  /\ (forall d, Dict.get d (connections w) = None -> Dict.get d (connections w') = None)
  /\ (forall d, ~ touched d -> Dict.get d (connections w') = Dict.get d (connections w))
  /\ (forall c conn,
        conn_store w !! c = Some conn ->
        exists conn',
          conn_store w' !! c = Some conn'
          /\ DeviceConnection.last_heartbeat conn' = DeviceConnection.last_heartbeat conn
          /\ DeviceConnection.websocket conn' = DeviceConnection.websocket conn
          /\ DeviceConnection.status conn' = DeviceConnection.status conn)
  /\ (forall ws s,
        socket_store w !! ws = Some s ->
        exists s', socket_store w' !! ws = Some s'
                   /\ (ws_closed s = true -> ws_closed s' = true))
  /\ (forall d, ~ touched d ->
        Dict.get d (registry_devices w') = Dict.get d (registry_devices w))
  /\ (forall d, Dict.get d (registry_devices w) = Some DeviceStatus.OFFLINE ->
        Dict.get d (registry_devices w') = Some DeviceStatus.OFFLINE)
  /\ (forall e, In e (registry_events w) -> In e (registry_events w'))
  /\ (forall e, In e (emitted w) -> In e (emitted w')).

(** The correlation id that [from_json] reads off an inbound text. *)
Definition correlation_id_of (data : string) : option json :=
  match loads data with
  | Return obj =>
      match py_get obj "correlation_id" (JStr EmptyString) with
      | Return v => Some v
      | Raise _ => None
      end
  | Raise _ => None
  end.

(** What can happen to the manager, one atomic stretch of a coroutine
    at a time: the public entry points, the two halves of
    [send_command], and a round of the heartbeat loop. *)
Inductive Action : Type :=
| AConnect (device_id : string) (websocket : nat)
| ADisconnect (device_id : string)
| AInbound (device_id : string) (message_data : string)
| ABegin (device_id : string) (action : string) (params : option json)
         (timeout : option float)
| AResume (call : PendingCall) (timed_out : bool)
| ASweep.

Definition step (a : Action) (w : World) : World :=
  match a with
  | AConnect device_id websocket => snd (connect device_id websocket w)
  | ADisconnect device_id => snd (disconnect device_id w)
  | AInbound device_id message_data => snd (handle_message device_id message_data w)
  | ABegin device_id action params timeout =>
      snd (send_command_begin device_id action params timeout w)
  | AResume call timed_out =>
      match send_command_resume call timed_out w with
      | Some (_, w') => w'
      | None => w
      end
  | ASweep => snd (heartbeat_sweep w)
  end.

Definition run (trace : list Action) (w : World) : World :=
  fold_left (fun w a => step a w) trace w.

(** The future [f] is allocated and pending, and the connections that
    the manager can reach by a device id refer to it under no key
    outside [keys]. *)
Definition quiet (f : nat) (keys : string -> Prop) (w : World) : Prop :=
  future_store w !! f = Some Pending
  /\ forall device_id c k,
       Dict.get device_id (connections w) = Some c ->
       Dict.get k (table_of w c) = Some f ->
       keys k.

(** The actions that leave the future [f] alone: no inbound text with a
    correlation id in [keys], and no resumption of a call that awaits
    [f]. *)
Definition leaves_alone (f : nat) (keys : string -> Prop) (a : Action) : Prop :=
  match a with
  | AInbound _ message_data =>
      forall corr, correlation_id_of message_data = Some (JStr corr) -> ~ keys corr
  | AResume call _ => call_future call <> f
  | _ => True
  end.


End Spec.

(** ** Concrete worlds, over the integral floats *)

(** Eight characters for the n-th draw of the uuid source. *)
Definition example_uuid (n : nat) : string :=
  let digits := digits_of_N (N.of_nat n) in
  (str_take (8 - String.length digits) "00000000" ++ digits)%string.

(** A manager right after construction, with one accepted WebSocket in
    the socket store and a clock that advances by one second per
    reading. *)
Definition fresh_world : @World whole_floats := {|
  connections := [];
  _heartbeat_task := false;
  _message_handlers := [];
  heartbeat_interval := whole 30;
  heartbeat_timeout := whole 60;
  command_timeout := whole 30;
  conn_store := [];
  future_store := [];
  socket_store := [{| ws_sent := []; ws_closed := false; ws_broken := false |}];
  registry_devices := [];
  registry_events := [];
  emitted := [];
  clock := fun n => whole (1000 + Z.of_nat n);
  clock_reads := 0;
  uuid8 := example_uuid;
  uuid_draws := 0;
|}.

Definition example_message : @DeviceMessage.t whole_floats := {|
  DeviceMessage.type := MessageType.COMMAND;
  DeviceMessage.action := JStr "click";
  DeviceMessage.payload := JObj [("x", JInt 100); ("y", JInt 200)];
  DeviceMessage.message_id := JStr "a1b2c3d4";
  DeviceMessage.timestamp := JFloat (Finite (whole 1700000000));
  DeviceMessage.device_id := JStr "android_001";
  DeviceMessage.correlation_id := JStr EmptyString;
|}.

(** The device [d1] connected on the socket of [fresh_world]. *)
Definition connected_world : @World whole_floats :=
  snd (connect "d1" 0 fresh_world).






(** The command [click] sent to [d1], suspended in its wait. *)
Definition click_call : @PendingCall whole_floats := {|
  call_conn := 0;
  call_message_id := "00000000";
  call_future := 0;
  call_timeout := whole 30;
|}.

Definition waiting_world : @World whole_floats :=
  snd (send_command_begin "d1" "click" None None connected_world).

(** A second WebSocket is accepted while the call waits. *)
Definition second_socket_world : @World whole_floats :=
  set_socket_store
    (socket_store waiting_world
     ++ [{| ws_sent := []; ws_closed := false; ws_broken := false |}])%list
    waiting_world.

(** The JSON text of a response that bears the message id of
    [click_call]. *)
Definition late_response_text : string :=
  @dumps whole_floats
    (JObj [("type", JStr "response"); ("correlation_id", JStr "00000000")]).

(** [connected_world] a hundred readings of the clock later: the last
    heartbeat of [d1] is older than the timeout of sixty seconds. *)
Definition stale_world : @World whole_floats :=
  set_clock_reads 100 connected_world.

(** ** Statements about the MCP loader *)

Section LoaderSpec.
Context `{PyFloat}.

(** The line that [_send_request] writes for the request numbered
    [request_id]. *)
Definition request_line (request_id : Z) (method : string) (params : option json) : string :=
  MCPRequest_to_json
    {| req_jsonrpc := "2.0"; req_id := Some request_id; req_method := method;
       req_params := match params with
                     | Some v => if py_truthy v then v else JObj []
                     | None => JObj []
                     end |}
  ++ String "010"%char EmptyString.

(** What [_send_request] makes of the line it has read: nothing at end
    of file or when the line cannot be decoded, the decoded response
    otherwise. *)
Definition decode_response_line (line : string) : option MCPResponse :=
  match line with
  | EmptyString => None
  | String _ _ =>
      match MCPResponse_from_json line with
      | Return r => Some r
      | Raise _ => None
      end
  end.

(** The command line that [start] hands to [subprocess.Popen] for a
    server loaded with [command] and [args]. *)
Definition full_command (command : CommandLine) (args : option (list string)) : list string :=
  (match command with
   | CommandStr s => str_split s
   | CommandList c => c
   end ++ match args with Some a => a | None => [] end)%list.

(** The line that the request path of [MCPManager] writes. *)
Definition manager_request_line (method : string) (params : json) : string :=
  dumps (JObj [("jsonrpc", JStr "2.0"); ("id", JInt 1);
               ("method", JStr method); ("params", params)])
  ++ String "010"%char EmptyString.

(** The [id] member of a line of JSON. *)
Definition id_of_line (line : string) : option json :=
  match loads line with
  | Return (JObj kvs) => Dict.get "id" kvs
  | _ => None
  end.

(** What the loader has written so far on the stdin of the process
    [p]. *)
Definition written_to (p : nat) (l : Loader) : list string :=
  match process_store l !! p with
  | Some child => stdin_written child
  | None => []
  end.

End LoaderSpec.

(** *** Concrete loaders *)

(** A child that has exited with status 1 by the time [start] polls it. *)
Definition failing_process : Process := {|
  returncode := Some 1%Z;
  stdin_written := [];
  stdin_broken := false;
  stdout_lines := [];
  stderr_text := "boom";
  exits_on_terminate := true;
|}.

(** A loader right after construction, on a machine where every command
    exits at once. *)
Definition fresh_loader : @Loader whole_floats := {|
  servers := [];
  _request_id := 0;
  process_store := [];
  popen := fun _ => Return failing_process;
  exn_text := fun _ => "error";
  loader_clock := fun n => whole (1000 + Z.of_nat n);
  loader_clock_reads := 0;
  loader_uuid8 := example_uuid;
  loader_uuid_draws := 0;
|}.

(** A response line that carries the id 99. *)
Definition other_id_line : string :=
  @dumps whole_floats
    (JObj [("jsonrpc", JStr "2.0"); ("id", JInt 99);
           ("result", JObj [("ok", JBool true)])])
  ++ String "010"%char EmptyString.


(** A live child whose next two lines on stdout are [other_id_line]. *)
Definition answering_process : Process := {|
  returncode := None;
  stdin_written := [];
  stdin_broken := false;
  stdout_lines := [other_id_line; other_id_line];
  stderr_text := EmptyString;
  exits_on_terminate := true;
|}.

(** A loader with one running server [s1] on [answering_process], before
    its first request. *)
Definition running_loader : @Loader whole_floats := {|
  servers := [("s1",
               {| id := "s1"; name := "files"; command := ["server"]; args := [];
                  env := []; cwd := EmptyString; status := MCPServerStatus.RUNNING;
                  process := Some 0; error := None; tools := []; resources := [];
                  prompts := []; server_info := JObj []; capabilities := JObj [];
                  created_at := whole 1000 |})];
  _request_id := 0;
  process_store := [answering_process];
  popen := fun _ => Return failing_process;
  exn_text := fun _ => "error";
  loader_clock := fun n => whole (1000 + Z.of_nat n);
  loader_clock_reads := 1;
  loader_uuid8 := example_uuid;
  loader_uuid_draws := 1;
|}.

(** A manager with one running server [s1] on [answering_process]. *)
Definition running_manager : MCPManager.Manager := {|
  MCPManager.servers :=
    [("s1", {| MCPManager.name := "s1"; MCPManager.command := ["server"];
               MCPManager.status := MCPServerStatus.RUNNING;
               MCPManager.process := Some 0; MCPManager.error := None |})];
  MCPManager.process_store := [answering_process];
|}.

(** ** Notions for the further properties *)

Section MoreSpec.
Context `{PyFloat}.

(** Two worlds with the same futures and the same correlation table in
    every connection object. *)
Definition same_calls (w w' : World) : Prop :=
  future_store w' = future_store w
  /\ forall c, table_of w' c = table_of w c.

(** Whether a text can be written to the device: it is in the
    connection map, its connection has a socket, and the socket is
    neither closed nor broken. *)
Definition deliverable (device_id : string) (w : World) : bool :=
  match lookup_conn device_id w with
  | Some (_, conn) =>
      match DeviceConnection.websocket conn with
      | Some ws =>
          match socket_store w !! ws with
          | Some s => negb (ws_closed s || ws_broken s)
          | None => false
          end
      | None => false
      end
  | None => false
  end.

(** Two worlds wired alike: the same connection map, the same socket
    behind every connection object, and every socket as open and as
    sound as before. *)
Definition same_wiring (w w' : World) : Prop :=
  connections w' = connections w
  /\ (forall c, option_map DeviceConnection.websocket (conn_store w' !! c)
                = option_map DeviceConnection.websocket (conn_store w !! c))
  /\ (forall ws, option_map (fun s => (ws_closed s, ws_broken s)) (socket_store w' !! ws)
                 = option_map (fun s => (ws_closed s, ws_broken s)) (socket_store w !! ws)).

(** Every connection object that the connection map refers to is in the
    store, and no two devices share one. *)
Definition well_wired (w : World) : Prop :=
  NoDup (Dict.values (connections w))
  /\ forall d c, In (d, c) (connections w) -> c < length (conn_store w).

End MoreSpec.

(** *** Concrete sessions *)

(** [connected_world] after the transport of its socket broke. *)
Definition broken_socket_world : @World whole_floats :=
  set_socket_store [{| ws_sent := []; ws_closed := false; ws_broken := true |}]
    connected_world.

(** The JSON text of a handshake of an Android client. *)
Definition handshake_text : string :=
  @dumps whole_floats
    (JObj [("type", JStr "handshake"); ("platform", JStr "android");
           ("version", JStr "2.0")]).

(** A response to [click_call] as [to_json] encodes it. *)
Definition encoded_response : @DeviceMessage.t whole_floats := {|
  DeviceMessage.type := MessageType.RESPONSE;
  DeviceMessage.action := JStr "click";
  DeviceMessage.payload := JObj [("success", JBool true)];
  DeviceMessage.message_id := JStr "r0000001";
  DeviceMessage.timestamp := JFloat (Finite (whole 1010));
  DeviceMessage.device_id := JStr "d1";
  DeviceMessage.correlation_id := JStr "00000000";
|}.

(** The JSON texts of a status update and of an error report in the
    standard format, without a payload. *)
Definition status_text : string :=
  @dumps whole_floats (JObj [("type", JStr "status"); ("message_id", JStr "s0000001")]).

Definition error_text : string :=
  @dumps whole_floats (JObj [("type", JStr "error"); ("message_id", JStr "e0000001")]).


(** *** Concrete loaders, continued *)

(** A loader on a machine where no command is found. *)
Definition missing_command_loader : @Loader whole_floats := {|
  servers := [];
  _request_id := 0;
  process_store := [];
  popen := fun _ => Raise FileNotFoundError;
  exn_text := fun _ => "No such file or directory";
  loader_clock := fun n => whole (1000 + Z.of_nat n);
  loader_clock_reads := 0;
  loader_uuid8 := example_uuid;
  loader_uuid_draws := 0;
|}.



(** The answer of a server to [tools/list]: one tool with a name and a
    description, one with a name only. *)
Definition tools_members : list (list (string * @json whole_floats)) :=
  [[("name", JStr "read_file"); ("description", JStr "Read a file")];
   [("name", JStr "list_dir")]].

Definition tools_response : @MCPResponse whole_floats := {|
  resp_jsonrpc := JStr "2.0";
  resp_id := JInt 1;
  resp_result := JObj [("tools", JArr (map JObj tools_members))];
  resp_error := JNull;
|}.

Definition tools_line : string :=
  @dumps whole_floats
    (JObj [("jsonrpc", JStr "2.0"); ("id", JInt 1);
           ("result", JObj [("tools", JArr (map JObj tools_members))])])
  ++ String "010"%char EmptyString.

(** A loader with one running server [s1] whose process answers next
    with [tools_line]. *)
Definition listing_loader : @Loader whole_floats := {|
  servers := [("s1",
               {| id := "s1"; name := "files"; command := ["server"]; args := [];
                  env := []; cwd := EmptyString; status := MCPServerStatus.RUNNING;
                  process := Some 0; error := None; tools := []; resources := [];
                  prompts := []; server_info := JObj []; capabilities := JObj [];
                  created_at := whole 1000 |})];
  _request_id := 0;
  process_store := [{| returncode := None; stdin_written := []; stdin_broken := false;
                       stdout_lines := [tools_line]; stderr_text := EmptyString;
                       exits_on_terminate := true |}];
  popen := fun _ => Return failing_process;
  exn_text := fun _ => "error";
  loader_clock := fun n => whole (1000 + Z.of_nat n);
  loader_clock_reads := 1;
  loader_uuid8 := example_uuid;
  loader_uuid_draws := 1;
|}.

(** The answer of a server to [initialize]. *)
Definition initialize_response : @MCPResponse whole_floats := {|
  resp_jsonrpc := JStr "2.0";
  resp_id := JInt 1;
  resp_result := JObj [("serverInfo", JObj [("name", JStr "files")]);
                       ("capabilities", JObj [("tools", JObj [])])];
  resp_error := JNull;
|}.

Definition initialize_line : string :=
  @dumps whole_floats
    (JObj [("jsonrpc", JStr "2.0"); ("id", JInt 1);
           ("result", JObj [("serverInfo", JObj [("name", JStr "files")]);
                            ("capabilities", JObj [("tools", JObj [])])])])
  ++ String "010"%char EmptyString.




(** An answer to [tools/list] whose list holds a str where a dict is
    expected. *)
Definition malformed_tools_response : @MCPResponse whole_floats := {|
  resp_jsonrpc := JStr "2.0";
  resp_id := JInt 2;
  resp_result := JObj [("tools", JArr [JStr "read_file"])];
  resp_error := JNull;
|}.

Definition malformed_tools_line : string :=
  @dumps whole_floats
    (JObj [("jsonrpc", JStr "2.0"); ("id", JInt 2);
           ("result", JObj [("tools", JArr [JStr "read_file"])])])
  ++ String "010"%char EmptyString.

(** A child that answers [initialize] and then [tools/list] with the
    malformed list. *)
Definition malformed_process : Process := {|
  returncode := None;
  stdin_written := [];
  stdin_broken := false;
  stdout_lines := [initialize_line; malformed_tools_line];
  stderr_text := EmptyString;
  exits_on_terminate := true;
|}.

Definition malformed_loader : @Loader whole_floats := {|
  servers := [];
  _request_id := 0;
  process_store := [];
  popen := fun _ => Return malformed_process;
  exn_text := fun _ => "'str' object has no attribute 'get'";
  loader_clock := fun n => whole (1000 + Z.of_nat n);
  loader_clock_reads := 0;
  loader_uuid8 := example_uuid;
  loader_uuid_draws := 0;
|}.

(** A loader with one running server [s1] whose process no longer takes
    a write. *)
Definition broken_pipe_loader : @Loader whole_floats := {|
  servers := [("s1",
               {| id := "s1"; name := "files"; command := ["server"]; args := [];
                  env := []; cwd := EmptyString; status := MCPServerStatus.RUNNING;
                  process := Some 0; error := None; tools := []; resources := [];
                  prompts := []; server_info := JObj []; capabilities := JObj [];
                  created_at := whole 1000 |})];
  _request_id := 0;
  process_store := [{| returncode := None; stdin_written := []; stdin_broken := true;
                       stdout_lines := []; stderr_text := EmptyString;
                       exits_on_terminate := true |}];
  popen := fun _ => Return failing_process;
  exn_text := fun _ => "error";
  loader_clock := fun n => whole (1000 + Z.of_nat n);
  loader_clock_reads := 1;
  loader_uuid8 := example_uuid;
  loader_uuid_draws := 1;
|}.
(** * Properties *)

(** ** Dictionaries *)

Module DictFacts.
Import Dict.
Section DictFacts.
Context {K V : Type} `{EqDecision K}.
Implicit Types (k : K) (v : V) (d : list (K * V)).

Lemma get_set_eq k v d : get k (set k v d) = Some v.
Proof.
  induction d as [|[k' v'] d IH]; simpl.
  - destruct (decide (k = k)); congruence.
  - destruct (decide (k = k')) as [->|Hne]; simpl.
    + destruct (decide (k' = k')); congruence.
    + destruct (decide (k = k')); congruence.
Qed.

Lemma get_set_ne k k' v d : k <> k' -> get k' (set k v d) = get k' d.
Proof.
  intros Hne. induction d as [|[k0 v0] d IH]; simpl.
  - destruct (decide (k' = k)); congruence.
  - destruct (decide (k = k0)) as [->|Hk]; simpl.
    + destruct (decide (k' = k0)); congruence.
    + destruct (decide (k' = k0)); congruence.
Qed.

Lemma get_pop_eq k d : get k (pop k d) = None.
Proof.
  induction d as [|[k' v'] d IH]; simpl; [reflexivity|].
  destruct (decide (k = k')) as [->|Hne]; simpl; [exact IH|].
  destruct (decide (k = k')); congruence.
Qed.

Lemma get_pop_ne k k' d : k <> k' -> get k' (pop k d) = get k' d.
Proof.
  intros Hne. induction d as [|[k0 v0] d IH]; simpl; [reflexivity|].
  destruct (decide (k = k0)) as [->|Hk]; simpl.
  - destruct (decide (k' = k0)); congruence.
  - destruct (decide (k' = k0)); congruence.
Qed.

Lemma mem_pop_eq k d : mem k (pop k d) = false.
Proof. unfold mem. now rewrite get_pop_eq. Qed.

Lemma get_None_not_in k d : get k d = None -> ~ In k (keys d).
Proof.
  induction d as [|[k' v'] d IH]; simpl; [tauto|].
  destruct (decide (k = k')) as [->|Hne]; [discriminate|].
  intros Hg [Heq|Hin]; [congruence|]. now apply IH.
Qed.

Lemma not_in_get_None k d : ~ In k (keys d) -> get k d = None.
Proof.
  induction d as [|[k' v'] d IH]; simpl; [reflexivity|].
  intros Hn. destruct (decide (k = k')) as [->|Hne]; [tauto|].
  apply IH. tauto.
Qed.

Lemma get_pop_Some k k' v d : get k' (pop k d) = Some v -> get k' d = Some v.
Proof.
  destruct (decide (k = k')) as [->|Hne].
  - now rewrite get_pop_eq.
  - now rewrite get_pop_ne.
Qed.

Lemma get_set_Some k k' v v' d :
  get k' (set k v d) = Some v' -> (k' = k /\ v' = v) \/ (k' <> k /\ get k' d = Some v').
Proof.
  destruct (decide (k = k')) as [->|Hne].
  - rewrite get_set_eq. intros [= <-]. now left.
  - rewrite get_set_ne by assumption. intros Hg. right. split; congruence.
Qed.

Lemma get_Some_In k v d : get k d = Some v -> In (k, v) d.
Proof.
  induction d as [|[k' v'] d IH]; simpl; [discriminate|].
  destruct (decide (k = k')) as [->|Hne].
  - intros [= ->]. now left.
  - intros Hg. right. now apply IH.
Qed.

(** A key that is not yet bound is appended. *)
Lemma set_fresh k v d : ~ In k (keys d) -> set k v d = (d ++ [(k, v)])%list.
Proof.
  induction d as [|[k' v'] d IH]; simpl; [reflexivity|].
  intros Hn. destruct (decide (k = k')) as [->|Hne]; [tauto|].
  f_equal. apply IH. tauto.
Qed.

Lemma keys_app d1 d2 : keys (d1 ++ d2)%list = (keys d1 ++ keys d2)%list.
Proof. unfold keys. apply map_app. Qed.

Lemma get_pop_None k k' d : get k' d = None -> get k' (pop k d) = None.
Proof.
  intros Hn. destruct (decide (k = k')) as [->|Hne].
  - apply get_pop_eq.
  - now rewrite get_pop_ne.
Qed.

(** The binding that [get] finds is the first one of its key. *)
Lemma get_Some_split k v d :
  get k d = Some v ->
  exists d1 d2, d = (d1 ++ (k, v) :: d2)%list /\ ~ In k (keys d1).
Proof.
  induction d as [|[k' v'] d IH]; simpl; [discriminate|].
  destruct (decide (k = k')) as [->|Hne].
  - intros [= ->]. exists [], d. split; [reflexivity|]. simpl. tauto.
  - intros Hg. destruct (IH Hg) as (d1 & d2 & -> & Hn).
    exists ((k', v') :: d1), d2. split; [reflexivity|].
    simpl. intros [Heq|Hin]; [congruence|tauto].
Qed.

(** With distinct keys, a key has one binding. *)
Lemma NoDup_binding k v v' d :
  NoDup (keys d) -> get k d = Some v -> In (k, v') d -> v' = v.
Proof.
  induction d as [|[k0 v0] d IH]; simpl; [contradiction|].
  intros Hnd Hget. apply NoDup_cons in Hnd. destruct Hnd as [Hnot Hnd].
  rewrite list_elem_of_In in Hnot.
  destruct (decide (k = k0)) as [->|Hne].
  - injection Hget as <-. intros [Heq|Hin]; [congruence|].
    exfalso. apply Hnot. change k0 with (fst (k0, v')). now apply in_map.
  - intros [Heq|Hin]; [congruence|]. now apply IH.
Qed.
End DictFacts.
End DictFacts.

(** ** The lexical layer *)

Section LexFacts.
Open Scope char_scope.

Lemma string_length_app (a b : string) :
  String.length (a ++ b) = String.length a + String.length b.
Proof. induction a as [|c a IH]; simpl; [reflexivity|]. now rewrite IH. Qed.

Lemma string_app_assoc (a b c : string) : ((a ++ b) ++ c = a ++ (b ++ c))%string.
Proof. induction a as [|x a IH]; simpl; [reflexivity|]. now rewrite IH. Qed.

Lemma string_app_nil_r (a : string) : (a ++ EmptyString)%string = a.
Proof. induction a as [|x a IH]; simpl; [reflexivity|]. now rewrite IH. Qed.

Lemma number_delim_not_digit rest : number_delim rest = true -> not_digit_head rest = true.
Proof.
  destruct rest as [|c r]; simpl; [reflexivity|].
  destruct (is_digit c); simpl; [discriminate|reflexivity].
Qed.

Lemma span_digits_uint d rest :
  not_digit_head rest = true ->
  span_digits (NilEmpty.string_of_uint d ++ rest) = (NilEmpty.string_of_uint d, rest).
Proof.
  intros Hrest. induction d; simpl;
    try (rewrite IHd; reflexivity).
  destruct rest as [|c r]; simpl in *; [reflexivity|].
  destruct (is_digit c); [discriminate|reflexivity].
Qed.

Lemma nzhead_not_D0 d d' : Decimal.nzhead d <> Decimal.D0 d'.
Proof. induction d; simpl; try discriminate. exact IHd. Qed.

Lemma pos_to_uint_norm p : Decimal.unorm (Pos.to_uint p) = Pos.to_uint p.
Proof.
  rewrite <- (DecimalPos.Unsigned.to_of (Pos.to_uint p)).
  rewrite DecimalPos.Unsigned.of_to. reflexivity.
Qed.

(** The decimal text of a positive number starts with a digit other
    than zero. *)
Lemma digits_of_pos_head p :
  exists c d, digits_of_N (Npos p) = String c (NilEmpty.string_of_uint d)
              /\ is_digit c = true /\ (c =? "0") = false /\ (c =? "-") = false.
Proof.
  unfold digits_of_N. simpl N.to_uint.
  pose proof (pos_to_uint_norm p) as Hn.
  pose proof (DecimalPos.Unsigned.to_uint_nonzero p) as Hz.
  pose proof (DecimalPos.Unsigned.to_uint_nonnil p) as Hnil.
  destruct (Pos.to_uint p) as [|d|d|d|d|d|d|d|d|d|d] eqn:E;
    try (eexists _, d; simpl; repeat split; reflexivity).
  - congruence.
  - exfalso. unfold Decimal.unorm in Hn. simpl in Hn.
    destruct (Decimal.nzhead d) eqn:En; try discriminate.
    + apply Hz. injection Hn as <-. reflexivity.
    + apply (nzhead_not_D0 d d). congruence.
Qed.

Lemma scan_frac_delim rest : number_delim rest = true -> scan_frac rest = (EmptyString, rest).
Proof.
  destruct rest as [|p [|c r]]; simpl; try reflexivity.
  destruct (is_digit p); simpl; [discriminate|].
  destruct (p =? "."); simpl; [discriminate|reflexivity].
Qed.

Lemma scan_exp_delim rest : number_delim rest = true -> scan_exp rest = (EmptyString, rest).
Proof.
  destruct rest as [|e r]; simpl; [reflexivity|].
  destruct (is_digit e); simpl; [discriminate|].
  destruct (e =? "."); simpl; [discriminate|].
  destruct (e =? "e"); simpl; [discriminate|].
  destruct (e =? "E"); simpl; [discriminate|reflexivity].
Qed.

Lemma int_repr_pos p : int_repr (Zpos p) = digits_of_N (Npos p).
Proof. reflexivity. Qed.

Lemma int_repr_neg p : int_repr (Zneg p) = String "-" (digits_of_N (Npos p)).
Proof. reflexivity. Qed.

(** The integer group of [NUMBER_RE] on the text of an integer. *)
Lemma scan_integer_int_repr z rest :
  not_digit_head rest = true ->
  scan_integer (int_repr z ++ rest) = Some (int_repr z, rest).
Proof.
  intros Hd. destruct z as [|p|p].
  - reflexivity.
  - rewrite int_repr_pos.
    destruct (digits_of_pos_head p) as (c & d & -> & Hc & H0 & Hm).
    unfold scan_integer. simpl. rewrite Hm, H0, Hc.
    now rewrite span_digits_uint.
  - rewrite int_repr_neg.
    destruct (digits_of_pos_head p) as (c & d & -> & Hc & H0 & Hm).
    unfold scan_integer. simpl. rewrite H0, Hc.
    now rewrite span_digits_uint.
Qed.

Lemma match_number_int_repr z rest :
  number_delim rest = true ->
  match_number (int_repr z ++ rest) = Some (int_repr z, EmptyString, EmptyString, rest).
Proof.
  intros Hd. unfold match_number.
  rewrite scan_integer_int_repr by now apply number_delim_not_digit.
  rewrite scan_frac_delim, scan_exp_delim by assumption. reflexivity.
Qed.

Lemma N_of_digits_of_N n : N_of_digits (digits_of_N n) = n.
Proof.
  unfold N_of_digits, digits_of_N. rewrite NilEmpty.usu.
  apply DecimalN.Unsigned.of_to.
Qed.

Lemma int_of_literal_repr z : int_of_literal (int_repr z) = z.
Proof.
  destruct z as [|p|p].
  - reflexivity.
  - rewrite int_repr_pos.
    destruct (digits_of_pos_head p) as (c & d & E & Hc & H0 & Hm).
    unfold int_of_literal. rewrite E. rewrite Hm, <- E, N_of_digits_of_N.
    reflexivity.
  - rewrite int_repr_neg. unfold int_of_literal.
    change (("-" =? "-")%char) with true. cbv iota.
    rewrite N_of_digits_of_N. reflexivity.
Qed.

(** The laws of the float interface hold of the integral floats. *)
Lemma whole_floats_laws : @PyFloatLaws whole_floats.
Proof.
  constructor.
  - intros x rest Hd. simpl. unfold whole_repr, lex_number, match_number.
    rewrite string_app_assoc. rewrite scan_integer_int_repr by reflexivity.
    change ((".0" ++ rest)%string) with (String "." (String "0" rest)).
    unfold scan_frac. change (("." =? ".") && is_digit "0") with true. cbv iota.
    assert (Hs : span_digits rest = (EmptyString, rest)).
    { apply number_delim_not_digit in Hd. destruct rest as [|c r]; simpl in *; [reflexivity|].
      destruct (is_digit c); [discriminate|reflexivity]. }
    rewrite Hs. rewrite scan_exp_delim by assumption. reflexivity.
  - intros x. simpl. unfold whole_repr, whole_of_literal.
    rewrite scan_integer_int_repr by reflexivity. now rewrite int_of_literal_repr.
  - intros a b. simpl. rewrite !Z.ltb_lt, Z.ltb_ge. lia.
Qed.

End LexFacts.

(** ** The JSON codec *)

Section StringFacts.
Open Scope char_scope.

Lemma scanstring_escape_char c rest :
  scanstring (escape_char c ++ rest) = cons_result c (scanstring rest).
Proof.
  destruct c as [[] [] [] [] [] [] [] []]; reflexivity.
Qed.

(** A string literal written by [quote] is read back by [scanstring]. *)
Lemma scanstring_escape_string s rest :
  scanstring (escape_string s ++ String "034" rest) = Some (s, rest).
Proof.
  induction s as [|c s IH]; simpl; [reflexivity|].
  rewrite string_app_assoc, scanstring_escape_char, IH. reflexivity.
Qed.

Lemma is_digit_cases c :
  is_digit c = true ->
  In c ["0"; "1"; "2"; "3"; "4"; "5"; "6"; "7"; "8"; "9"].
Proof.
  destruct c as [[] [] [] [] [] [] [] []]; simpl; intros Hd;
    try discriminate; tauto.
Qed.

Lemma scan_integer_head s res : scan_integer s = Some res -> number_head s = true.
Proof.
  unfold scan_integer, number_head. destruct s as [|c r]; [discriminate|].
  destruct (c =? "-") eqn:Em.
  - destruct r as [|d r']; [discriminate|].
    destruct (d =? "0") eqn:E0.
    + apply Ascii.eqb_eq in E0. subst d. intros _. simpl. now rewrite orb_true_r.
    + destruct (is_digit d); [|discriminate]. intros _. simpl. now rewrite orb_true_r.
  - destruct (c =? "0") eqn:E0.
    + apply Ascii.eqb_eq in E0. subst c. reflexivity.
    + destruct (is_digit c); [|discriminate]. reflexivity.
Qed.

Lemma lex_number_head s res : lex_number s = Some res -> number_head s = true.
Proof.
  unfold lex_number, match_number.
  destruct (scan_integer s) as [[i r]|] eqn:E; [|discriminate].
  intros _. now apply scan_integer_head in E.
Qed.

Lemma number_head_value_head s : number_head s = true -> value_head s = true.
Proof.
  destruct s as [|c r]; simpl; [discriminate|].
  intros Hh. apply orb_true_iff in Hh. destruct Hh as [Hd|Hm].
  - apply is_digit_cases in Hd. simpl in Hd.
    repeat (destruct Hd as [<-|Hd]; [reflexivity|]). contradiction.
  - apply andb_true_iff in Hm. destruct Hm as [Hm _].
    apply Ascii.eqb_eq in Hm. subst c. reflexivity.
Qed.

Lemma value_head_app a b : value_head a = true -> value_head (a ++ b) = true.
Proof. destruct a; simpl; [discriminate|auto]. Qed.

Lemma skip_ws_value_head s : value_head s = true -> skip_ws s = s.
Proof.
  destruct s as [|c r]; simpl; [reflexivity|].
  destruct (is_ws c); simpl; [discriminate|reflexivity].
Qed.

End StringFacts.

Section JsonFacts.
Context `{PyFloat}.
Open Scope char_scope.

(** Induction on JSON values, through the lists that nest them. *)
Lemma json_ind (P : json -> Prop)
    (Hnull : P JNull)
    (Hbool : forall b, P (JBool b))
    (Hint : forall z, P (JInt z))
    (Hfloat : forall f, P (JFloat f))
    (Hstr : forall s, P (JStr s))
    (Harr : forall xs, Forall P xs -> P (JArr xs))
    (Hobj : forall kvs, Forall (fun kv => P (snd kv)) kvs -> P (JObj kvs)) :
  forall v, P v.
Proof.
  fix IH 1. intros [ | b | z | f | s | xs | kvs ].
  - exact Hnull.
  - apply Hbool.
  - apply Hint.
  - apply Hfloat.
  - apply Hstr.
  - apply Harr. induction xs as [|x xs IHxs]; constructor; [apply IH|exact IHxs].
  - apply Hobj. induction kvs as [|kv kvs IHkvs]; constructor; [apply IH|exact IHkvs].
Qed.

Lemma scan_once_S n s :
  scan_once (S n) s =
  match s with
  | String c r =>
      if c =? "034" then
        match scanstring r with
        | Some (x, r') => Some (JStr x, r')
        | None => None
        end
      else if c =? "{" then
        match skip_ws r with
        | String c1 r1 =>
            if c1 =? "}" then Some (JObj [], r1)
            else parse_members n (String c1 r1) []
        | EmptyString => None
        end
      else if c =? "[" then
        match skip_ws r with
        | String c1 r1 =>
            if c1 =? "]" then Some (JArr [], r1)
            else parse_elements n (String c1 r1) []
        | EmptyString => None
        end
      else
        match scan_constant s with
        | Some res => Some res
        | None => scan_number s
        end
  | EmptyString => None
  end.
Proof. reflexivity. Qed.

Lemma parse_elements_S n s acc :
  parse_elements (S n) s acc =
  match scan_once n s with
  | Some (v, r1) =>
      match skip_ws r1 with
      | String c r2 =>
          if c =? "]" then Some (JArr (acc ++ [v]), r2)
          else if c =? "," then parse_elements n (skip_ws r2) (acc ++ [v])
          else None
      | EmptyString => None
      end
  | None => None
  end.
Proof. reflexivity. Qed.

Lemma parse_members_S n s acc :
  parse_members (S n) s acc =
  match s with
  | String q r =>
      if q =? "034" then
        match scanstring r with
        | Some (key, r1) =>
            match skip_ws r1 with
            | String colon r2 =>
                if colon =? ":" then
                  match scan_once n (skip_ws r2) with
                  | Some (v, r3) =>
                      match skip_ws r3 with
                      | String c r4 =>
                          if c =? "}" then Some (JObj (Dict.set key v acc), r4)
                          else if c =? "," then
                            parse_members n (skip_ws r4) (Dict.set key v acc)
                          else None
                      | EmptyString => None
                      end
                  | None => None
                  end
                else None
            | EmptyString => None
            end
        | None => None
        end
      else None
  | EmptyString => None
  end.
Proof. reflexivity. Qed.

(** A text with the head of a number is scanned as a number. *)
Lemma scan_once_number n s :
  number_head s = true -> scan_once (S n) s = scan_number s.
Proof.
  destruct s as [|c r]; simpl number_head; [discriminate|].
  intros Hh. rewrite scan_once_S. apply orb_true_iff in Hh. destruct Hh as [Hd|Hm].
  - apply is_digit_cases in Hd. simpl in Hd.
    repeat (destruct Hd as [<-|Hd]; [reflexivity|]). contradiction.
  - apply andb_true_iff in Hm. destruct Hm as [Hm Hd].
    apply Ascii.eqb_eq in Hm. subst c.
    destruct r as [|d r']; [discriminate|].
    apply is_digit_cases in Hd. simpl in Hd.
    repeat (destruct Hd as [<-|Hd]; [reflexivity|]). contradiction.
Qed.

Lemma scan_number_int z rest :
  number_delim rest = true ->
  scan_number (int_repr z ++ rest) = Some (JInt z, rest).
Proof.
  intros Hd. unfold scan_number. rewrite match_number_int_repr by assumption.
  now rewrite int_of_literal_repr.
Qed.

Lemma number_head_int z rest : number_head (int_repr z ++ rest) = true.
Proof.
  destruct z as [|p|p].
  - reflexivity.
  - rewrite int_repr_pos. destruct (digits_of_pos_head p) as (c & d & -> & Hc & _).
    simpl. now rewrite Hc.
  - rewrite int_repr_neg. destruct (digits_of_pos_head p) as (c & d & -> & Hc & _).
    simpl. now rewrite Hc.
Qed.

Section WithLaws.
Context `{!PyFloatLaws}.

Lemma scan_number_float x rest :
  number_delim rest = true ->
  scan_number (float_repr x ++ rest) = Some (JFloat (Finite x), rest).
Proof.
  intros Hd. pose proof (float_repr_lex x rest Hd) as Hl.
  unfold lex_number in Hl. unfold scan_number.
  destruct (match_number (float_repr x ++ rest)) as [[[[i f] e] r]|]; [|discriminate].
  injection Hl as Htext Hfloat Hrest. subst r.
  assert (Hv : float_of_literal (i ++ f ++ e) = Finite x).
  { rewrite Htext. unfold float_of_literal. now rewrite float_of_repr. }
  destruct f as [|cf f]; destruct e as [|ce e]; simpl in Hfloat;
    try discriminate; now rewrite Hv.
Qed.

Lemma number_head_float x rest :
  number_delim rest = true -> number_head (float_repr x ++ rest) = true.
Proof.
  intros Hd. eapply lex_number_head. now apply float_repr_lex.
Qed.

(** [dumps v] never starts with whitespace or a closing bracket. *)
Lemma dumps_value_head v rest :
  number_delim rest = true -> value_head (dumps v ++ rest) = true.
Proof.
  intros Hd. destruct v as [ | [|] | z | [x| | |] | s | xs | kvs ]; try reflexivity.
  - apply number_head_value_head, number_head_int.
  - now apply number_head_value_head, number_head_float.
Qed.

Lemma dumps_nonempty v : 1 <= String.length (dumps v).
Proof.
  pose proof (dumps_value_head v EmptyString eq_refl) as Hh.
  rewrite string_app_nil_r in Hh. destruct (dumps v); simpl in *; [discriminate|lia].
Qed.

Lemma roundtrips_atom v :
  match v with JArr _ | JObj _ => False | _ => True end -> roundtrips v.
Proof.
  intros Hv fuel rest Hf Hd. pose proof (dumps_nonempty v) as Hn.
  destruct fuel as [|n]; [lia|].
  destruct v as [ | [|] | z | [x| | |] | s | xs | kvs ]; try contradiction;
    try reflexivity.
  - rewrite scan_once_number by apply number_head_int. now apply scan_number_int.
  - rewrite scan_once_number by now apply number_head_float.
    now apply scan_number_float.
  - rewrite scan_once_S. simpl dumps. unfold quote. simpl.
    rewrite string_app_assoc. simpl.
    now rewrite scanstring_escape_string.
Qed.

Lemma sep_join_cons2 sep x y l :
  sep_join sep (x :: y :: l) = (x ++ sep ++ sep_join sep (y :: l))%string.
Proof. reflexivity. Qed.

Lemma parse_elements_dumps xs :
  Forall roundtrips xs -> xs <> [] ->
  forall fuel rest acc,
    S (String.length (sep_join ", " (map dumps xs))) <= fuel ->
    parse_elements fuel (sep_join ", " (map dumps xs) ++ String "]" rest) acc
    = Some (JArr (acc ++ xs), rest).
Proof.
  induction xs as [|x xs IH]; [congruence|]. intros Hall _ fuel rest acc Hf.
  inversion Hall as [|? ? Hx Hxs]; subst.
  destruct fuel as [|n]; [lia|]. rewrite parse_elements_S.
  destruct xs as [|y ys].
  - simpl map in *. simpl sep_join in *.
    rewrite Hx by (simpl; (lia || reflexivity)). simpl. reflexivity.
  - simpl map in *. rewrite sep_join_cons2 in *.
    rewrite !string_length_app in Hf. change (String.length ", ") with 2 in Hf.
    rewrite !string_app_assoc.
    rewrite Hx by (simpl; (lia || reflexivity)).
    remember (sep_join ", " (dumps y :: map dumps ys)) as tail eqn:Etail.
    simpl. subst tail.
    rewrite skip_ws_value_head.
    + rewrite (IH Hxs) by (congruence || lia).
      now rewrite <- app_assoc.
    + destruct ys as [|y' ys'].
      * simpl. now apply dumps_value_head.
      * simpl map. rewrite sep_join_cons2, string_app_assoc. now apply dumps_value_head.
Qed.

Lemma existsb_eqb_In k l : existsb (String.eqb k) l = true <-> In k l.
Proof.
  rewrite existsb_exists. split.
  - intros (x & Hin & Heq). apply String.eqb_eq in Heq. now subst.
  - intros Hin. exists k. split; [assumption|apply String.eqb_refl].
Qed.

Lemma distinct_NoDup l : distinct l = true <-> NoDup l.
Proof.
  induction l as [|k l IH]; simpl.
  - split; [constructor|reflexivity].
  - rewrite andb_true_iff, negb_true_iff, IH, NoDup_cons, list_elem_of_In.
    rewrite <- existsb_eqb_In. destruct (existsb (String.eqb k) l); intuition congruence.
Qed.

Lemma member_text_shape k v rest :
  (member_text (k, v) ++ rest)%string
  = String "034" (escape_string k ++ String "034" (String ":" (String " " (dumps v ++ rest)))).
Proof.
  unfold member_text, quote. simpl.
  rewrite !string_app_assoc. simpl. reflexivity.
Qed.

Lemma members_value_head kvs rest :
  kvs <> [] -> value_head (sep_join ", " (map member_text kvs) ++ rest) = true.
Proof.
  destruct kvs as [|[k v] [|kv kvs]]; [congruence| |]; intros _.
  - simpl map. simpl sep_join. now rewrite member_text_shape.
  - simpl map. rewrite sep_join_cons2, string_app_assoc. now rewrite member_text_shape.
Qed.

Lemma parse_members_dumps kvs :
  Forall (fun kv => roundtrips (snd kv)) kvs -> kvs <> [] ->
  forall fuel rest acc,
    S (String.length (sep_join ", " (map member_text kvs))) <= fuel ->
    NoDup (map fst (acc ++ kvs)) ->
    parse_members fuel (sep_join ", " (map member_text kvs) ++ String "}" rest) acc
    = Some (JObj (acc ++ kvs), rest).
Proof.
  induction kvs as [|[k v] kvs IH]; [congruence|]. intros Hall _ fuel rest acc Hf Hnd.
  inversion Hall as [|? ? Hv Hkvs]; subst. simpl in Hv.
  assert (Hfresh : Dict.set k v acc = (acc ++ [(k, v)])%list).
  { apply DictFacts.set_fresh. rewrite map_app in Hnd. simpl in Hnd.
    apply NoDup_app in Hnd. destruct Hnd as (_ & Hnd & _).
    intros Hin. apply list_elem_of_In in Hin. apply (Hnd k Hin). left. }
  assert (Hlen : String.length (member_text (k, v)) = String.length (quote k) + 2 + String.length (dumps v)).
  { unfold member_text. rewrite !string_length_app. simpl. lia. }
  destruct fuel as [|n]; [lia|]. rewrite parse_members_S.
  destruct kvs as [|kv kvs].
  - simpl map in *. simpl sep_join in *.
    rewrite member_text_shape.
    change (("034" =? "034")%char) with true. cbv iota.
    rewrite scanstring_escape_string.
    change (skip_ws (String ":" (String " " (dumps v ++ String "}" rest))))
      with (String ":" (String " " (dumps v ++ String "}" rest))).
    cbv iota. change ((":" =? ":")%char) with true. cbv iota.
    change (skip_ws (String " " (dumps v ++ String "}" rest)))
      with (skip_ws (dumps v ++ String "}" rest)).
    rewrite skip_ws_value_head by now apply dumps_value_head.
    rewrite Hv by (reflexivity || lia).
    rewrite Hfresh. reflexivity.
  - simpl map in *. rewrite sep_join_cons2 in *.
    rewrite !string_length_app in Hf. change (String.length ", ") with 2 in Hf.
    remember (sep_join ", " (member_text kv :: map member_text kvs)) as tail eqn:Etail.
    rewrite string_app_assoc. rewrite member_text_shape.
    change (("034" =? "034")%char) with true. cbv iota.
    rewrite scanstring_escape_string.
    match goal with
    | |- context [skip_ws (String ":" ?r)] =>
        change (skip_ws (String ":" r)) with (String ":" r)
    end.
    cbv iota. change ((":" =? ":")%char) with true. cbv iota.
    match goal with
    | |- context [skip_ws (String " " ?r)] =>
        change (skip_ws (String " " r)) with (skip_ws r)
    end.
    rewrite skip_ws_value_head by now apply dumps_value_head.
    rewrite Hv by (reflexivity || lia).
    rewrite string_app_assoc.
    change ((", " ++ tail ++ String "}" rest)%string)
      with (String "," (String " " (tail ++ String "}" rest))).
    change (skip_ws (String "," (String " " (tail ++ String "}" rest))))
      with (String "," (String " " (tail ++ String "}" rest))).
    cbv iota. change (("," =? "}")%char) with false.
    change (("," =? ",")%char) with true. cbv iota.
    change (skip_ws (String " " (tail ++ String "}" rest)))
      with (skip_ws (tail ++ String "}" rest)).
    rewrite skip_ws_value_head by (subst tail; now apply (members_value_head (kv :: kvs))).
    rewrite Hfresh. subst tail.
    rewrite (IH Hkvs); [now rewrite <- app_assoc|congruence|lia|].
    rewrite <- app_assoc. exact Hnd.
Qed.

Lemma Forall_forallb {A} (P : A -> Prop) (q : A -> bool) (l : list A) :
  Forall (fun x => q x = true -> P x) l -> forallb q l = true -> Forall P l.
Proof.
  induction 1 as [|x l Hx Hl IH]; simpl; intros Hq; constructor;
    apply andb_true_iff in Hq; destruct Hq; auto.
Qed.

(** Every valid value is read back from its encoding. *)
Lemma roundtrips_valid v : json_valid v = true -> roundtrips v.
Proof.
  induction v as [ | b | z | f | s | xs IHxs | kvs IHkvs ] using json_ind;
    intros Hvalid; try (apply roundtrips_atom; exact I).
  - assert (Hall : Forall roundtrips xs).
    { apply (Forall_forallb roundtrips json_valid xs IHxs). exact Hvalid. }
    intros fuel rest Hf Hd. destruct fuel as [|n]; [simpl in Hf; lia|].
    change (dumps (JArr xs) ++ rest)%string
      with (String "[" ((sep_join ", " (map dumps xs) ++ "]") ++ rest)).
    change (String.length (dumps (JArr xs)))
      with (S (String.length (sep_join ", " (map dumps xs) ++ "]"))) in Hf.
    rewrite scan_once_S. cbv iota.
    change (("[" =? "034")%char) with false. change (("[" =? "{")%char) with false.
    change (("[" =? "[")%char) with true. cbv iota.
    destruct xs as [|x xs].
    + reflexivity.
    + rewrite !string_length_app in Hf. change (String.length "]") with 1 in Hf.
      rewrite string_app_assoc.
      change (("]" ++ rest)%string) with (String "]" rest).
      remember (sep_join ", " (map dumps (x :: xs))) as text eqn:Etext.
      assert (Hhead : value_head (text ++ String "]" rest) = true).
      { subst text. destruct xs as [|y ys].
        - simpl. now apply dumps_value_head.
        - simpl map. rewrite sep_join_cons2, string_app_assoc. now apply dumps_value_head. }
      rewrite skip_ws_value_head by assumption.
      destruct (text ++ String "]" rest)%string as [|c1 r1] eqn:Et; [discriminate|].
      simpl in Hhead. destruct (c1 =? "]")%char eqn:Ec.
      { rewrite andb_false_r in Hhead. discriminate. }
      rewrite <- Et. subst text.
      rewrite (parse_elements_dumps (x :: xs) Hall) by (congruence || lia).
      reflexivity.
  - assert (Hall : Forall (fun kv => roundtrips (snd kv)) kvs).
    { simpl in Hvalid. apply andb_true_iff in Hvalid. destruct Hvalid as [_ Hvalid].
      exact (Forall_forallb (fun kv => roundtrips (snd kv))
               (fun kv => json_valid (snd kv)) kvs IHkvs Hvalid). }
    assert (Hnd : NoDup (map fst kvs)).
    { simpl in Hvalid. apply andb_true_iff in Hvalid. now apply distinct_NoDup. }
    intros fuel rest Hf Hd. destruct fuel as [|n]; [simpl in Hf; lia|].
    change (dumps (JObj kvs) ++ rest)%string
      with (String "{" ((sep_join ", " (map member_text kvs) ++ "}") ++ rest)).
    change (String.length (dumps (JObj kvs)))
      with (S (String.length (sep_join ", " (map member_text kvs) ++ "}"))) in Hf.
    rewrite scan_once_S. cbv iota.
    change (("{" =? "034")%char) with false. change (("{" =? "{")%char) with true.
    cbv iota.
    destruct kvs as [|kv kvs].
    + reflexivity.
    + rewrite !string_length_app in Hf. change (String.length "}") with 1 in Hf.
      rewrite string_app_assoc.
      change (("}" ++ rest)%string) with (String "}" rest).
      remember (sep_join ", " (map member_text (kv :: kvs))) as text eqn:Etext.
      assert (Hhead : value_head (text ++ String "}" rest) = true).
      { subst text. now apply members_value_head. }
      rewrite skip_ws_value_head by assumption.
      destruct (text ++ String "}" rest)%string as [|c1 r1] eqn:Et; [discriminate|].
      simpl in Hhead. destruct (c1 =? "}")%char eqn:Ec.
      { rewrite andb_false_r in Hhead. discriminate. }
      rewrite <- Et. subst text.
      rewrite (parse_members_dumps (kv :: kvs) Hall) by (congruence || lia || exact Hnd).
      reflexivity.
Qed.

(** [json.loads(json.dumps(v)) == v] *)
Lemma loads_dumps v : json_valid v = true -> loads (dumps v) = Return v.
Proof.
  intros Hvalid. unfold loads.
  pose proof (dumps_value_head v EmptyString eq_refl) as Hh.
  rewrite string_app_nil_r in Hh. rewrite skip_ws_value_head by assumption.
  pose proof (roundtrips_valid v Hvalid (S (String.length (dumps v))) EmptyString) as Hr.
  rewrite string_app_nil_r in Hr. rewrite Hr by (reflexivity || lia). reflexivity.
Qed.

End WithLaws.
End JsonFacts.

(** ** The message codec *)

Section CodecFacts.
Context `{PyFloat} `{!PyFloatLaws}.

Lemma MessageType_call_value t : MessageType_call (JStr (MessageType.value t)) = Return t.
Proof. destruct t; reflexivity. Qed.

(** C9: decoding the encoding of a valid message gives the message back,
    equal in each of its seven fields: [from_json (to_json x)] returns
    [x].  The only trace the call leaves is one reading of the clock,
    taken for the default of the timestamp although the key is present. *)
Theorem from_json_to_json (x : DeviceMessage.t) (w : World) :
  valid_message x = true ->
  from_json (DeviceMessage.to_json x) w
  = (Return x, set_clock_reads (S (clock_reads w)) w).
Proof.
  intros Hvalid. unfold valid_message in Hvalid.
  repeat (apply andb_true_iff in Hvalid; destruct Hvalid as [Hvalid ?]).
  unfold from_json, DeviceMessage.to_json.
  unfold bind at 1. unfold lift at 1.
  rewrite loads_dumps.
  - unfold bind, lift, time_time, ret. simpl py_get. cbv beta iota.
    rewrite MessageType_call_value. destruct x; reflexivity.
  - simpl. repeat (apply andb_true_iff; split); auto.
Qed.

End CodecFacts.

(** The round trip at [example_message]. *)
Lemma from_json_to_json_witness :
  @valid_message whole_floats example_message = true
  /\ @from_json whole_floats (DeviceMessage.to_json example_message) fresh_world
     = (Return example_message, set_clock_reads 1 fresh_world).
Proof.
  split; [reflexivity|].
  apply (@from_json_to_json whole_floats whole_floats_laws example_message fresh_world).
  reflexivity.
Defined.

(** ** Inbound messages *)

Section InboundFacts.
Context `{PyFloat}.









End InboundFacts.



(** ** Rules for invariants of computations *)

Section HoareRules.
Context {S : Type}.
Implicit Types I : S -> Prop.

Lemma hoare_ret {A} I (a : A) (R : A -> Prop) : R a -> hoare I (ret a) R.
Proof. intros Ha w Hw. split; [exact Hw|]. simpl. intros b [= <-]. exact Ha. Qed.

Lemma hoare_raise {A} I e (R : A -> Prop) : hoare I (raise e) R.
Proof. intros w Hw. split; [exact Hw|]. simpl. discriminate. Qed.

Lemma hoare_lift {A} I (o : outcome A) (R : A -> Prop) :
  (forall a, o = Return a -> R a) -> hoare I (lift o) R.
Proof. intros Ho w Hw. split; [exact Hw|]. simpl. exact Ho. Qed.

Lemma hoare_bind {A B} I (m : ST S A) (k : A -> ST S B) (R1 : A -> Prop) (R : B -> Prop) :
  hoare I m R1 -> (forall a, R1 a -> hoare I (k a) R) -> hoare I (bind m k) R.
Proof.
  intros Hm Hk w Hw. destruct (Hm w Hw) as [Hi Hr]. unfold bind.
  destruct (m w) as [[a|e] w1]; simpl in *.
  - apply Hk; [now apply Hr|exact Hi].
  - split; [exact Hi|discriminate].
Qed.

Lemma hoare_try_except {A} I (m : ST S A) (h : exn -> ST S A) (R : A -> Prop) :
  hoare I m R -> (forall e, hoare I (h e) R) -> hoare I (try_except m h) R.
Proof.
  intros Hm Hh w Hw. destruct (Hm w Hw) as [Hi Hr]. unfold try_except.
  destruct (m w) as [[a|e] w1]; simpl in *.
  - split; [exact Hi|]. intros b [= <-]. now apply Hr.
  - now apply Hh.
Qed.

Lemma hoare_gets {A} I (f : S -> A) : hoare I (gets f) (fun _ => True).
Proof. intros w Hw. split; [exact Hw|trivial]. Qed.

Lemma hoare_modify I (g : S -> S) :
  (forall w, I w -> I (g w)) -> hoare I (modify g) (fun _ => True).
Proof. intros Hg w Hw. split; [now apply Hg|trivial]. Qed.

Lemma hoare_weaken {A} I (m : ST S A) (R R' : A -> Prop) :
  hoare I m R -> (forall a, R a -> R' a) -> hoare I m R'.
Proof. intros Hm HR w Hw. destruct (Hm w Hw) as [Hi Hr]. split; auto. Qed.

Lemma hoare_true {A} I (m : ST S A) (R : A -> Prop) :
  hoare I m R -> hoare I m (fun _ => True).
Proof. intros Hm. eapply hoare_weaken; [exact Hm|trivial]. Qed.

Lemma hoare_for_each {A} I (l : list A) (body : A -> ST S unit) :
  (forall x, hoare I (body x) (fun _ => True)) ->
  hoare I (for_each l body) (fun _ => True).
Proof.
  intros Hb. induction l as [|x l IH]; simpl.
  - now apply hoare_ret.
  - eapply hoare_bind; [apply Hb|]. intros _ _. exact IH.
Qed.

Lemma returns_ret {A} (a : A) : returns (S := S) (ret a).
Proof. intros w. now exists a. Qed.

Lemma returns_bind {A B} (m : ST S A) (k : A -> ST S B) :
  returns m -> (forall a, returns (k a)) -> returns (bind m k).
Proof.
  intros Hm Hk w. destruct (Hm w) as [a Ha]. unfold bind.
  destruct (m w) as [[a'|e] w1]; simpl in *; [|discriminate].
  apply Hk.
Qed.

Lemma returns_try_except {A} (m : ST S A) (h : exn -> ST S A) :
  (forall e, returns (h e)) -> returns (try_except m h).
Proof.
  intros Hh w. unfold try_except. destruct (m w) as [[a|e] w1]; simpl.
  - now exists a.
  - apply Hh.
Qed.

Lemma returns_gets {A} (f : S -> A) : returns (gets f).
Proof. intros w. now exists (f w). Qed.

Lemma returns_modify (g : S -> S) : returns (modify g).
Proof. intros w. now exists tt. Qed.

Lemma returns_for_each {A} (l : list A) (body : A -> ST S unit) :
  (forall x, returns (body x)) -> returns (for_each l body).
Proof.
  intros Hb. induction l as [|x l IH]; simpl.
  - apply returns_ret.
  - apply returns_bind; [apply Hb|]. intros _. exact IH.
Qed.

Section Follows.
Variable Rel : S -> S -> Prop.
Hypothesis Rel_refl : forall w, Rel w w.
Hypothesis Rel_trans : forall w1 w2 w3, Rel w1 w2 -> Rel w2 w3 -> Rel w1 w3.

Lemma follows_ret {A} (a : A) : follows Rel (ret a).
Proof. intros w. apply Rel_refl. Qed.

Lemma follows_lift {A} (o : outcome A) : follows Rel (lift o).
Proof. intros w. apply Rel_refl. Qed.

Lemma follows_gets {A} (f : S -> A) : follows Rel (gets f).
Proof. intros w. apply Rel_refl. Qed.

Lemma follows_bind {A B} (m : ST S A) (k : A -> ST S B) :
  follows Rel m -> (forall a, follows Rel (k a)) -> follows Rel (bind m k).
Proof.
  intros Hm Hk w. specialize (Hm w). unfold bind.
  destruct (m w) as [[a|e] w1]; simpl in *; [|exact Hm].
  eapply Rel_trans; [exact Hm|apply Hk].
Qed.

Lemma follows_try_except {A} (m : ST S A) (h : exn -> ST S A) :
  follows Rel m -> (forall e, follows Rel (h e)) -> follows Rel (try_except m h).
Proof.
  intros Hm Hh w. specialize (Hm w). unfold try_except.
  destruct (m w) as [[a|e] w1]; simpl in *; [exact Hm|].
  eapply Rel_trans; [exact Hm|apply Hh].
Qed.

Lemma follows_for_each {A} (l : list A) (body : A -> ST S unit) :
  (forall x, In x l -> follows Rel (body x)) -> follows Rel (for_each l body).
Proof.
  induction l as [|x l IH]; simpl; intros Hb.
  - apply follows_ret.
  - apply follows_bind; [apply Hb; now left|]. intros _. apply IH.
    intros y Hy. apply Hb. now right.
Qed.

End Follows.

(** One turn of a loop whose body returns. *)
Lemma for_each_cons {A} (x : A) (l : list A) (body : A -> ST S unit) (w : S) :
  returns (body x) ->
  snd (for_each (x :: l) body w) = snd (for_each l body (snd (body x w))).
Proof.
  intros Hb. simpl. unfold bind. destruct (Hb w) as [[] Hx].
  destruct (body x w) as [[[]|e] w1]; simpl in *; [reflexivity|discriminate].
Qed.

(** A loop over a list that is cut in two, when the body returns. *)
Lemma for_each_app {A} (l1 l2 : list A) (body : A -> ST S unit) (w : S) :
  (forall x, returns (body x)) ->
  snd (for_each (l1 ++ l2)%list body w)
  = snd (for_each l2 body (snd (for_each l1 body w))).
Proof.
  intros Hb. revert w. induction l1 as [|x l1 IH]; intros w; simpl; [reflexivity|].
  unfold bind. destruct (Hb x w) as [[] Hx].
  destruct (body x w) as [[[]|e] w1]; simpl in *; [|discriminate].
  rewrite IH. reflexivity.
Qed.

End HoareRules.

(** ** What the operations of the manager leave untouched *)

Section CoreFacts.
Context `{PyFloat}.

Lemma same_core_refl (w : World) : same_core w w.
Proof. repeat split. Qed.

Lemma same_core_trans (w1 w2 w3 : World) :
  same_core w1 w2 -> same_core w2 w3 -> same_core w1 w3.
Proof.
  intros (Hf1 & Hc1 & Ht1) (Hf2 & Hc2 & Ht2). repeat split; try congruence.
  all: intros c; now rewrite Ht2, Ht1.
Qed.

Lemma keeps_core_ret {A} (a : A) : keeps_core (ret a).
Proof. intros w. apply same_core_refl. Qed.

Lemma keeps_core_raise {A} e : keeps_core (A := A) (raise e).
Proof. intros w. apply same_core_refl. Qed.

Lemma keeps_core_lift {A} (o : outcome A) : keeps_core (lift o).
Proof. intros w. apply same_core_refl. Qed.

Lemma keeps_core_gets {A} (f : World -> A) : keeps_core (gets f).
Proof. intros w. apply same_core_refl. Qed.

Lemma keeps_core_bind {A B} (m : M A) (k : A -> M B) :
  keeps_core m -> (forall a, keeps_core (k a)) -> keeps_core (bind m k).
Proof.
  intros Hm Hk w. specialize (Hm w). unfold bind.
  destruct (m w) as [[a|e] w1]; simpl in *; [|exact Hm].
  eapply same_core_trans; [exact Hm|apply Hk].
Qed.

Lemma keeps_core_try_except {A} (m : M A) (h : exn -> M A) :
  keeps_core m -> (forall e, keeps_core (h e)) -> keeps_core (try_except m h).
Proof.
  intros Hm Hh w. specialize (Hm w). unfold try_except.
  destruct (m w) as [[a|e] w1]; simpl in *; [exact Hm|].
  eapply same_core_trans; [exact Hm|apply Hh].
Qed.

Lemma keeps_core_modify (g : World -> World) :
  (forall w, same_core w (g w)) -> keeps_core (modify g).
Proof. intros Hg w. apply Hg. Qed.

Lemma keeps_core_for_each {A} (l : list A) (body : A -> M unit) :
  (forall x, keeps_core (body x)) -> keeps_core (for_each l body).
Proof.
  intros Hb. induction l as [|x l IH]; simpl.
  - apply keeps_core_ret.
  - apply keeps_core_bind; [apply Hb|]. intros _. exact IH.
Qed.

(** An invariant that only looks at the core survives a computation
    that keeps the core. *)
Lemma keeps_core_hoare {A} (I : World -> Prop) (m : M A) :
  respects_core I -> keeps_core m -> hoare I m (fun _ => True).
Proof. intros HI Hm w Hw. split; [|trivial]. exact (HI w _ (Hm w) Hw). Qed.

Lemma keeps_core_time_time : keeps_core time_time.
Proof. intros w. repeat split. Qed.

Lemma keeps_core_uuid4_8 : keeps_core uuid4_8.
Proof. intros w. repeat split. Qed.

Lemma keeps_core_emit_event event_type device_id :
  keeps_core (_emit_event event_type device_id).
Proof. intros w. repeat split. Qed.

Lemma keeps_core_registry_update_status device_id status :
  keeps_core (registry_update_status device_id status).
Proof.
  intros w. unfold registry_update_status.
  destruct (Dict.get device_id (registry_devices w)); repeat split.
Qed.

Lemma keeps_core_registry_register device_id platform :
  keeps_core (registry_register device_id platform).
Proof. intros w. destruct platform; repeat split. Qed.

Lemma keeps_core_ws_send_text ws text : keeps_core (ws_send_text ws text).
Proof.
  intros w. unfold ws_send_text.
  destruct (socket_store w !! ws) as [s|]; [|repeat split].
  destruct (ws_closed s || ws_broken s); repeat split.
Qed.

Lemma keeps_core_ws_close ws : keeps_core (ws_close ws).
Proof.
  intros w. unfold ws_close.
  destruct (socket_store w !! ws) as [s|]; [|repeat split].
  destruct (ws_closed s); repeat split.
Qed.

Lemma table_of_update (w : World) c conn g c' :
  conn_store w !! c = Some conn ->
  table_of (set_conn_store (<[c := g conn]> (conn_store w)) w) c'
  = if decide (c' = c) then DeviceConnection.pending_requests (g conn) else table_of w c'.
Proof.
  intros Hc. unfold table_of. simpl.
  destruct (decide (c' = c)) as [->|Hne].
  - rewrite list_lookup_insert_eq by now apply lookup_lt_Some in Hc. reflexivity.
  - rewrite list_lookup_insert_ne by congruence. reflexivity.
Qed.

(** An assignment to an attribute other than [pending_requests]. *)
Lemma keeps_core_update_conn c g :
  (forall conn, DeviceConnection.pending_requests (g conn)
                = DeviceConnection.pending_requests conn) ->
  keeps_core (update_conn c g).
Proof.
  intros Hg w. unfold update_conn, modify. simpl.
  destruct (conn_store w !! c) as [conn|] eqn:Hc; [|apply same_core_refl].
  repeat split. intros c'. rewrite table_of_update by exact Hc.
  destruct (decide (c' = c)) as [->|Hne]; [|reflexivity].
  rewrite Hg. unfold table_of. now rewrite Hc.
Qed.

Lemma keeps_core_new_message ty action payload device_id correlation_id :
  keeps_core (new_message ty action payload device_id correlation_id).
Proof.
  unfold new_message.
  apply keeps_core_bind; [apply keeps_core_uuid4_8|]. intros mid.
  apply keeps_core_bind; [apply keeps_core_time_time|]. intros ts.
  apply keeps_core_ret.
Qed.

End CoreFacts.

(** Goals of the form [keeps_core m], by the structure of [m]. *)
Ltac core_step :=
  first
    [ apply keeps_core_ret
    | apply keeps_core_raise
    | apply keeps_core_lift
    | apply keeps_core_gets
    | apply keeps_core_time_time
    | apply keeps_core_uuid4_8
    | apply keeps_core_emit_event
    | apply keeps_core_registry_update_status
    | apply keeps_core_registry_register
    | apply keeps_core_ws_send_text
    | apply keeps_core_ws_close
    | apply keeps_core_new_message
    | apply keeps_core_update_conn; intros []; reflexivity
    | apply keeps_core_modify; intros ?; solve [repeat split]
    | apply keeps_core_bind; [|intros ?]
    | apply keeps_core_try_except; [|intros ?]
    | match goal with
      | |- keeps_core (match ?x with _ => _ end) => destruct x
      | |- keeps_core (if ?b then _ else _) => destruct b
      end ].

Ltac core_tac := repeat core_step.

Section CoreFacts2.
Context `{PyFloat}.

Lemma keeps_core_from_json data : keeps_core (from_json data).
Proof. unfold from_json. core_tac. Qed.

Lemma keeps_core_handle_event device_id message :
  keeps_core (_handle_event device_id message).
Proof. unfold _handle_event. core_tac. Qed.

Lemma keeps_core_send device_id message : keeps_core (send device_id message).
Proof.
  intros w. unfold send.
  destruct (lookup_conn device_id w) as [[c conn]|]; [|apply same_core_refl].
  destruct (DeviceConnection.websocket conn) as [ws|]; [|apply same_core_refl].
  revert w. change (keeps_core
    (try_except
       (ws_send_text ws
          (DeviceMessage.to_json (DeviceMessage.set_device_id (JStr device_id) message)) ;;;
        update_conn c DeviceConnection.incr_messages_sent ;;;
        now <- time_time ;;
        update_conn c (DeviceConnection.set_last_message now) ;;;
        ret true)
       (fun _ => update_conn c DeviceConnection.incr_errors ;;; ret false))).
  core_tac.
Qed.

End CoreFacts2.

(** ** Futures that nothing resolves *)

Section QuietFacts.
Context `{PyFloat}.
Variable f : nat.
Variable keys : string -> Prop.

Lemma quiet_respects_core : respects_core (quiet f keys).
Proof.
  intros w w' (Hf & Hc & Ht) [Hp Hk]. split; [congruence|].
  intros d c k Hd Hg. rewrite Hc in Hd. rewrite Ht in Hg. eauto.
Qed.

Lemma mapped_respects_core device_id c :
  respects_core (fun w => Dict.get device_id (connections w) = Some c).
Proof. intros w w' (Hf & Hc & Ht) Hd. congruence. Qed.

Lemma respects_core_and (I J : World -> Prop) :
  respects_core I -> respects_core J -> respects_core (fun w => I w /\ J w).
Proof. intros HI HJ w w' Hs [Hi Hj]. split; eauto. Qed.

Lemma quiet_allocated (w : World) : quiet f keys w -> f < length (future_store w).
Proof. intros [Hp _]. now apply lookup_lt_Some in Hp. Qed.

(** An assignment to [pending_requests] that adds no reference to [f]. *)
Lemma quiet_update_table (w : World) c conn g :
  conn_store w !! c = Some conn ->
  (forall k, Dict.get k (DeviceConnection.pending_requests (g conn)) = Some f ->
             Dict.get k (DeviceConnection.pending_requests conn) = Some f) ->
  quiet f keys w ->
  quiet f keys (set_conn_store (<[c := g conn]> (conn_store w)) w).
Proof.
  intros Hc Hg [Hp Hk]. split; [exact Hp|].
  intros d c' k Hd Ht. simpl in Hd. rewrite table_of_update in Ht by exact Hc.
  destruct (decide (c' = c)) as [->|Hne]; [|eauto].
  apply (Hk d c k Hd). unfold table_of. rewrite Hc. now apply Hg.
Qed.

Lemma hoare_quiet_pop_pending c message_id :
  hoare (quiet f keys) (pop_pending c message_id) (fun _ => True).
Proof.
  intros w Hq. split; [|trivial]. unfold pop_pending, update_conn, modify. simpl.
  destruct (conn_store w !! c) as [conn|] eqn:Hc; [|exact Hq].
  apply quiet_update_table; [exact Hc| |exact Hq].
  intros k. simpl. apply DictFacts.get_pop_Some.
Qed.

Lemma hoare_quiet_register c message_id future :
  future <> f ->
  hoare (quiet f keys)
    (update_conn c (fun conn =>
       DeviceConnection.set_pending_requests
         (Dict.set message_id future (DeviceConnection.pending_requests conn)) conn))
    (fun _ => True).
Proof.
  intros Hne w Hq. split; [|trivial]. unfold update_conn, modify. simpl.
  destruct (conn_store w !! c) as [conn|] eqn:Hc; [|exact Hq].
  apply quiet_update_table; [exact Hc| |exact Hq].
  intros k. simpl. intros Hg. apply DictFacts.get_set_Some in Hg.
  destruct Hg as [[_ Hg]|[_ Hg]]; [congruence|exact Hg].
Qed.

Lemma hoare_quiet_new_future :
  hoare (quiet f keys) new_future (fun future => future <> f).
Proof.
  intros w Hq. pose proof (quiet_allocated w Hq) as Hlt. destruct Hq as [Hp Hk].
  split.
  - split; [simpl; now rewrite lookup_app_l|]. exact Hk.
  - simpl. intros a [= <-]. lia.
Qed.

(** [future.set_result] or [future.cancel] on another future. *)
Lemma quiet_set_future (w : World) future state :
  future <> f ->
  quiet f keys w ->
  quiet f keys (set_future_store (<[future := state]> (future_store w)) w).
Proof.
  intros Hne [Hp Hk]. split; [|exact Hk].
  simpl. now rewrite list_lookup_insert_ne.
Qed.

Lemma hoare_quiet_resolve_future future value :
  future <> f ->
  hoare (quiet f keys) (resolve_future future value) (fun _ => True).
Proof.
  intros Hne w Hq. split; [|trivial]. unfold resolve_future, modify. simpl.
  destruct (future_store w !! future) as [[| |]|]; try exact Hq.
  now apply quiet_set_future.
Qed.

(** A new connection object with an empty table, registered under a
    device id. *)
Lemma quiet_connect (w : World) device_id conn :
  DeviceConnection.pending_requests conn = [] ->
  quiet f keys w ->
  quiet f keys
    (set_connections (Dict.set device_id (length (conn_store w)) (connections w))
       (set_conn_store (conn_store w ++ [conn])%list w)).
Proof.
  intros Hempty [Hp Hk]. split; [exact Hp|].
  intros d c k Hd Ht. simpl in Hd.
  assert (Hold : Dict.get k (table_of w c) = Some f).
  { unfold table_of in *. simpl in Ht.
    destruct (decide (c < length (conn_store w))) as [Hlt|Hge].
    - now rewrite lookup_app_l in Ht.
    - rewrite lookup_app_r in Ht by lia.
      destruct (c - length (conn_store w)) as [|n]; simpl in Ht.
      + now rewrite Hempty in Ht.
      + discriminate. }
  apply DictFacts.get_set_Some in Hd. destruct Hd as [[-> ->]|[Hne Hd]].
  - unfold table_of in Hold. rewrite lookup_ge_None_2 in Hold by lia. discriminate.
  - eauto.
Qed.

Lemma hoare_quiet_connect device_id websocket :
  hoare (quiet f keys) (connect device_id websocket) (fun _ => True).
Proof.
  unfold connect. apply hoare_try_except; [|intros e; now apply hoare_ret].
  eapply hoare_bind; [apply keeps_core_hoare; [apply quiet_respects_core|core_tac]|].
  intros t1 _.
  eapply hoare_bind; [apply keeps_core_hoare; [apply quiet_respects_core|core_tac]|].
  intros t2 _.
  eapply hoare_bind; [apply keeps_core_hoare; [apply quiet_respects_core|core_tac]|].
  intros t3 _.
  eapply hoare_bind.
  { apply hoare_modify. intros w Hq. now apply quiet_connect. }
  intros _ _. apply keeps_core_hoare; [apply quiet_respects_core|core_tac].
Qed.

Lemma quiet_pop_connection (w : World) device_id :
  quiet f keys w ->
  quiet f keys (set_connections (Dict.pop device_id (connections w)) w).
Proof.
  intros [Hp Hk]. split; [exact Hp|].
  intros d c k Hd Ht. simpl in Hd. apply DictFacts.get_pop_Some in Hd. eauto.
Qed.

Lemma hoare_quiet_disconnect device_id :
  hoare (quiet f keys) (disconnect device_id) (fun _ => True).
Proof.
  intros w Hq. unfold disconnect.
  destruct (Dict.get device_id (connections w)) as [c|]; [|now split].
  destruct (conn_store w !! c) as [conn|]; [destruct (DeviceConnection.websocket conn)|];
    lazymatch goal with
    | |- _ (snd (?m w)) /\ _ =>
        enough (hoare (quiet f keys) m (fun _ => True)) as Hh by exact (Hh w Hq)
    end;
    (eapply hoare_bind;
     [apply hoare_modify; intros w' Hq'; now apply quiet_pop_connection|];
     intros _ _; apply keeps_core_hoare; [apply quiet_respects_core|core_tac]).
Qed.

Lemma hoare_quiet_send device_id message :
  hoare (quiet f keys) (send device_id message) (fun _ => True).
Proof. apply keeps_core_hoare; [apply quiet_respects_core|apply keeps_core_send]. Qed.

Lemma keeps_core_result_hoare {A} (I : World -> Prop) (m : M A) (R : A -> Prop) :
  respects_core I -> keeps_core m ->
  (forall w a, fst (m w) = Return a -> R a) ->
  hoare I m R.
Proof. intros HI Hm HR w Hw. split; [exact (HI w _ (Hm w) Hw)|apply HR]. Qed.

Lemma from_json_correlation data (w : World) m :
  fst (from_json data w) = Return m ->
  correlation_id_of data = Some (DeviceMessage.correlation_id m).
Proof.
  unfold from_json, correlation_id_of, bind, lift, ret, time_time.
  destruct (loads data) as [obj|e]; simpl; [|discriminate].
  destruct (py_get obj "type" _) as [v1|]; simpl; [|discriminate].
  destruct (MessageType_call v1) as [ty|]; simpl; [|discriminate].
  destruct (py_get obj "action" _) as [v2|]; simpl; [|discriminate].
  destruct (py_get obj "payload" _) as [v3|]; simpl; [|discriminate].
  destruct (py_get obj "message_id" _) as [v4|]; simpl; [|discriminate].
  destruct (py_get obj "timestamp" _) as [v5|]; simpl; [|discriminate].
  destruct (py_get obj "device_id" _) as [v6|]; simpl; [|discriminate].
  destruct (py_get obj "correlation_id" _) as [v7|]; simpl; [|discriminate].
  now intros [= <-].
Qed.

(** The branch of [handle_message] for a response: it resolves the
    future that the table of the connection holds under the
    correlation id of the message, and no other. *)
Lemma hoare_quiet_response device_id c (message : DeviceMessage.t) :
  (forall corr, DeviceMessage.correlation_id message = JStr corr -> ~ keys corr) ->
  hoare (fun w => quiet f keys w /\ Dict.get device_id (connections w) = Some c)
    (pending <- gets (fun w =>
                  match conn_store w !! c with
                  | Some conn => DeviceConnection.pending_requests conn
                  | None => []
                  end) ;;
     known <- lift (py_in_dict (DeviceMessage.correlation_id message) pending) ;;
     (if known then
        match DeviceMessage.correlation_id message with
        | JStr corr =>
            match Dict.get corr pending with
            | Some future => resolve_future future (DeviceMessage.payload message)
            | None => ret tt
            end
        | _ => ret tt
        end
      else ret tt) ;;;
     ret None)
    (fun _ : option DeviceMessage.t => True).
Proof.
  intros Hkeys w [Hq Hmap]. split; [|trivial].
  unfold bind, gets, lift, ret. simpl.
  fold (table_of w c).
  destruct (py_in_dict (DeviceMessage.correlation_id message) (table_of w c))
    as [[|]|e]; simpl; try (split; assumption).
  destruct (DeviceMessage.correlation_id message) as [ | | | |corr| | ] eqn:Ecorr;
    simpl; try (split; assumption).
  destruct (Dict.get corr (table_of w c)) as [future|] eqn:Eget;
    simpl; try (split; assumption).
  assert (Hne : future <> f).
  { intros ->. apply (Hkeys corr eq_refl). destruct Hq as [_ Hk]. eauto. }
  destruct (hoare_quiet_resolve_future future (DeviceMessage.payload message) Hne w Hq)
    as [Hq' _].
  unfold resolve_future, modify in *. simpl in *. split; [assumption|].
  destruct (future_store w !! future) as [[| |]|]; assumption.
Qed.

Lemma hoare_quiet_handle_message device_id message_data :
  (forall corr, correlation_id_of message_data = Some (JStr corr) -> ~ keys corr) ->
  hoare (quiet f keys) (handle_message device_id message_data) (fun _ => True).
Proof.
  intros Hkeys w Hq. unfold handle_message.
  destruct (lookup_conn device_id w) as [[c conn]|] eqn:Elook; [|now split].
  assert (Hmap : Dict.get device_id (connections w) = Some c).
  { unfold lookup_conn in Elook.
    destruct (Dict.get device_id (connections w)) as [c'|]; [|discriminate].
    destruct (conn_store w !! c'); congruence. }
  set (I := fun w => quiet f keys w /\ Dict.get device_id (connections w) = Some c).
  assert (HI : respects_core I).
  { apply respects_core_and; [apply quiet_respects_core|apply mapped_respects_core]. }
  enough (Hh : hoare I
                 (try_except (handle_message_body device_id c message_data)
                             (fun _ => ret None)) (fun _ => True)).
  { destruct (Hh w (conj Hq Hmap)) as [[Hq' _] _]. now split. }
  apply hoare_try_except; [|intros e; now apply hoare_ret].
  unfold handle_message_body.
  eapply hoare_bind; [apply keeps_core_hoare; [exact HI|core_tac]|]. intros raw _.
  eapply hoare_bind; [apply keeps_core_hoare; [exact HI|core_tac]|]. intros ty _.
  destruct (py_eq_str ty "handshake").
  { apply keeps_core_hoare; [exact HI|core_tac]. }
  destruct (py_eq_str ty "heartbeat").
  { apply keeps_core_hoare; [exact HI|core_tac]. }
  eapply hoare_bind; [apply keeps_core_hoare; [exact HI|core_tac]|]. intros members _.
  apply hoare_bind with
    (R1 := fun m => DeviceMessage.type m = MessageType.RESPONSE ->
                    correlation_id_of message_data
                    = Some (DeviceMessage.correlation_id m)).
  { destruct (Dict.mem "type" members && Dict.mem "payload" members).
    - apply keeps_core_result_hoare; [exact HI|core_tac|].
      intros w0 m. unfold bind, lift, new_message, uuid4_8, time_time, ret.
      destruct ty; simpl; try discriminate.
      destruct (py_get raw "payload" (JObj [])); simpl; [|discriminate].
      intros [= <-]. simpl.
      destruct ((s =? "TEXT") || (s =? "COMMAND"))%string;
        intros Hx; discriminate Hx.
    - apply keeps_core_result_hoare; [exact HI|apply keeps_core_from_json|].
      intros w0 m Hm _. now apply from_json_correlation in Hm. }
  intros message Hmessage.
  eapply hoare_bind; [apply keeps_core_hoare; [exact HI|core_tac]|]. intros _ _.
  eapply hoare_bind; [apply keeps_core_hoare; [exact HI|core_tac]|]. intros now _.
  eapply hoare_bind; [apply keeps_core_hoare; [exact HI|core_tac]|]. intros _ _.
  destruct (DeviceMessage.type message) eqn:Etype;
    try solve [apply keeps_core_hoare; [exact HI|unfold _handle_status, _handle_event; core_tac]].
  apply hoare_quiet_response. intros corr Ecorr. apply Hkeys.
  rewrite (Hmessage eq_refl). now rewrite Ecorr.
Qed.

Lemma hoare_quiet_send_command_begin device_id action params timeout :
  hoare (quiet f keys) (send_command_begin device_id action params timeout)
        (fun _ => True).
Proof.
  intros w Hq. unfold send_command_begin.
  destruct (lookup_conn device_id w) as [[c conn]|]; [|now split].
  destruct (DeviceConnection.websocket conn) as [ws|]; [|now split].
  lazymatch goal with
  | |- _ (snd (?m w)) /\ _ =>
      enough (hoare (quiet f keys) m (fun _ => True)) as Hh by exact (Hh w Hq)
  end.
  eapply hoare_bind; [apply keeps_core_hoare; [apply quiet_respects_core|core_tac]|].
  intros mid _.
  eapply hoare_bind; [apply keeps_core_hoare; [apply quiet_respects_core|core_tac]|].
  intros ts _.
  eapply hoare_bind; [apply hoare_quiet_new_future|]. intros future Hne.
  eapply hoare_bind; [now apply hoare_quiet_register|]. intros _ _.
  eapply hoare_bind; [apply hoare_quiet_send|]. intros [|] _.
  - now apply hoare_ret.
  - eapply hoare_bind; [apply hoare_quiet_pop_pending|]. intros _ _. now apply hoare_ret.
Qed.

Lemma quiet_resume call timed_out (w : World) :
  call_future call <> f ->
  quiet f keys w ->
  quiet f keys (step (AResume call timed_out) w).
Proof.
  intros Hne Hq. unfold step, send_command_resume.
  destruct (future_store w !! call_future call) as [[|response|]|]; try exact Hq.
  - destruct timed_out; [|exact Hq].
    lazymatch goal with
    | |- context [match ?m w with (_, _) => _ end] =>
        assert (Hh : hoare (quiet f keys) m (fun _ => True));
        [|destruct (Hh w Hq) as [Hq' _]; destruct (m w); exact Hq']
    end.
    eapply hoare_bind; [|intros _ _; apply hoare_quiet_pop_pending].
    apply hoare_modify. intros w' Hq'. now apply quiet_set_future.
  - lazymatch goal with
    | |- context [match ?m w with (_, _) => _ end] =>
        assert (Hh : hoare (quiet f keys) m (fun _ => True));
        [|destruct (Hh w Hq) as [Hq' _]; destruct (m w); exact Hq']
    end.
    eapply hoare_bind; [|intros _ _; apply hoare_quiet_pop_pending].
    apply keeps_core_hoare; [apply quiet_respects_core|core_tac].
Qed.

Lemma hoare_quiet_heartbeat_sweep :
  hoare (quiet f keys) heartbeat_sweep (fun _ => True).
Proof.
  unfold heartbeat_sweep. apply hoare_try_except; [|intros e; now apply hoare_ret].
  eapply hoare_bind; [apply keeps_core_hoare; [apply quiet_respects_core|core_tac]|].
  intros _ _.
  eapply hoare_bind; [apply hoare_gets|]. intros snapshot _.
  apply hoare_for_each. intros [device_id c].
  eapply hoare_bind; [apply hoare_gets|]. intros [conn|] _; [|now apply hoare_ret].
  eapply hoare_bind; [apply hoare_gets|]. intros timeout _.
  eapply hoare_bind; [apply keeps_core_hoare; [apply quiet_respects_core|core_tac]|].
  intros now _.
  destruct (negb (DeviceConnection.is_alive now timeout conn)).
  - eapply hoare_bind; [apply hoare_quiet_disconnect|]. intros _ _. now apply hoare_ret.
  - eapply hoare_bind; [apply keeps_core_hoare; [apply quiet_respects_core|core_tac]|].
    intros probe _.
    eapply hoare_bind; [apply hoare_quiet_send|]. intros _ _. now apply hoare_ret.
Qed.

(** Every action that leaves [f] alone keeps it pending and out of
    reach. *)
Lemma step_quiet a (w : World) :
  leaves_alone f keys a -> quiet f keys w -> quiet f keys (step a w).
Proof.
  intros Ha Hq. destruct a as [d ws|d|d data|d action params timeout|call timed_out|].
  - apply (hoare_quiet_connect d ws w Hq).
  - apply (hoare_quiet_disconnect d w Hq).
  - apply (hoare_quiet_handle_message d data Ha w Hq).
  - apply (hoare_quiet_send_command_begin d action params timeout w Hq).
  - now apply quiet_resume.
  - apply (hoare_quiet_heartbeat_sweep w Hq).
Qed.

Lemma run_quiet trace (w : World) :
  Forall (leaves_alone f keys) trace -> quiet f keys w -> quiet f keys (run trace w).
Proof.
  intros Htrace. revert w. induction Htrace as [|a trace Ha Htrace IH]; intros w Hq.
  - exact Hq.
  - simpl. apply IH. now apply step_quiet.
Qed.

End QuietFacts.

(** ** Calls and their correlation entries *)

Section CallFacts.
Context `{PyFloat}.


Lemma returns_update_conn c g : returns (update_conn c g).
Proof. apply returns_modify. Qed.

Lemma returns_send device_id message : returns (send device_id message).
Proof.
  intros w. unfold send.
  destruct (lookup_conn device_id w) as [[c conn]|]; [|now exists false].
  destruct (DeviceConnection.websocket conn) as [ws|]; [|now exists false].
  lazymatch goal with
  | |- exists a, fst (?m w) = _ => enough (Hr : returns m) by apply Hr
  end.
  apply returns_try_except. intros e.
  apply returns_bind; [apply returns_update_conn|]. intros _. apply returns_ret.
Qed.

(** The table of [c] right after the [finally] clause of [send_command]. *)
Lemma pop_pending_absent c message_id (w : World) :
  Dict.get message_id (table_of (snd (pop_pending c message_id w)) c) = None.
Proof.
  unfold pop_pending, update_conn, modify. simpl.
  destruct (conn_store w !! c) as [conn|] eqn:Hc.
  - rewrite table_of_update by exact Hc. rewrite decide_True by reflexivity.
    simpl. apply DictFacts.get_pop_eq.
  - unfold table_of. now rewrite Hc.
Qed.



Lemma send_command_resume_timeout call (w : World) :
  future_store w !! call_future call = Some Pending ->
  exists w2,
    send_command_resume call true w = Some (failure "命令超时", w2)
    /\ Dict.get (call_message_id call) (table_of w2 (call_conn call)) = None.
Proof.
  intros Hp. unfold send_command_resume. rewrite Hp.
  eexists. split; [reflexivity|].
  apply (pop_pending_absent (call_conn call) (call_message_id call)
           (set_future_store (<[call_future call := Cancelled]> (future_store w)) w)).
Qed.



(** *** Disconnecting *)

Lemma disconnect_stores device_id (w : World) :
  future_store (snd (disconnect device_id w)) = future_store w
  /\ conn_store (snd (disconnect device_id w)) = conn_store w.
Proof.
  unfold disconnect.
  destruct (Dict.get device_id (connections w)) as [c|]; [|now split].
  unfold bind, modify, try_except, ret, _emit_event, registry_update_status. simpl.
  destruct (conn_store w !! c) as [conn|]; simpl.
  - destruct (DeviceConnection.websocket conn) as [ws|]; simpl.
    + unfold ws_close. simpl. destruct (socket_store w !! ws) as [s|]; simpl.
      * destruct (ws_closed s); simpl;
          destruct (Dict.get device_id (registry_devices w)); now split.
      * destruct (Dict.get device_id (registry_devices w)); now split.
    + destruct (Dict.get device_id (registry_devices w)); now split.
  - destruct (Dict.get device_id (registry_devices w)); now split.
Qed.

Lemma disconnect_connections device_id (w : World) :
  connections (snd (disconnect device_id w)) = Dict.pop device_id (connections w)
  \/ (Dict.get device_id (connections w) = None
      /\ snd (disconnect device_id w) = w).
Proof.
  unfold disconnect.
  destruct (Dict.get device_id (connections w)) as [c|]; [left|now right].
  unfold bind, modify, try_except, ret, _emit_event, registry_update_status. simpl.
  destruct (conn_store w !! c) as [conn|]; simpl.
  - destruct (DeviceConnection.websocket conn) as [ws|]; simpl.
    + unfold ws_close. simpl. destruct (socket_store w !! ws) as [s|]; simpl.
      * destruct (ws_closed s); simpl;
          destruct (Dict.get device_id (registry_devices w)); reflexivity.
      * destruct (Dict.get device_id (registry_devices w)); reflexivity.
    + destruct (Dict.get device_id (registry_devices w)); reflexivity.
  - destruct (Dict.get device_id (registry_devices w)); reflexivity.
Qed.

Lemma disconnect_removes device_id (w : World) :
  Dict.get device_id (connections (snd (disconnect device_id w))) = None.
Proof.
  destruct (disconnect_connections device_id w) as [->|[Hnone ->]]; [|exact Hnone].
  apply DictFacts.get_pop_eq.
Qed.

(** C2 (amended): [disconnect] removes the session from the connection
    map and resolves none of its pending calls: every future and every
    correlation table is as before.  A call that was waiting stays
    suspended until its own timeout, and then returns the timeout
    error. *)
Theorem disconnect_leaves_calls_pending (w : World) device_id :
  future_store (snd (disconnect device_id w)) = future_store w
  /\ conn_store (snd (disconnect device_id w)) = conn_store w
  /\ Dict.get device_id (connections (snd (disconnect device_id w))) = None
  /\ forall call,
       future_store w !! call_future call = Some Pending ->
       send_command_resume call false (snd (disconnect device_id w)) = None
       /\ exists w2,
            send_command_resume call true (snd (disconnect device_id w))
            = Some (failure "命令超时", w2).
Proof.
  destruct (disconnect_stores device_id w) as [Hf Hc].
  split; [exact Hf|]. split; [exact Hc|]. split; [apply disconnect_removes|].
  intros call Hp. rewrite <- Hf in Hp. split.
  - unfold send_command_resume. now rewrite Hp.
  - destruct (send_command_resume_timeout call _ Hp) as (w2 & Hres & _). eauto.
Qed.

End CallFacts.

(** The call of [waiting_world] is [click_call]. *)
Lemma click_call_awaits :
  fst (send_command_begin "d1" "click" None None connected_world)
  = Return (Awaiting click_call).
Proof. vm_compute. reflexivity. Qed.

(** C2 fails as stated: [click_call] is pending on the session [d1], and
    after [disconnect] its future is still pending, with no result and
    no error. *)
Lemma disconnect_resolves_nothing :
  fst (send_command_begin "d1" "click" None None connected_world)
  = Return (Awaiting click_call)
  /\ fst (disconnect "d1" waiting_world) = Return true
  /\ future_store (snd (disconnect "d1" waiting_world)) !! call_future click_call
     = Some Pending.
Proof. repeat split; vm_compute; reflexivity. Qed.


(** ** Connecting a device that is already connected *)

Section ReconnectFacts.
Context `{PyFloat}.

(** The connection object that [connect] creates. *)
Lemma connect_spec device_id websocket (w : World) :
  exists conn_new,
    fst (connect device_id websocket w) = Return true
    /\ connections (snd (connect device_id websocket w))
       = Dict.set device_id (length (conn_store w)) (connections w)
    /\ conn_store (snd (connect device_id websocket w)) = (conn_store w ++ [conn_new])%list
    /\ socket_store (snd (connect device_id websocket w)) = socket_store w
    /\ future_store (snd (connect device_id websocket w)) = future_store w
    /\ DeviceConnection.websocket conn_new = Some websocket
    /\ DeviceConnection.messages_sent conn_new = 0
    /\ DeviceConnection.messages_received conn_new = 0
    /\ DeviceConnection.commands_executed conn_new = 0
    /\ DeviceConnection.errors conn_new = 0
    /\ DeviceConnection.pending_requests conn_new = [].
Proof.
  unfold connect, try_except, bind, time_time, modify, registry_update_status,
    _emit_event, ret. simpl.
  destruct (Dict.get device_id (registry_devices w)); simpl;
    eexists; repeat split; reflexivity.
Qed.

(** C10: [connect] on a device id that is already registered puts a new
    connection object, with counters at zero and an empty correlation
    table, in the place of the old one in the connection map.  The old
    object and its WebSocket are left as they are: the socket is not
    closed and the table keeps its entries.  No inbound message, for any
    device and with any correlation id, resolves a call that was pending
    on the old connection, whatever else the manager does; such a call
    ends only by its own timeout, with the timeout error. *)
Theorem reconnect_orphans_pending_calls (w : World) device_id websocket c_old conn_old :
  Dict.get device_id (connections w) = Some c_old ->
  conn_store w !! c_old = Some conn_old ->
  let w1 := snd (connect device_id websocket w) in
  let c_new := length (conn_store w) in
  fst (connect device_id websocket w) = Return true
  /\ Dict.get device_id (connections w1) = Some c_new
  /\ c_new <> c_old
  /\ (exists conn_new,
        conn_store w1 !! c_new = Some conn_new
        /\ DeviceConnection.websocket conn_new = Some websocket
        /\ DeviceConnection.messages_sent conn_new = 0
        /\ DeviceConnection.messages_received conn_new = 0
        /\ DeviceConnection.commands_executed conn_new = 0
        /\ DeviceConnection.errors conn_new = 0
        /\ DeviceConnection.pending_requests conn_new = [])
  /\ conn_store w1 !! c_old = Some conn_old
  /\ socket_store w1 = socket_store w
  /\ future_store w1 = future_store w
  /\ forall call,
       call_conn call = c_old ->
       Dict.get (call_message_id call) (DeviceConnection.pending_requests conn_old)
       = Some (call_future call) ->
       future_store w !! call_future call = Some Pending ->
       (forall d' c' k,
           d' <> device_id ->
           Dict.get d' (connections w) = Some c' ->
           Dict.get k (table_of w c') <> Some (call_future call)) ->
       forall trace,
         Forall (leaves_alone (call_future call) (fun _ => False)) trace ->
         future_store (run trace w1) !! call_future call = Some Pending
         /\ send_command_resume call false (run trace w1) = None
         /\ exists w2,
              send_command_resume call true (run trace w1)
              = Some (failure "命令超时", w2).
Proof.
  intros Hget Hold w1 c_new.
  destruct (connect_spec device_id websocket w)
    as (conn_new & Hret & Hconns & Hstore & Hsock & Hfut & Hws & Hs & Hr & Hc & He & Hp).
  fold w1 in Hconns, Hstore, Hsock, Hfut.
  assert (Hlt : c_old < length (conn_store w)) by now apply lookup_lt_Some in Hold.
  split; [exact Hret|].
  split; [rewrite Hconns; apply DictFacts.get_set_eq|].
  split; [unfold c_new; lia|].
  split.
  { exists conn_new. rewrite Hstore. unfold c_new.
    rewrite lookup_app_r by lia. rewrite Nat.sub_diag. repeat split; assumption. }
  split; [rewrite Hstore; now rewrite lookup_app_l|].
  split; [exact Hsock|]. split; [exact Hfut|].
  intros call Hcc Hentry Hpending Hothers trace Htrace.
  assert (Hq : quiet (call_future call) (fun _ => False) w1).
  { split; [now rewrite Hfut|].
    intros d c k Hd Ht. rewrite Hconns in Hd.
    assert (Htab : table_of w1 c = table_of w c \/ table_of w1 c = []).
    { unfold table_of. rewrite Hstore.
      destruct (decide (c < length (conn_store w))) as [Hc'|Hc'].
      - left. now rewrite lookup_app_l.
      - right. rewrite lookup_app_r by lia.
        destruct (c - length (conn_store w)) as [|n]; simpl; [exact Hp|reflexivity]. }
    apply DictFacts.get_set_Some in Hd. destruct Hd as [[-> ->]|[Hne Hd]].
    - unfold table_of in Ht. rewrite Hstore in Ht.
      rewrite lookup_app_r in Ht by lia. rewrite Nat.sub_diag in Ht. simpl in Ht.
      rewrite Hp in Ht. discriminate.
    - destruct Htab as [Htab|Htab]; rewrite Htab in Ht; [|discriminate].
      exact (Hothers d c k Hne Hd Ht). }
  apply (run_quiet _ _ trace _ Htrace) in Hq. destruct Hq as [Hpend _].
  split; [exact Hpend|]. split.
  - unfold send_command_resume. now rewrite Hpend.
  - destruct (send_command_resume_timeout call _ Hpend) as (w2 & Hres & _). eauto.
Qed.

End ReconnectFacts.

(** C10 at a concrete session: [d1] reconnects on a second socket while
    [click_call] waits, and a response that bears the id of the call
    arrives afterwards; the call is still pending. *)
Lemma reconnect_orphans_witness :
  Dict.get "d1" (connections second_socket_world) = Some 0
  /\ future_store
       (run [AInbound "d1" late_response_text]
            (snd (connect "d1" 1 second_socket_world))) !! 0
     = Some Pending.
Proof.
  split; [vm_compute; reflexivity|].
  assert (Hothers : forall d' c' k,
             d' <> "d1" ->
             Dict.get d' (connections second_socket_world) = Some c' ->
             Dict.get k (table_of second_socket_world c') <> Some (call_future click_call)).
  { intros d' c' k Hne Hd.
    assert (Hconns : connections second_socket_world = [("d1", 0)])
      by (vm_compute; reflexivity).
    rewrite Hconns in Hd. simpl in Hd.
    destruct (decide (d' = "d1")); [contradiction|discriminate Hd]. }
  assert (Htrace : Forall (leaves_alone (call_future click_call) (fun _ => False))
                          [@AInbound whole_floats "d1" late_response_text]).
  { constructor; [|constructor]. intros corr _ []. }
  assert (Hget : Dict.get "d1" (connections second_socket_world) = Some 0)
    by (vm_compute; reflexivity).
  assert (Hold : exists conn_old,
             conn_store second_socket_world !! 0 = Some conn_old
             /\ Dict.get (call_message_id click_call)
                  (DeviceConnection.pending_requests conn_old)
                = Some (call_future click_call))
    by (vm_compute; eexists; split; reflexivity).
  destruct Hold as (conn_old & Hold & Hentry).
  assert (Hpending : future_store second_socket_world !! call_future click_call
                     = Some Pending) by (vm_compute; reflexivity).
  pose proof (@reconnect_orphans_pending_calls whole_floats second_socket_world
                "d1" 1 0 conn_old Hget Hold) as Hthm.
  cbv zeta in Hthm.
  destruct Hthm as (_ & _ & _ & _ & _ & _ & _ & Hcalls).
  exact (proj1 (Hcalls click_call eq_refl Hentry Hpending Hothers _ Htrace)).
Defined.

(** ** The heartbeat loop *)

Section SweepFacts.
Context `{PyFloat}.

Lemma evolves_refl touched (w : World) : evolves touched w w.
Proof.
  unfold evolves. repeat apply conj; auto.
  - intros c conn Hc. exists conn. auto.
  - intros ws s Hs. exists s. auto.
Qed.

Lemma evolves_trans touched (w1 w2 w3 : World) :
  evolves touched w1 w2 -> evolves touched w2 w3 -> evolves touched w1 w3.
Proof.
  intros (A1 & A2 & A3 & A4 & A5 & A6 & A7 & A8 & A9 & A10 & A11)
         (B1 & B2 & B3 & B4 & B5 & B6 & B7 & B8 & B9 & B10 & B11).
  unfold evolves. repeat apply conj.
  - congruence.
  - congruence.
  - lia.
  - intros d Hd. apply B4, A4, Hd.
  - intros d Hd. rewrite B5, A5 by exact Hd. reflexivity.
  - intros c conn Hc. destruct (A6 _ _ Hc) as (conn1 & Hc1 & Hh1 & Hw1 & Hs1).
    destruct (B6 _ _ Hc1) as (conn2 & Hc2 & Hh2 & Hw2 & Hs2).
    exists conn2. repeat split; congruence.
  - intros ws s Hs. destruct (A7 _ _ Hs) as (s1 & Hs1 & Hcl1).
    destruct (B7 _ _ Hs1) as (s2 & Hs2 & Hcl2).
    exists s2. split; [exact Hs2|]. intros Hcl. apply Hcl2, Hcl1, Hcl.
  - intros d Hd. rewrite B8, A8 by exact Hd. reflexivity.
  - intros d Hd. apply B9, A9, Hd.
  - intros e He. apply B10, A10, He.
  - intros e He. apply B11, A11, He.
Qed.

Lemma evolves_mono (touched touched' : string -> Prop) (w w' : World) :
  (forall d, touched d -> touched' d) ->
  evolves touched w w' -> evolves touched' w w'.
Proof.
  intros Hsub (A1 & A2 & A3 & A4 & A5 & A6 & A7 & A8 & A9 & A10 & A11).
  unfold evolves. repeat apply conj; auto.
Qed.

(** Goals [evolves touched w w'] where [w'] is [w] with some fields
    replaced. *)
Ltac evolves_fields :=
  unfold evolves; repeat apply conj; simpl;
  try solve [ reflexivity | lia
            | intros; first [assumption | reflexivity]
            | intros ? ? Hx; eexists; repeat split; first [exact Hx | trivial]
            | intros; apply in_or_app; left; assumption ].

Section Touched.
Variable touched : string -> Prop.

Lemma evolves_time_time : follows (evolves touched) time_time.
Proof. intros w. unfold time_time. evolves_fields. Qed.

Lemma evolves_uuid4_8 : follows (evolves touched) uuid4_8.
Proof. intros w. unfold uuid4_8. evolves_fields. Qed.

Lemma evolves_emit_event event_type device_id :
  follows (evolves touched) (_emit_event event_type device_id).
Proof. intros w. unfold _emit_event, modify. evolves_fields. Qed.

Lemma evolves_sockets (w : World) ws s s' :
  socket_store w !! ws = Some s ->
  (ws_closed s = true -> ws_closed s' = true) ->
  evolves touched w (set_socket_store (<[ws := s']> (socket_store w)) w).
Proof.
  intros Hs Hcl. evolves_fields.
  intros ws0 s0 Hs0. destruct (decide (ws0 = ws)) as [->|Hne].
  - rewrite list_lookup_insert_eq by now apply lookup_lt_Some in Hs.
    exists s'. split; [reflexivity|]. intros Hc. apply Hcl. congruence.
  - rewrite list_lookup_insert_ne by congruence. eauto.
Qed.

Lemma evolves_ws_send_text ws text : follows (evolves touched) (ws_send_text ws text).
Proof.
  intros w. unfold ws_send_text.
  destruct (socket_store w !! ws) as [s|] eqn:Hs; [|apply evolves_refl].
  destruct (ws_closed s || ws_broken s); [apply evolves_refl|].
  simpl. apply evolves_sockets with (s := s); auto.
Qed.

Lemma evolves_ws_close ws : follows (evolves touched) (ws_close ws).
Proof.
  intros w. unfold ws_close.
  destruct (socket_store w !! ws) as [s|] eqn:Hs; [|apply evolves_refl].
  destruct (ws_closed s); [apply evolves_refl|].
  simpl. apply evolves_sockets with (s := s); auto.
Qed.

(** An assignment to an attribute other than the heartbeat time, the
    socket and the status. *)
Lemma evolves_update_conn c g :
  (forall conn,
     DeviceConnection.last_heartbeat (g conn) = DeviceConnection.last_heartbeat conn
     /\ DeviceConnection.websocket (g conn) = DeviceConnection.websocket conn
     /\ DeviceConnection.status (g conn) = DeviceConnection.status conn) ->
  follows (evolves touched) (update_conn c g).
Proof.
  intros Hg w. unfold update_conn, modify. simpl.
  destruct (conn_store w !! c) as [conn|] eqn:Hc; [|apply evolves_refl].
  evolves_fields.
  intros c0 conn0 Hc0. destruct (decide (c0 = c)) as [->|Hne].
  - rewrite list_lookup_insert_eq by now apply lookup_lt_Some in Hc.
    exists (g conn). split; [reflexivity|].
    assert (conn0 = conn) as -> by congruence. apply Hg.
  - rewrite list_lookup_insert_ne by congruence. eauto 10.
Qed.

Lemma evolves_new_message ty action payload device_id correlation_id :
  follows (evolves touched) (new_message ty action payload device_id correlation_id).
Proof.
  unfold new_message.
  apply follows_bind; [apply evolves_trans|apply evolves_uuid4_8|]. intros mid.
  apply follows_bind; [apply evolves_trans|apply evolves_time_time|]. intros ts.
  apply follows_ret, evolves_refl.
Qed.

Lemma evolves_send device_id message : follows (evolves touched) (send device_id message).
Proof.
  intros w. unfold send.
  destruct (lookup_conn device_id w) as [[c conn]|]; [|apply evolves_refl].
  destruct (DeviceConnection.websocket conn) as [ws|]; [|apply evolves_refl].
  lazymatch goal with
  | |- evolves _ w (snd (?m w)) => enough (Hm : follows (evolves touched) m) by apply Hm
  end.
  apply follows_try_except; [apply evolves_trans| |intros e].
  - apply follows_bind; [apply evolves_trans|apply evolves_ws_send_text|]. intros _.
    apply follows_bind; [apply evolves_trans| |intros _].
    { apply evolves_update_conn. intros []. repeat split. }
    apply follows_bind; [apply evolves_trans|apply evolves_time_time|]. intros now.
    apply follows_bind; [apply evolves_trans| |intros _].
    { apply evolves_update_conn. intros []. repeat split. }
    apply follows_ret, evolves_refl.
  - apply follows_bind; [apply evolves_trans| |intros _].
    { apply evolves_update_conn. intros []. repeat split. }
    apply follows_ret, evolves_refl.
Qed.

Lemma evolves_pop_connection device_id :
  touched device_id ->
  follows (evolves touched)
    (modify (fun w : World => set_connections (Dict.pop device_id (connections w)) w)).
Proof.
  intros Ht w. unfold modify. evolves_fields.
  - intros d Hd. now apply DictFacts.get_pop_None.
  - intros d Hd. apply DictFacts.get_pop_ne. intros ->. tauto.
Qed.

Lemma evolves_registry_offline device_id :
  touched device_id ->
  follows (evolves touched) (registry_update_status device_id DeviceStatus.OFFLINE).
Proof.
  intros Ht w. unfold registry_update_status.
  destruct (Dict.get device_id (registry_devices w)) as [old|]; [|apply evolves_refl].
  evolves_fields.
  - intros d Hd. apply DictFacts.get_set_ne. intros ->. tauto.
  - intros d Hd. destruct (decide (device_id = d)) as [->|Hne].
    + apply DictFacts.get_set_eq.
    + now rewrite DictFacts.get_set_ne.
  - intros e He. destruct (decide (old = DeviceStatus.OFFLINE)); [exact He|].
    apply in_or_app. now left.
Qed.

Lemma evolves_disconnect device_id :
  touched device_id -> follows (evolves touched) (disconnect device_id).
Proof.
  intros Ht w. unfold disconnect.
  destruct (Dict.get device_id (connections w)) as [c|]; [|apply evolves_refl].
  lazymatch goal with
  | |- evolves _ w (snd (?m w)) => enough (Hm : follows (evolves touched) m) by apply Hm
  end.
  apply follows_bind; [apply evolves_trans|now apply evolves_pop_connection|]. intros _.
  apply follows_bind; [apply evolves_trans| |intros _].
  { destruct (conn_store w !! c) as [conn|]; [|apply follows_ret, evolves_refl].
    destruct (DeviceConnection.websocket conn) as [ws|]; [|apply follows_ret, evolves_refl].
    apply follows_try_except; [apply evolves_trans|apply evolves_ws_close|].
    intros e. apply follows_ret, evolves_refl. }
  apply follows_bind; [apply evolves_trans| |intros _].
  { apply follows_try_except; [apply evolves_trans| |intros e; apply follows_ret, evolves_refl].
    apply follows_bind; [apply evolves_trans|now apply evolves_registry_offline|].
    intros _. apply follows_ret, evolves_refl. }
  apply follows_bind; [apply evolves_trans|apply evolves_emit_event|]. intros _.
  apply follows_ret, evolves_refl.
Qed.

Lemma evolves_sweep_body entry :
  touched (fst entry) -> follows (evolves touched) (sweep_body entry).
Proof.
  intros Ht. unfold sweep_body.
  apply follows_bind; [apply evolves_trans|apply follows_gets, evolves_refl|].
  intros [conn|]; [|apply follows_ret, evolves_refl].
  apply follows_bind; [apply evolves_trans|apply follows_gets, evolves_refl|].
  intros timeout.
  apply follows_bind; [apply evolves_trans|apply evolves_time_time|]. intros now.
  destruct (negb (DeviceConnection.is_alive now timeout conn)).
  - apply follows_bind; [apply evolves_trans|now apply evolves_disconnect|].
    intros _. apply follows_ret, evolves_refl.
  - apply follows_bind; [apply evolves_trans|apply evolves_new_message|]. intros probe.
    apply follows_bind; [apply evolves_trans|apply evolves_send|].
    intros _. apply follows_ret, evolves_refl.
Qed.

End Touched.

Lemma returns_disconnect device_id : returns (disconnect device_id).
Proof.
  intros w. unfold disconnect.
  destruct (Dict.get device_id (connections w)) as [c|]; [|now exists false].
  lazymatch goal with
  | |- exists a, fst (?m w) = _ => enough (Hr : returns m) by apply Hr
  end.
  apply returns_bind; [apply returns_modify|]. intros _.
  apply returns_bind.
  { destruct (conn_store w !! c) as [conn|]; [|apply returns_ret].
    destruct (DeviceConnection.websocket conn) as [ws|]; [|apply returns_ret].
    apply returns_try_except. intros e. apply returns_ret. }
  intros _. apply returns_bind.
  { apply returns_try_except. intros e. apply returns_ret. }
  intros _. apply returns_bind; [apply returns_modify|]. intros _. apply returns_ret.
Qed.

Lemma returns_sweep_body entry : returns (sweep_body entry).
Proof.
  unfold sweep_body.
  apply returns_bind; [apply returns_gets|]. intros [conn|]; [|apply returns_ret].
  apply returns_bind; [apply returns_gets|]. intros timeout.
  apply returns_bind; [intros w; eexists; reflexivity|]. intros now.
  destruct (negb (DeviceConnection.is_alive now timeout conn)).
  - apply returns_bind; [apply returns_disconnect|]. intros _. apply returns_ret.
  - apply returns_bind.
    { unfold new_message. apply returns_bind; [intros w; eexists; reflexivity|].
      intros mid. apply returns_bind; [intros w; eexists; reflexivity|].
      intros ts. apply returns_ret. }
    intros probe. apply returns_bind; [apply returns_send|]. intros _. apply returns_ret.
Qed.

(** What [disconnect] does to a connected device. *)
Lemma disconnect_effect device_id (w : World) c conn :
  Dict.get device_id (connections w) = Some c ->
  conn_store w !! c = Some conn ->
  Dict.get device_id (connections (snd (disconnect device_id w))) = None
  /\ (forall ws s,
        DeviceConnection.websocket conn = Some ws ->
        socket_store w !! ws = Some s ->
        exists s', socket_store (snd (disconnect device_id w)) !! ws = Some s'
                   /\ ws_closed s' = true)
  /\ (forall old,
        Dict.get device_id (registry_devices w) = Some old ->
        Dict.get device_id (registry_devices (snd (disconnect device_id w)))
        = Some DeviceStatus.OFFLINE
        /\ (old <> DeviceStatus.OFFLINE ->
            In ("offline", device_id) (registry_events (snd (disconnect device_id w)))))
  /\ In ("disconnected", device_id) (emitted (snd (disconnect device_id w))).
Proof.
  intros Hget Hconn. split; [apply disconnect_removes|].
  assert (Hoffline : forall (devices : list (string * DeviceStatus.t)) events old,
             Dict.get device_id (Dict.set device_id DeviceStatus.OFFLINE devices)
             = Some DeviceStatus.OFFLINE
             /\ (old <> DeviceStatus.OFFLINE ->
                 In ("offline", device_id)
                   (if decide (old = DeviceStatus.OFFLINE) then events
                    else (events ++ [("offline", device_id)])%list))).
  { intros devices events old. split; [apply DictFacts.get_set_eq|].
    intros Hne. destruct (decide (old = DeviceStatus.OFFLINE)); [contradiction|].
    apply in_or_app. right. now left. }
  unfold disconnect. rewrite Hget.
  unfold bind, modify, try_except, ret, _emit_event, registry_update_status. simpl.
  rewrite Hconn.
  destruct (DeviceConnection.websocket conn) as [ws|] eqn:Hws; simpl.
  - unfold ws_close. simpl.
    destruct (socket_store w !! ws) as [s|] eqn:Hs; simpl.
    + destruct (ws_closed s) eqn:Hcl; simpl;
        destruct (Dict.get device_id (registry_devices w)) as [old|] eqn:Hold; simpl.
      all: split; [|split; [|apply in_or_app; right; now left]].
      all: try (intros ws0 s0 [= <-] Hs0; simpl;
                first [ exists s; split; assumption
                      | rewrite list_lookup_insert_eq by (now apply lookup_lt_Some in Hs);
                        eexists; split; reflexivity ]).
      all: try (intros old0 [= <-]; apply Hoffline).
      all: discriminate.
    + destruct (Dict.get device_id (registry_devices w)) as [old|] eqn:Hold; simpl.
      all: split; [|split; [|apply in_or_app; right; now left]].
      all: try (intros ws0 s0 [= <-] Hs0; congruence).
      all: try (intros old0 [= <-]; apply Hoffline).
      all: discriminate.
  - destruct (Dict.get device_id (registry_devices w)) as [old|] eqn:Hold; simpl.
    all: split; [|split; [|apply in_or_app; right; now left]].
    all: try (intros ws0 s0 Hws0; discriminate Hws0).
    all: try (intros old0 [= <-]; apply Hoffline).
    all: discriminate.
Qed.

End SweepFacts.

Section SweepRounds.
Context `{PyFloat}.
Variable w : World.
Variable device_id : string.
Variable c : nat.
Variable conn : DeviceConnection.t.
Hypothesis Hmapped : Dict.get device_id (connections w) = Some c.
Hypothesis Hobject : conn_store w !! c = Some conn.

(** A round of the loop returns, and its state is that of the loop over
    the snapshot. *)
Lemma heartbeat_sweep_loop (w0 : World) :
  heartbeat_sweep w0
  = (Return tt,
     snd (for_each (connections w0) sweep_body (set_clock_reads (S (clock_reads w0)) w0))).
Proof.
  unfold heartbeat_sweep, try_except, bind, time_time, gets. simpl.
  destruct (returns_for_each (connections w0) sweep_body returns_sweep_body
              (set_clock_reads (S (clock_reads w0)) w0)) as [[] Hr].
  destruct (for_each (connections w0) sweep_body _) as [[[]|e] w1]; simpl in *;
    [reflexivity|discriminate].
Qed.

(** The liveness check of the loop on the connection object of
    [device_id], in a state the round has reached. *)
Lemma check_in_round touched (w1 : World) :
  evolves touched w w1 ->
  exists conn1,
    conn_store w1 !! c = Some conn1
    /\ DeviceConnection.websocket conn1 = DeviceConnection.websocket conn
    /\ DeviceConnection.status conn1 = DeviceConnection.status conn
    /\ DeviceConnection.last_heartbeat conn1 = DeviceConnection.last_heartbeat conn
    /\ clock_reads w <= clock_reads w1
    /\ DeviceConnection.is_alive (clock w1 (clock_reads w1)) (heartbeat_timeout w1) conn1
       = DeviceConnection.is_alive (clock w (clock_reads w1)) (heartbeat_timeout w) conn.
Proof.
  intros (A1 & A2 & A3 & _ & _ & A6 & _).
  destruct (A6 _ _ Hobject) as (conn1 & Hc1 & Hh & Hw & Hs).
  exists conn1. repeat split; try assumption.
  unfold DeviceConnection.is_alive. now rewrite A1, A2, Hh.
Qed.

(** The state after the body of the loop, by the outcome of the check. *)
Lemma sweep_body_failed (w1 : World) conn1 :
  conn_store w1 !! c = Some conn1 ->
  DeviceConnection.is_alive (clock w1 (clock_reads w1)) (heartbeat_timeout w1) conn1 = false ->
  snd (sweep_body (device_id, c) w1)
  = snd (disconnect device_id (set_clock_reads (S (clock_reads w1)) w1)).
Proof.
  intros Hc Hdead. unfold sweep_body.
  unfold bind at 1. unfold gets at 1. cbn [snd]. rewrite Hc.
  unfold bind at 1. unfold gets at 1.
  unfold bind at 1. unfold time_time at 1. rewrite Hdead. cbn [negb fst].
  unfold bind.
  destruct (disconnect device_id _) as [[b|e] w2]; reflexivity.
Qed.

Lemma sweep_body_passed touched (w1 : World) conn1 :
  conn_store w1 !! c = Some conn1 ->
  DeviceConnection.is_alive (clock w1 (clock_reads w1)) (heartbeat_timeout w1) conn1 = true ->
  evolves touched w1 (snd (sweep_body (device_id, c) w1)).
Proof.
  intros Hc Halive. unfold sweep_body.
  unfold bind at 1. unfold gets at 1. cbn [snd]. rewrite Hc.
  unfold bind at 1. unfold gets at 1.
  unfold bind at 1. unfold time_time at 1. rewrite Halive. cbn [negb].
  eapply evolves_trans; [exact (evolves_time_time touched w1)|].
  unfold time_time at 1. cbn [snd].
  lazymatch goal with
  | |- evolves _ ?w0 (snd (?m ?w0)) => enough (Hm : follows (evolves touched) m) by apply Hm
  end.
  apply follows_bind; [apply evolves_trans|apply evolves_new_message|]. intros probe.
  apply follows_bind; [apply evolves_trans|apply evolves_send|].
  intros _. apply follows_ret, evolves_refl.
Qed.

(** A session whose check fails at every reading of the clock that the
    round takes is disconnected in that round. *)
Lemma sweep_evicts :
  (forall n, clock_reads w <= n <= clock_reads (snd (heartbeat_sweep w)) ->
     DeviceConnection.is_alive (clock w n) (heartbeat_timeout w) conn = false) ->
  fst (heartbeat_sweep w) = Return tt
  /\ Dict.get device_id (connections (snd (heartbeat_sweep w))) = None
  /\ (forall ws s,
        DeviceConnection.websocket conn = Some ws ->
        socket_store w !! ws = Some s ->
        exists s', socket_store (snd (heartbeat_sweep w)) !! ws = Some s'
                   /\ ws_closed s' = true)
  /\ (forall old,
        Dict.get device_id (registry_devices w) = Some old ->
        Dict.get device_id (registry_devices (snd (heartbeat_sweep w)))
        = Some DeviceStatus.OFFLINE
        /\ (old <> DeviceStatus.OFFLINE ->
            In ("offline", device_id) (registry_events (snd (heartbeat_sweep w)))))
  /\ In ("disconnected", device_id) (emitted (snd (heartbeat_sweep w))).
Proof.
  rewrite heartbeat_sweep_loop. cbn [fst snd]. intros Hstale. split; [reflexivity|].
  destruct (DictFacts.get_Some_split _ _ _ Hmapped) as (l1 & l2 & Hsplit & Hfirst).
  revert Hstale. rewrite Hsplit.
  rewrite for_each_app by apply returns_sweep_body.
  set (w0 := set_clock_reads (S (clock_reads w)) w).
  set (touched := fun d : string => In d (Dict.keys l1)).
  assert (H0 : evolves touched w w0) by apply (evolves_time_time touched w).
  assert (H1 : evolves touched w (snd (for_each l1 sweep_body w0))).
  { eapply evolves_trans; [exact H0|].
    apply (follows_for_each (evolves touched)
             (evolves_refl touched) (evolves_trans touched)).
    intros x Hx. apply evolves_sweep_body. unfold touched, Dict.keys. now apply in_map. }
  set (w1 := snd (for_each l1 sweep_body w0)) in *.
  rewrite for_each_cons by apply returns_sweep_body.
  pose proof (evolves_sweep_body (fun _ => True) (device_id, c) I w1) as H2.
  set (w2 := snd (sweep_body (device_id, c) w1)) in *.
  pose proof (follows_for_each (evolves (fun _ => True))
                (evolves_refl _) (evolves_trans _) l2 sweep_body
                (fun x _ => evolves_sweep_body (fun _ => True) x I) w2) as Hrest.
  intros Hstale.
  destruct (check_in_round touched w1 H1) as (conn1 & Hc1 & Hws1 & _ & _ & Hreads & Hcheck).
  destruct H2 as (_ & _ & R2 & _).
  destruct Hrest as (_ & _ & R3 & C4 & _ & _ & C7 & _ & C9 & C10 & C11).
  rewrite Hstale in Hcheck by lia.
  pose proof (sweep_body_failed w1 conn1 Hc1 Hcheck) as Hfailed.
  fold w2 in Hfailed.
  set (w1' := set_clock_reads (S (clock_reads w1)) w1) in *.
  destruct H1 as (_ & _ & _ & _ & B5 & _ & B7 & B8 & _).
  assert (Hget1 : Dict.get device_id (connections w1') = Some c).
  { simpl. rewrite B5 by exact Hfirst. exact Hmapped. }
  destruct (disconnect_effect device_id w1' c conn1 Hget1 Hc1)
    as (Hgone & Hsock & Hreg & Hemit).
  rewrite <- Hfailed in Hgone, Hsock, Hreg, Hemit.
  split; [apply C4, Hgone|]. split; [|split].
  - intros ws s Hws Hs. destruct (B7 _ _ Hs) as (s1 & Hs1 & _).
    rewrite <- Hws1 in Hws.
    destruct (Hsock ws s1 Hws Hs1) as (s2 & Hs2 & Hcl2).
    destruct (C7 _ _ Hs2) as (s3 & Hs3 & Hcl3). eauto.
  - intros old Hold. rewrite <- (B8 device_id Hfirst) in Hold.
    destruct (Hreg old Hold) as [Hoff Hev]. split; [apply C9, Hoff|].
    intros Hne. apply C10, Hev, Hne.
  - apply C11, Hemit.
Qed.

(** A session whose check passes at every reading of the clock that the
    round takes keeps its place in the connection map, and its
    connection object keeps its status. *)
Lemma sweep_keeps :
  NoDup (Dict.keys (connections w)) ->
  (forall n, clock_reads w <= n <= clock_reads (snd (heartbeat_sweep w)) ->
     DeviceConnection.is_alive (clock w n) (heartbeat_timeout w) conn = true) ->
  evolves (fun d => d <> device_id) w (snd (heartbeat_sweep w)).
Proof.
  intros Hnodup. rewrite heartbeat_sweep_loop. cbn [snd].
  set (touched := fun d : string => d <> device_id).
  assert (Hloop : forall l (w1 : World),
             (forall x, In x l -> In x (connections w)) ->
             evolves touched w w1 ->
             (forall n, clock_reads w <= n <= clock_reads (snd (for_each l sweep_body w1)) ->
                DeviceConnection.is_alive (clock w n) (heartbeat_timeout w) conn = true) ->
             evolves touched w (snd (for_each l sweep_body w1))).
  { induction l as [|[d' c'] l IH]; intros w1 Hsub Hw1; [intros _; exact Hw1|].
    rewrite for_each_cons by apply returns_sweep_body. intros Hfresh.
    apply IH; [intros x Hx; apply Hsub; now right| |exact Hfresh].
    eapply evolves_trans; [exact Hw1|].
    destruct (decide (d' = device_id)) as [->|Hne].
    - assert (c' = c) as ->.
      { eapply DictFacts.NoDup_binding; [exact Hnodup|exact Hmapped|].
        apply Hsub. now left. }
      destruct (check_in_round touched w1 Hw1) as (conn1 & Hc1 & _ & _ & _ & Hreads & Hcheck).
      pose proof (evolves_sweep_body (fun _ => True) (device_id, c) I w1) as (_ & _ & R2 & _).
      pose proof (follows_for_each (evolves (fun _ => True))
                    (evolves_refl _) (evolves_trans _) l sweep_body
                    (fun x _ => evolves_sweep_body (fun _ => True) x I)
                    (snd (sweep_body (device_id, c) w1))) as (_ & _ & R3 & _).
      rewrite Hfresh in Hcheck by lia.
      now apply sweep_body_passed with (conn1 := conn1).
    - now apply evolves_sweep_body. }
  intros Hfresh. apply Hloop; [auto| |exact Hfresh].
  apply (evolves_time_time touched w).
Qed.

End SweepRounds.

(** ** The two outcomes of a round of the heartbeat loop *)

Section SweepOutcome.
Context `{PyFloat} `{!PyFloatLaws}.


End SweepOutcome.

Section SweepStates.
Context `{PyFloat}.

(** C4 (amended): a round of the heartbeat loop has two outcomes for a
    connected session and no state between them.  A session whose
    liveness check fails in the round is disconnected in that same
    round, at the first failure.  A session whose check passes stays in
    the connection map with the same connection object, whose status
    string and last heartbeat the loop does not change. *)
Theorem sweep_has_no_degraded_state (w : World) device_id c conn :
  NoDup (Dict.keys (connections w)) ->
  Dict.get device_id (connections w) = Some c ->
  conn_store w !! c = Some conn ->
  ((forall n, clock_reads w <= n <= clock_reads (snd (heartbeat_sweep w)) ->
      DeviceConnection.is_alive (clock w n) (heartbeat_timeout w) conn = false) ->
   Dict.get device_id (connections (snd (heartbeat_sweep w))) = None
   /\ In ("disconnected", device_id) (emitted (snd (heartbeat_sweep w))))
  /\ ((forall n, clock_reads w <= n <= clock_reads (snd (heartbeat_sweep w)) ->
         DeviceConnection.is_alive (clock w n) (heartbeat_timeout w) conn = true) ->
      Dict.get device_id (connections (snd (heartbeat_sweep w))) = Some c
      /\ exists conn',
           conn_store (snd (heartbeat_sweep w)) !! c = Some conn'
           /\ DeviceConnection.status conn' = DeviceConnection.status conn
           /\ DeviceConnection.last_heartbeat conn'
              = DeviceConnection.last_heartbeat conn).
Proof.
  intros Hnodup Hmapped Hobject. split.
  - intros Hfails.
    destruct (sweep_evicts w device_id c conn Hmapped Hobject Hfails)
      as (_ & Hgone & _ & _ & Hemit).
    now split.
  - intros Hpasses.
    destruct (sweep_keeps w device_id c conn Hmapped Hobject Hnodup Hpasses)
      as (_ & _ & _ & _ & A5 & A6 & _).
    split; [rewrite A5 by tauto; exact Hmapped|].
    destruct (A6 _ _ Hobject) as (conn' & Hc' & Hh & _ & Hs). eauto.
Qed.

End SweepStates.

(** C4 fails as stated: in [stale_world] the session [d1] is connected
    with the status [connected] and its liveness check fails; one round
    of the heartbeat loop, the first with a failed check, removes the
    session and closes its socket. *)
Lemma first_failed_check_closes :
  (exists conn,
      lookup_conn "d1" stale_world = Some (0, conn)
      /\ DeviceConnection.status conn = "connected"
      /\ DeviceConnection.is_alive (clock stale_world (S (clock_reads stale_world)))
           (heartbeat_timeout stale_world) conn = false)
  /\ Dict.mem "d1" (connections (snd (heartbeat_sweep stale_world))) = false
  /\ (exists s, socket_store (snd (heartbeat_sweep stale_world)) !! 0 = Some s
                /\ ws_closed s = true).
Proof.
  split; [|split].
  - vm_compute. eexists. repeat split.
  - vm_compute. reflexivity.
  - vm_compute. eexists. split; reflexivity.
Qed.

(** C4 (amended) at [connected_world], where the check of [d1] passes:
    the session is still connected after the round. *)
Lemma sweep_has_no_degraded_state_witness :
  NoDup (Dict.keys (connections connected_world))
  /\ Dict.get "d1" (connections (snd (heartbeat_sweep connected_world))) = Some 0.
Proof.
  assert (Hnodup : NoDup (Dict.keys (connections connected_world))).
  { assert (Hkeys : Dict.keys (connections connected_world) = ["d1"])
      by (vm_compute; reflexivity).
    rewrite Hkeys. apply NoDup_cons. split; [|apply NoDup_nil_2].
    intros Hin. inversion Hin. }
  split; [exact Hnodup|].
  assert (Hmapped : Dict.get "d1" (connections connected_world) = Some 0)
    by (vm_compute; reflexivity).
  assert (Hobject : exists conn,
             conn_store connected_world !! 0 = Some conn
             /\ DeviceConnection.last_heartbeat conn = whole 1001)
    by (vm_compute; eexists; split; reflexivity).
  destruct Hobject as (conn & Hobject & Hbeat).
  assert (Hreads : clock_reads connected_world = 3
                   /\ clock_reads (snd (heartbeat_sweep connected_world)) = 7)
    by (split; vm_compute; reflexivity).
  assert (Hclock : clock connected_world = (fun n => whole (1000 + Z.of_nat n))
                   /\ heartbeat_timeout connected_world = whole 60)
    by (split; vm_compute; reflexivity).
  destruct Hreads as [Hr0 Hr1]. destruct Hclock as [Hclock Htimeout].
  apply (proj2 (@sweep_has_no_degraded_state whole_floats connected_world
                  "d1" 0 conn Hnodup Hmapped Hobject)).
  intros n Hn. rewrite Hr0, Hr1 in Hn.
  unfold DeviceConnection.is_alive. rewrite Hclock, Htimeout, Hbeat.
  unfold whole. simpl. apply Z.ltb_lt. lia.
Defined.


(** ** The MCP loader *)

Section LoaderFacts.
Context `{PyFloat}.

(** The exchange with the process touches the process store only. *)
Lemma exchange_frame p request (l : Loader) :
  _request_id (snd (exchange p request l)) = _request_id l
  /\ servers (snd (exchange p request l)) = servers l.
Proof.
  unfold exchange, try_except, bind, write_line, read_line, lift, ret.
  destruct (process_store l !! p) as [pr|]; [|now split].
  destruct (process_write _ pr) as [pr'|e]; [|now split]. cbn [fst snd].
  cbn [process_store set_process_store].
  destruct (<[p:=pr']> (process_store l) !! p) as [pr2|].
  - destruct (process_readline pr2) as [[|ch line] pr3]; [now split|].
    destruct (MCPResponse_from_json (String ch line)); now split.
  - now split.
Qed.

(** The exchange with a process whose stdin takes the request. *)
Lemma exchange_live p request (l : Loader) pr :
  process_store l !! p = Some pr ->
  stdin_broken pr = false ->
  fst (exchange p request l) = Return (decode_response_line (hd EmptyString (stdout_lines pr)))
  /\ exists pr',
       process_store (snd (exchange p request l)) !! p = Some pr'
       /\ stdin_written pr'
          = (stdin_written pr
             ++ [(MCPRequest_to_json request ++ String "010"%char EmptyString)%string])%list
       /\ stdout_lines pr' = tl (stdout_lines pr).
Proof.
  intros Hpr Hbroken.
  assert (Hlt : p < length (process_store l)) by now apply lookup_lt_Some in Hpr.
  unfold exchange, try_except, bind, write_line, read_line, lift, ret.
  rewrite Hpr. unfold process_write. rewrite Hbroken. cbn [fst snd].
  cbn [process_store set_process_store].
  rewrite list_lookup_insert_eq by exact Hlt.
  unfold process_readline. cbn [stdout_lines set_stdin_written].
  destruct (stdout_lines pr) as [|line rest] eqn:Hlines.
  - cbn [fst snd hd tl decode_response_line process_store set_process_store].
    split; [reflexivity|].
    rewrite list_lookup_insert_eq by (rewrite length_insert; exact Hlt).
    eexists. split; [reflexivity|]. cbn. now rewrite Hlines.
  - cbn [hd tl]. unfold decode_response_line. destruct line as [|ch line].
    + cbn [fst snd process_store set_process_store]. split; [reflexivity|].
      rewrite list_lookup_insert_eq by (rewrite length_insert; exact Hlt).
      eexists. split; [reflexivity|]. cbn. now split.
    + destruct (MCPResponse_from_json (String ch line)) as [r|e];
        cbn [fst snd process_store set_process_store].
      all: split; [reflexivity|].
      all: rewrite list_lookup_insert_eq by (rewrite length_insert; exact Hlt).
      all: eexists; split; [reflexivity|]; cbn; now split.
Qed.

(** [_send_request] on a server that has a process. *)
Lemma send_request_live server_id method params (l : Loader) server p :
  Dict.get server_id (servers l) = Some server ->
  process server = Some p ->
  _send_request server_id method params l
  = exchange p
      {| req_jsonrpc := "2.0"; req_id := Some (_request_id l + 1)%Z;
         req_method := method;
         req_params := match params with
                       | Some v => if py_truthy v then v else JObj []
                       | None => JObj []
                       end |}
      (set_request_id (_request_id l + 1) l).
Proof. intros Hget Hproc. unfold _send_request. now rewrite Hget, Hproc. Qed.


(** An assignment on the server object that [load] has just stored. *)
Lemma update_server_stored server_id f (l : Loader) server :
  Dict.get server_id (servers l) = Some server ->
  update_server server_id f l
  = (Return tt, set_servers (Dict.set server_id (f server) (servers l)) l).
Proof. intros Hget. unfold update_server, modify. now rewrite Hget. Qed.

(** [start] on a command whose process has exited when it is polled. *)
Lemma start_exited server_id (l : Loader) server spawned code :
  Dict.get server_id (servers l) = Some server ->
  popen l (command server ++ args server)%list = Return spawned ->
  returncode spawned = Some code ->
  exists l',
    start server_id l = (Return false, l')
    /\ Dict.get server_id (servers l')
       = Some (set_error (Some (stderr_text spawned))
                 (set_status MCPServerStatus.ERROR
                    (set_process (Some (length (process_store l)))
                       (set_status MCPServerStatus.STARTING server))))
    /\ process_store l' = (process_store l ++ [spawned])%list
    /\ _request_id l' = _request_id l
    /\ forall other, other <> server_id ->
         Dict.get other (servers l') = Dict.get other (servers l).
Proof.
  intros Hget Hpopen Hcode. eexists. split.
  { unfold start. rewrite Hget.
    unfold try_except. unfold bind at 1.
    rewrite (update_server_stored _ _ _ _ Hget). cbn [fst snd].
    unfold bind at 1. cbn [popen set_servers fst snd]. rewrite Hpopen.
    unfold bind at 1. cbn [fst snd process_store set_servers].
    unfold bind at 1.
    erewrite update_server_stored
      by (cbn [servers set_process_store set_servers]; apply DictFacts.get_set_eq).
    cbn [fst snd]. rewrite Hcode.
    unfold bind at 1.
    erewrite update_server_stored
      by (cbn [servers set_process_store set_servers]; apply DictFacts.get_set_eq).
    cbn [fst snd]. unfold bind at 1.
    erewrite update_server_stored
      by (cbn [servers set_process_store set_servers]; apply DictFacts.get_set_eq).
    cbn [fst snd ret]. reflexivity. }
  cbn [servers set_servers set_process_store process_store _request_id].
  split; [apply DictFacts.get_set_eq|].
  split; [reflexivity|]. split; [reflexivity|].
  intros other Hne. now rewrite !DictFacts.get_set_ne by congruence.
Qed.

(** The request path of the manager on a process whose stdin takes the
    request. *)
Lemma manager_request_written server_name method params (m : MCPManager.Manager)
    server p pr :
  Dict.get server_name (MCPManager.servers m) = Some server ->
  MCPManager.process server = Some p ->
  MCPManager.process_store m !! p = Some pr ->
  stdin_broken pr = false ->
  exists pr',
    MCPManager.process_store
      (snd (MCPManager._send_request server_name method params m)) !! p = Some pr'
    /\ stdin_written pr' = (stdin_written pr ++ [manager_request_line method params])%list.
Proof.
  intros Hget Hproc Hpr Hbroken.
  assert (Hlt : p < length (MCPManager.process_store m)) by now apply lookup_lt_Some in Hpr.
  unfold MCPManager._send_request. rewrite Hget, Hproc.
  unfold try_except, bind, lift, modify, ret. rewrite Hpr.
  unfold process_write. rewrite Hbroken. unfold process_readline.
  cbn [stdout_lines set_stdin_written].
  destruct (stdout_lines pr) as [|line rest].
  - cbn [fst snd]. destruct (loads EmptyString) as [v|e]; cbn [fst snd MCPManager.process_store].
    all: rewrite list_lookup_insert_eq by exact Hlt.
    all: eexists; split; reflexivity.
  - cbn [fst snd]. destruct (loads line) as [v|e]; cbn [fst snd MCPManager.process_store].
    all: rewrite list_lookup_insert_eq by exact Hlt.
    all: eexists; split; reflexivity.
Qed.


(** C5 (amended): when the command of [load] has exited by the time
    [start] polls it, whatever its exit status, [load] raises nothing
    and returns the dictionary of a failure, with the text of the
    standard error of the process as the error and with the id of the
    server.  The server stays in the table of the loader under that id,
    with the status [error], that error text and the dead process. *)
Theorem failed_launch_stays_registered (l : Loader) name command args env cwd spawned code :
  popen l (full_command command args) = Return spawned ->
  returncode spawned = Some code ->
  exists l' server,
    load name command args env cwd true l
    = (Return (JObj [("success", JBool false);
                     ("error", JStr (stderr_text spawned));
                     ("server_id", JStr (loader_uuid8 l (loader_uuid_draws l)))]),
       l')
    /\ Dict.get (loader_uuid8 l (loader_uuid_draws l)) (servers l') = Some server
    /\ status server = MCPServerStatus.ERROR
    /\ error server = Some (stderr_text spawned)
    /\ process server = Some (length (process_store l))
    /\ process_store l' = (process_store l ++ [spawned])%list.
Proof.
  intros Hpopen Hcode.
  set (server_id := loader_uuid8 l (loader_uuid_draws l)).
  set (server0 :=
         {| id := server_id; name := name;
            command := match command with
                       | CommandStr s => str_split s
                       | CommandList c => c
                       end;
            args := match args with Some a => a | None => [] end;
            env := match env with Some e => e | None => [] end;
            cwd := cwd; status := MCPServerStatus.STOPPED; process := None;
            error := None; tools := []; resources := []; prompts := [];
            server_info := JObj []; capabilities := JObj [];
            created_at := loader_clock l (loader_clock_reads l) |}).
  set (l2 := set_servers (Dict.set server_id server0 (servers l))
               (set_loader_draws (S (loader_clock_reads l)) (S (loader_uuid_draws l))
                  (set_loader_draws (loader_clock_reads l) (S (loader_uuid_draws l)) l))).
  assert (Hget : Dict.get server_id (servers l2) = Some server0)
    by apply DictFacts.get_set_eq.
  destruct (start_exited server_id l2 server0 spawned code Hget Hpopen Hcode)
    as (l' & Hstart & Hserver & Hstore & _ & _).
  exists l'. eexists. split; [|split; [exact Hserver|]].
  - unfold load. unfold bind at 1. cbn [fst snd].
    unfold bind at 1. cbn [fst snd].
    unfold bind at 1. unfold modify at 1. cbn [fst snd].
    unfold bind at 1.
    change (start (loader_uuid8 l (loader_uuid_draws l)) _) with (start server_id l2).
    rewrite Hstart. cbn [fst snd].
    unfold bind at 1. unfold gets at 1. cbn [fst snd].
    fold server_id. rewrite Hserver. reflexivity.
  - repeat split. exact Hstore.
Qed.

End LoaderFacts.


(** The two requests that [running_manager] sends to one server both
    carry the id 1. *)
Lemma manager_requests_share_id :
  map (@id_of_line whole_floats)
    (match MCPManager.process_store
             (snd (@MCPManager._send_request whole_floats "s1" "tools/call" (JObj [])
                     (snd (@MCPManager._send_request whole_floats "s1" "tools/list"
                             (JObj []) running_manager)))) !! 0 with
     | Some child => stdin_written child
     | None => []
     end)
  = [Some (JInt 1); Some (JInt 1)].
Proof. vm_compute. reflexivity. Qed.

(** C5 fails as stated: [fresh_loader] loads a command that exits at
    once with status 1; [load] returns the failure, and the table of
    servers, empty before, holds the server afterwards. *)
Lemma failed_launch_leaves_server :
  servers fresh_loader = []
  /\ fst (load "files" (CommandStr "false") None None EmptyString true fresh_loader)
     = Return (JObj [("success", JBool false); ("error", JStr "boom");
                     ("server_id", JStr "00000000")])
  /\ Dict.mem "00000000"
       (servers (snd (load "files" (CommandStr "false") None None EmptyString true
                        fresh_loader)))
     = true.
Proof. repeat split; vm_compute; reflexivity. Qed.

(** C5 (amended) at [fresh_loader]. *)
Lemma failed_launch_witness :
  exists l' server,
    load "files" (CommandStr "false") None None EmptyString true fresh_loader
    = (Return (JObj [("success", JBool false); ("error", JStr "boom");
                     ("server_id", JStr "00000000")]), l')
    /\ Dict.get "00000000" (servers l') = Some server
    /\ status server = MCPServerStatus.ERROR.
Proof.
  destruct (@failed_launch_stays_registered whole_floats fresh_loader
              "files" (CommandStr "false") None None EmptyString
              failing_process 1%Z eq_refl eq_refl)
    as (l' & server & Hload & Hget & Hstatus & _).
  exists l', server. split; [exact Hload|]. split; [exact Hget|exact Hstatus].
Defined.


(** ** Sending *)

Section SendFacts.
Context `{PyFloat}.

(** The connection object behind a device id. *)
Lemma lookup_conn_inv device_id (w : World) c conn :
  lookup_conn device_id w = Some (c, conn) ->
  Dict.get device_id (connections w) = Some c /\ conn_store w !! c = Some conn.
Proof.
  unfold lookup_conn.
  destruct (Dict.get device_id (connections w)) as [c0|]; [|discriminate].
  destruct (conn_store w !! c0) as [conn0|] eqn:Hc; [|discriminate].
  intros [= <- <-]. now split.
Qed.

(** [send] on a socket that takes the write. *)
Lemma send_written (w : World) device_id message c conn ws s :
  lookup_conn device_id w = Some (c, conn) ->
  DeviceConnection.websocket conn = Some ws ->
  socket_store w !! ws = Some s ->
  ws_closed s = false ->
  ws_broken s = false ->
  exists w',
    send device_id message w = (Return true, w')
    /\ socket_store w'
       = <[ws := {| ws_sent := (ws_sent s
                                ++ [DeviceMessage.to_json
                                      (DeviceMessage.set_device_id (JStr device_id) message)])%list;
                    ws_closed := false; ws_broken := false |}]> (socket_store w)
    /\ conn_store w'
       = <[c := DeviceConnection.set_last_message (clock w (clock_reads w))
                  (DeviceConnection.incr_messages_sent conn)]> (conn_store w)
    /\ connections w' = connections w
    /\ future_store w' = future_store w
    /\ clock_reads w' = S (clock_reads w).
Proof.
  intros Hlook Hws Hs Hclosed Hbroken.
  destruct (lookup_conn_inv _ _ _ _ Hlook) as [_ Hc].
  assert (Hlt : c < length (conn_store w)) by now apply lookup_lt_Some in Hc.
  eexists. split.
  { unfold send. rewrite Hlook, Hws.
    unfold try_except, bind, ws_send_text, update_conn, modify, time_time, ret.
    rewrite Hs, Hclosed, Hbroken. cbn [orb fst snd conn_store set_socket_store].
    rewrite Hc. cbn [fst snd conn_store set_conn_store set_clock_reads clock clock_reads
                     set_socket_store].
    rewrite list_lookup_insert_eq by exact Hlt. reflexivity. }
  cbn [socket_store conn_store connections future_store clock_reads
       set_conn_store set_clock_reads set_socket_store].
  rewrite list_insert_insert_eq.
  repeat split.
Qed.

(** X1: [send] to a connected device whose socket is open and sound
    returns [True]; the socket has received one more text, the encoding
    of the message with its [device_id] overwritten by the id of the
    target; the connection has one more sent message and the reading of
    the clock as its last message time; every other socket and
    connection, the connection map and the futures are as before. *)
Theorem send_delivers (w : World) device_id message c conn ws s :
  lookup_conn device_id w = Some (c, conn) ->
  DeviceConnection.websocket conn = Some ws ->
  socket_store w !! ws = Some s ->
  ws_closed s = false ->
  ws_broken s = false ->
  exists w',
    send device_id message w = (Return true, w')
    /\ socket_store w'
       = <[ws := {| ws_sent := (ws_sent s
                                ++ [DeviceMessage.to_json
                                      (DeviceMessage.set_device_id (JStr device_id) message)])%list;
                    ws_closed := false; ws_broken := false |}]> (socket_store w)
    /\ conn_store w'
       = <[c := DeviceConnection.set_last_message (clock w (clock_reads w))
                  (DeviceConnection.incr_messages_sent conn)]> (conn_store w)
    /\ connections w' = connections w
    /\ future_store w' = future_store w
    /\ clock_reads w' = S (clock_reads w).
Proof.
  exact (send_written w device_id message c conn ws s).
Qed.

(** [send] on a socket that refuses the write. *)
Lemma send_refused (w : World) device_id message c conn ws s :
  lookup_conn device_id w = Some (c, conn) ->
  DeviceConnection.websocket conn = Some ws ->
  socket_store w !! ws = Some s ->
  ws_closed s || ws_broken s = true ->
  send device_id message w
  = (Return false,
     set_conn_store (<[c := DeviceConnection.incr_errors conn]> (conn_store w)) w).
Proof.
  intros Hlook Hws Hs Hbad.
  destruct (lookup_conn_inv _ _ _ _ Hlook) as [_ Hc].
  unfold send. rewrite Hlook, Hws.
  unfold try_except, bind, ws_send_text, update_conn, modify, ret.
  rewrite Hs, Hbad. cbn [fst snd]. now rewrite Hc.
Qed.

(** X2: [send] to a connected device whose socket is closed or broken
    raises nothing and returns [False]; the failed write is counted in
    the [errors] of the connection, and nothing else changes: no text
    is recorded on the socket, [messages_sent] and [last_message] stay,
    and the clock is not read. *)
Theorem send_failure_is_counted (w : World) device_id message c conn ws s :
  lookup_conn device_id w = Some (c, conn) ->
  DeviceConnection.websocket conn = Some ws ->
  socket_store w !! ws = Some s ->
  ws_closed s || ws_broken s = true ->
  send device_id message w
  = (Return false,
     set_conn_store (<[c := DeviceConnection.incr_errors conn]> (conn_store w)) w).
Proof.
  exact (send_refused w device_id message c conn ws s).
Qed.

(** [send] keeps the futures, the connection map and the correlation
    tables, whatever its outcome. *)
Lemma send_same_core device_id message (w : World) :
  same_core w (snd (send device_id message w)).
Proof. apply keeps_core_send. Qed.

(** X3: a [send_command] whose write fails on a closed or broken socket
    returns the error [发送失败] at once, without waiting.  The entry it
    had registered is removed from the correlation table, which holds
    no entry for the id of the call; the future it had created stays in
    the store, pending; the failed write is counted in [errors]. *)
Theorem send_command_write_failure (w : World) device_id action params timeout
    c conn ws s :
  lookup_conn device_id w = Some (c, conn) ->
  DeviceConnection.websocket conn = Some ws ->
  socket_store w !! ws = Some s ->
  ws_closed s || ws_broken s = true ->
  exists w',
    send_command_begin device_id action params timeout w
    = (Return (Returned (failure "发送失败")), w')
    /\ Dict.get (uuid8 w (uuid_draws w)) (table_of w' c) = None
    /\ future_store w' = (future_store w ++ [Pending])%list
    /\ socket_store w' = socket_store w
    /\ connections w' = connections w
    /\ exists conn',
         conn_store w' !! c = Some conn'
         /\ DeviceConnection.errors conn' = S (DeviceConnection.errors conn)
         /\ DeviceConnection.messages_sent conn' = DeviceConnection.messages_sent conn.
Proof.
  intros Hlook Hws Hs Hbad.
  destruct (lookup_conn_inv _ _ _ _ Hlook) as [Hget Hc].
  assert (Hlt : c < length (conn_store w)) by now apply lookup_lt_Some in Hc.
  unfold send_command_begin. rewrite Hlook, Hws.
  unfold bind at 1. unfold uuid4_8 at 1. cbv beta iota.
  unfold bind at 1. unfold time_time at 1. cbv beta iota.
  unfold bind at 1. unfold new_future at 1. cbv beta iota.
  unfold bind at 1. unfold update_conn at 1, modify at 1. cbv beta iota.
  cbn [conn_store set_future_store set_clock_reads set_uuid_draws]. rewrite Hc.
  unfold bind at 1.
  lazymatch goal with
  | |- context [send device_id ?m ?wr] =>
      pose proof (send_refused wr device_id m c
                    (DeviceConnection.set_pending_requests
                       (Dict.set (uuid8 w (uuid_draws w)) (length (future_store w))
                          (DeviceConnection.pending_requests conn)) conn) ws s) as Hsend
  end.
  rewrite Hsend; clear Hsend.
  - cbv beta iota. unfold bind, pop_pending, update_conn, modify, ret.
    cbn [fst snd conn_store set_conn_store].
    rewrite list_lookup_insert_eq by (rewrite length_insert; exact Hlt).
    eexists. split; [reflexivity|].
    cbn [future_store socket_store connections conn_store set_conn_store
         set_future_store set_clock_reads set_uuid_draws].
    split.
    { unfold table_of. cbn [conn_store set_conn_store].
      rewrite list_lookup_insert_eq by (rewrite !length_insert; exact Hlt).
      cbn. apply DictFacts.get_pop_eq. }
    repeat split.
    eexists. split.
    { rewrite list_lookup_insert_eq by (rewrite !length_insert; exact Hlt). reflexivity. }
    split; reflexivity.
  - unfold lookup_conn. cbn [connections conn_store set_conn_store set_future_store
                             set_clock_reads set_uuid_draws].
    rewrite Hget. rewrite list_lookup_insert_eq by exact Hlt. reflexivity.
  - destruct conn; exact Hws.
  - exact Hs.
  - exact Hbad.
Qed.

End SendFacts.

(** ** Responses and the calls they complete *)

(** The monadic glue, unfolded. *)
Ltac run_glue :=
  unfold bind, lift, ret, gets, modify, raise, try_except in *.

Section ResponseFacts.
Context `{PyFloat}.

(** X4: a connected device answers a pending [send_command] with a JSON
    object whose [type] is [response], whose [correlation_id] is the
    message id of the call, and which has no [payload] member.
    [handle_message] returns no reply and resolves the future of the
    call with the empty dict, the default of the payload; the call then
    returns that empty dict, its entry leaves the correlation table and
    the connection counts one more executed command and one more
    received message. *)
Theorem response_completes_call (w : World) device_id c conn message_data kvs call :
  lookup_conn device_id w = Some (c, conn) ->
  loads message_data = Return (JObj kvs) ->
  Dict.get "type" kvs = Some (JStr "response") ->
  Dict.get "payload" kvs = None ->
  Dict.get "correlation_id" kvs = Some (JStr (call_message_id call)) ->
  call_conn call = c ->
  Dict.get (call_message_id call) (DeviceConnection.pending_requests conn)
  = Some (call_future call) ->
  future_store w !! call_future call = Some Pending ->
  exists w1,
    handle_message device_id message_data w = (Return None, w1)
    /\ future_store w1 = <[call_future call := Done (JObj [])]> (future_store w)
    /\ exists w2,
         send_command_resume call false w1 = Some (JObj [], w2)
         /\ Dict.get (call_message_id call) (table_of w2 c) = None
         /\ future_store w2 = future_store w1
         /\ exists conn2,
              conn_store w2 !! c = Some conn2
              /\ DeviceConnection.commands_executed conn2
                 = S (DeviceConnection.commands_executed conn)
              /\ DeviceConnection.messages_received conn2
                 = S (DeviceConnection.messages_received conn).
Proof.
  intros Hlook Hloads Htype Hpayload Hcorr Hcall Hentry Hpending.
  destruct (lookup_conn_inv _ _ _ _ Hlook) as [Hget Hc].
  assert (Hlt : c < length (conn_store w)) by now apply lookup_lt_Some in Hc.
  assert (Hflt : call_future call < length (future_store w))
    by now apply lookup_lt_Some in Hpending.
  eexists. split.
  { unfold handle_message. rewrite Hlook.
    unfold handle_message_body, from_json. run_glue. rewrite Hloads. simpl py_get.
    rewrite Htype. cbv beta iota.
    change (py_eq_str (JStr "response") "handshake") with false.
    change (py_eq_str (JStr "response") "heartbeat") with false. cbv beta iota.
    unfold Dict.mem. rewrite Htype, Hpayload. cbv beta iota.
    change (true && false) with false. cbv beta iota.
    simpl py_get. rewrite Htype, Hpayload, Hcorr. cbv beta iota.
    change (MessageType_call (JStr "response")) with (Return MessageType.RESPONSE).
    cbv beta iota.
    unfold time_time, update_conn, resolve_future. run_glue.
    cbn [fst snd conn_store set_conn_store set_clock_reads DeviceMessage.type
         DeviceMessage.correlation_id DeviceMessage.payload].
    rewrite Hc. cbn [fst snd conn_store set_conn_store set_clock_reads].
    rewrite list_lookup_insert_eq by exact Hlt.
    cbn [fst snd conn_store set_conn_store set_clock_reads].
    rewrite list_lookup_insert_eq by (rewrite length_insert; exact Hlt).
    cbn [DeviceConnection.pending_requests DeviceConnection.set_last_message
         DeviceConnection.incr_messages_received py_in_dict].
    unfold Dict.mem. rewrite Hentry. cbv beta iota.
    cbn [fst snd future_store set_conn_store set_clock_reads]. rewrite Hpending.
    reflexivity. }
  split; [reflexivity|].
  unfold send_command_resume.
  cbn [future_store set_future_store set_conn_store set_clock_reads].
  rewrite list_lookup_insert_eq by exact Hflt.
  unfold pop_pending, update_conn. run_glue.
  cbn [fst snd conn_store set_conn_store set_future_store set_clock_reads]. rewrite Hcall.
  rewrite list_insert_insert_eq.
  rewrite list_lookup_insert_eq by exact Hlt.
  cbn [fst snd conn_store set_conn_store set_future_store set_clock_reads].
  rewrite list_lookup_insert_eq by (rewrite length_insert; exact Hlt).
  eexists. split; [reflexivity|].
  split.
  { unfold table_of. cbn [conn_store set_conn_store].
    rewrite list_lookup_insert_eq by (rewrite !length_insert; exact Hlt).
    cbn. apply DictFacts.get_pop_eq. }
  split; [reflexivity|].
  eexists. split.
  { cbn [conn_store set_conn_store].
    rewrite list_lookup_insert_eq by (rewrite !length_insert; exact Hlt). reflexivity. }
  split; reflexivity.
Qed.

End ResponseFacts.

Section EncodedMessages.
Context `{PyFloat} `{!PyFloatLaws}.

(** The JSON object that [json.loads] reads off the encoding of a valid
    message. *)
Lemma loads_to_json (x : DeviceMessage.t) :
  valid_message x = true ->
  loads (DeviceMessage.to_json x)
  = Return (JObj [("type", JStr (MessageType.value (DeviceMessage.type x)));
                  ("action", DeviceMessage.action x);
                  ("payload", DeviceMessage.payload x);
                  ("message_id", DeviceMessage.message_id x);
                  ("timestamp", DeviceMessage.timestamp x);
                  ("device_id", DeviceMessage.device_id x);
                  ("correlation_id", DeviceMessage.correlation_id x)]).
Proof.
  intros Hvalid. unfold valid_message in Hvalid.
  repeat (apply andb_true_iff in Hvalid; destruct Hvalid as [Hvalid ?]).
  unfold DeviceMessage.to_json. apply loads_dumps.
  simpl. repeat (apply andb_true_iff; split); auto.
Qed.

(** X5: the encoding that [to_json] gives of a valid message of any type
    but [heartbeat] has a [type] and a [payload] member, so
    [handle_message] reads it in the AIP format, as an event: it
    returns no reply, resolves no future, changes no correlation table
    and calls no message callback.  In particular, a response encoded
    by [to_json] completes no call. *)
Theorem encoded_message_is_an_event (w : World) device_id c conn (x : DeviceMessage.t) :
  lookup_conn device_id w = Some (c, conn) ->
  valid_message x = true ->
  DeviceMessage.type x <> MessageType.HEARTBEAT ->
  exists w',
    handle_message device_id (DeviceMessage.to_json x) w = (Return None, w')
    /\ same_core w w'
    /\ emitted w' = emitted w
    /\ exists conn',
         conn_store w' !! c = Some conn'
         /\ DeviceConnection.messages_received conn'
            = S (DeviceConnection.messages_received conn).
Proof.
  intros Hlook Hvalid Htype.
  destruct (lookup_conn_inv _ _ _ _ Hlook) as [Hget Hc].
  assert (Hlt : c < length (conn_store w)) by now apply lookup_lt_Some in Hc.
  unfold handle_message. rewrite Hlook.
  unfold handle_message_body. run_glue. rewrite (loads_to_json x Hvalid).
  destruct x as [ty action payload message_id timestamp did corr].
  cbn [DeviceMessage.type DeviceMessage.action DeviceMessage.payload
       DeviceMessage.message_id DeviceMessage.timestamp DeviceMessage.device_id
       DeviceMessage.correlation_id] in *.
  destruct ty; try congruence; cbn [MessageType.value].
  all: simpl py_get; cbv beta iota.
  all: lazymatch goal with
       | |- context [py_eq_str (JStr ?s) "handshake"] =>
           change (py_eq_str (JStr s) "handshake") with false;
           change (py_eq_str (JStr s) "heartbeat") with false;
           change (py_eq_str (JStr s) "TEXT") with false;
           change (py_eq_str (JStr s) "COMMAND") with false
       end; cbv beta iota.
  all: change (Dict.mem "type" _ && Dict.mem "payload" _) with true; cbv beta iota.
  all: unfold new_message, uuid4_8, time_time, update_conn, _handle_event; run_glue.
  all: simpl py_get; cbv beta iota.
  all: cbn [fst snd conn_store set_conn_store set_clock_reads set_uuid_draws orb
            DeviceMessage.type DeviceMessage.payload].
  all: rewrite Hc; cbn [fst snd conn_store set_conn_store set_clock_reads set_uuid_draws].
  all: rewrite list_lookup_insert_eq by exact Hlt.
  all: cbn [fst snd conn_store set_conn_store set_clock_reads set_uuid_draws].
  all: destruct payload; cbn [py_get fst snd].
  all: eexists; (split; [reflexivity|]).
  all: split; [|split; [reflexivity|]].
  all: try (eexists; split;
            [cbn [conn_store set_conn_store set_clock_reads set_uuid_draws];
             rewrite list_lookup_insert_eq by (rewrite length_insert; exact Hlt);
             reflexivity
            |reflexivity]).
  all: repeat split; intros c'; unfold table_of;
       cbn [conn_store set_conn_store set_clock_reads set_uuid_draws];
       rewrite list_insert_insert_eq;
       (destruct (decide (c' = c)) as [->|Hne];
        [rewrite list_lookup_insert_eq by exact Hlt; now rewrite Hc
        |now rewrite list_lookup_insert_ne by congruence]).
Qed.

End EncodedMessages.

(** ** Sessions: connecting, disconnecting, handshakes *)

Section DictRoundTrip.
Context {K V : Type} `{EqDecision K}.

(** Setting a key that was not bound and popping it gives the
    dictionary back. *)
Lemma pop_set_fresh (k : K) (v : V) (d : list (K * V)) :
  Dict.get k d = None -> Dict.pop k (Dict.set k v d) = d.
Proof.
  induction d as [|[k' v'] d IH]; simpl.
  - intros _. now rewrite decide_True by reflexivity.
  - destruct (decide (k = k')) as [->|Hne]; [discriminate|].
    intros Hn. simpl. rewrite decide_False by exact Hne. now rewrite IH.
Qed.

Lemma pop_absent (k : K) (d : list (K * V)) :
  Dict.get k d = None -> Dict.pop k d = d.
Proof.
  induction d as [|[k' v'] d IH]; simpl; [reflexivity|].
  destruct (decide (k = k')) as [->|Hne]; [discriminate|].
  intros Hn. now rewrite IH.
Qed.

End DictRoundTrip.

Section SessionFacts.
Context `{PyFloat}.

(** What [disconnect] records for a connected device. *)
Lemma disconnect_connected device_id (w : World) c :
  Dict.get device_id (connections w) = Some c ->
  fst (disconnect device_id w) = Return true
  /\ emitted (snd (disconnect device_id w))
     = (emitted w ++ [("disconnected", device_id)])%list
  /\ _heartbeat_task (snd (disconnect device_id w)) = _heartbeat_task w.
Proof.
  intros Hget. unfold disconnect. rewrite Hget.
  unfold bind, modify, try_except, ret, _emit_event, registry_update_status. simpl.
  destruct (conn_store w !! c) as [conn|]; simpl.
  - destruct (DeviceConnection.websocket conn) as [ws|]; simpl.
    + unfold ws_close. simpl. destruct (socket_store w !! ws) as [s|]; simpl.
      * destruct (ws_closed s); simpl;
          destruct (Dict.get device_id (registry_devices w)); repeat split.
      * destruct (Dict.get device_id (registry_devices w)); repeat split.
    + destruct (Dict.get device_id (registry_devices w)); repeat split.
  - destruct (Dict.get device_id (registry_devices w)); repeat split.
Qed.

(** What [connect] records. *)
Lemma connect_records device_id websocket (w : World) :
  emitted (snd (connect device_id websocket w))
  = (emitted w ++ [("connected", device_id)])%list
  /\ _heartbeat_task (snd (connect device_id websocket w)) = true
  /\ exists conn,
       conn_store (snd (connect device_id websocket w)) = (conn_store w ++ [conn])%list
       /\ DeviceConnection.websocket conn = Some websocket.
Proof.
  unfold connect, try_except, bind, time_time, modify, registry_update_status,
    _emit_event, ret. simpl.
  destruct (Dict.get device_id (registry_devices w)); simpl;
    (split; [reflexivity|]; split; [reflexivity|]; eexists; split; reflexivity).
Qed.

(** X6: [connect] for a device that is not connected, followed by
    [disconnect]: both return [True], the connection map is the one
    before [connect], the socket that was handed to [connect] is closed,
    the callbacks for [connected] and then for [disconnected] were
    called for the device, and the heartbeat task that [connect] started
    is still there. *)
Theorem connect_then_disconnect (w : World) device_id websocket s :
  Dict.get device_id (connections w) = None ->
  socket_store w !! websocket = Some s ->
  fst (connect device_id websocket w) = Return true
  /\ fst (disconnect device_id (snd (connect device_id websocket w))) = Return true
  /\ connections (snd (disconnect device_id (snd (connect device_id websocket w))))
     = connections w
  /\ (exists s',
        socket_store (snd (disconnect device_id (snd (connect device_id websocket w))))
          !! websocket = Some s'
        /\ ws_closed s' = true)
  /\ emitted (snd (disconnect device_id (snd (connect device_id websocket w))))
     = (emitted w ++ [("connected", device_id); ("disconnected", device_id)])%list
  /\ _heartbeat_task (snd (disconnect device_id (snd (connect device_id websocket w))))
     = true.
Proof.
  intros Hnone Hs.
  destruct (connect_spec device_id websocket w)
    as (conn_new & Hret & Hconns & Hstore & Hsock & _ & Hws & _).
  destruct (connect_records device_id websocket w) as (Hemit & Htask & _).
  set (w1 := snd (connect device_id websocket w)) in *.
  assert (Hget1 : Dict.get device_id (connections w1) = Some (length (conn_store w))).
  { rewrite Hconns. apply DictFacts.get_set_eq. }
  assert (Hc1 : conn_store w1 !! length (conn_store w) = Some conn_new).
  { rewrite Hstore, lookup_app_r by lia. now rewrite Nat.sub_diag. }
  destruct (disconnect_connected device_id w1 _ Hget1) as (Hret2 & Hemit2 & Htask2).
  destruct (disconnect_effect device_id w1 _ conn_new Hget1 Hc1) as (_ & Hclose & _).
  split; [exact Hret|]. split; [exact Hret2|]. split.
  { destruct (disconnect_connections device_id w1) as [->|[Hn _]]; [|congruence].
    rewrite Hconns. now apply pop_set_fresh. }
  split.
  { apply (Hclose websocket s Hws). now rewrite Hsock. }
  split.
  { rewrite Hemit2, Hemit, <- app_assoc. reflexivity. }
  now rewrite Htask2.
Qed.

(** X7: [disconnect] of a device that is not connected returns [False]
    and changes nothing; so a second [disconnect] of the same device
    always does, and [is_connected] answers [False] after a
    [disconnect], without reading the clock. *)
Theorem disconnect_twice (w : World) device_id :
  (Dict.get device_id (connections w) = None ->
   disconnect device_id w = (Return false, w))
  /\ disconnect device_id (snd (disconnect device_id w))
     = (Return false, snd (disconnect device_id w))
  /\ is_connected device_id (snd (disconnect device_id w))
     = (Return false, snd (disconnect device_id w)).
Proof.
  assert (Hnoop : forall w0 : World,
             Dict.get device_id (connections w0) = None ->
             disconnect device_id w0 = (Return false, w0)).
  { intros w0 Hn. unfold disconnect. now rewrite Hn. }
  split; [apply Hnoop|]. split.
  - apply Hnoop, disconnect_removes.
  - unfold is_connected, lookup_conn. now rewrite disconnect_removes.
Qed.

(** X8: a connected device that sends a JSON object whose [type] is
    [handshake] is answered with an [ack] of action [handshake] whose
    payload names the status [connected] and the device, whatever else
    the object holds and whatever the device registry does with the
    registration.  The handshake is not counted as a received message:
    no connection object, no future and no socket changes. *)
Theorem handshake_is_acknowledged (w : World) device_id c conn message_data kvs :
  lookup_conn device_id w = Some (c, conn) ->
  loads message_data = Return (JObj kvs) ->
  Dict.get "type" kvs = Some (JStr "handshake") ->
  exists reply w',
    handle_message device_id message_data w = (Return (Some reply), w')
    /\ DeviceMessage.type reply = MessageType.ACK
    /\ DeviceMessage.action reply = JStr "handshake"
    /\ DeviceMessage.payload reply
       = JObj [("status", JStr "connected"); ("device_id", JStr device_id)]
    /\ DeviceMessage.message_id reply = JStr (uuid8 w (uuid_draws w))
    /\ DeviceMessage.correlation_id reply = JStr EmptyString
    /\ conn_store w' = conn_store w
    /\ future_store w' = future_store w
    /\ socket_store w' = socket_store w
    /\ connections w' = connections w.
Proof.
  intros Hlook Hloads Htype.
  unfold handle_message. rewrite Hlook.
  unfold handle_message_body. run_glue. rewrite Hloads. simpl py_get.
  rewrite Htype. cbv beta iota.
  change (py_eq_str (JStr "handshake") "handshake") with true. cbv beta iota.
  unfold new_message, uuid4_8, time_time, registry_register. run_glue.
  unfold py_get.
  destruct (Dict.get device_id (registry_devices w)) as [known|]; cbn [fst snd].
  - eexists _, _. split; [reflexivity|]. repeat split.
  - destruct (Dict.get "platform" kvs) as [[]|]; cbv beta iota; cbn [fst snd].
    all: eexists _, _; (split; [reflexivity|]); repeat split.
Qed.


End SessionFacts.

(** X10: the values of the ten message types are pairwise distinct, and
    [MessageType(value)] finds the member of a value: it gives back [m]
    on the value of [m], and whatever it accepts is the value of the
    member it returns. *)
Theorem message_type_of_value (m : MessageType.t) (s : string) :
  MessageType.of_value (MessageType.value m) = Some m
  /\ (MessageType.of_value s = Some m -> s = MessageType.value m)
  /\ (forall m', MessageType.value m = MessageType.value m' -> m = m').
Proof.
  split; [destruct m; reflexivity|]. split.
  - unfold MessageType.of_value. intros Hof. apply find_some in Hof.
    destruct Hof as [_ Heq]. apply String.eqb_eq in Heq. now symmetry.
  - intros m' Heq. destruct m, m'; try reflexivity; discriminate Heq.
Qed.

(** ** The heartbeat loop, broadcast and the queries *)

Section QueryFacts.
Context `{PyFloat}.

Lemma same_calls_refl (w : World) : same_calls w w.
Proof. now split. Qed.

Lemma same_calls_trans (w1 w2 w3 : World) :
  same_calls w1 w2 -> same_calls w2 w3 -> same_calls w1 w3.
Proof.
  intros [Hf1 Ht1] [Hf2 Ht2]. split; [congruence|].
  intros c. now rewrite Ht2, Ht1.
Qed.

Lemma same_core_calls (w w' : World) : same_core w w' -> same_calls w w'.
Proof. intros (Hf & _ & Ht). now split. Qed.

Lemma keeps_core_calls {A} (m : M A) : keeps_core m -> follows same_calls m.
Proof. intros Hm w. apply same_core_calls, Hm. Qed.

Lemma same_calls_disconnect device_id : follows same_calls (disconnect device_id).
Proof.
  intros w. destruct (disconnect_stores device_id w) as [Hf Hc].
  split; [exact Hf|]. intros c. unfold table_of. now rewrite Hc.
Qed.

Lemma same_calls_sweep_body entry : follows same_calls (sweep_body entry).
Proof.
  unfold sweep_body.
  apply follows_bind; [apply same_calls_trans|apply follows_gets, same_calls_refl|].
  intros [conn|]; [|apply follows_ret, same_calls_refl].
  apply follows_bind; [apply same_calls_trans|apply follows_gets, same_calls_refl|].
  intros timeout.
  apply follows_bind;
    [apply same_calls_trans|apply keeps_core_calls, keeps_core_time_time|].
  intros now.
  destruct (negb (DeviceConnection.is_alive now timeout conn)).
  - apply follows_bind; [apply same_calls_trans|apply same_calls_disconnect|].
    intros _. apply follows_ret, same_calls_refl.
  - apply follows_bind;
      [apply same_calls_trans|apply keeps_core_calls, keeps_core_new_message|].
    intros probe.
    apply follows_bind; [apply same_calls_trans|apply keeps_core_calls, keeps_core_send|].
    intros _. apply follows_ret, same_calls_refl.
Qed.

(** X11: a round of the heartbeat loop raises nothing, connects nothing
    and completes nothing: a device that was not in the connection map
    is not in it afterwards, and every future and every correlation
    table is as before, also for the sessions that the round evicts. *)
Theorem sweep_only_evicts (w : World) :
  fst (heartbeat_sweep w) = Return tt
  /\ (forall d, Dict.get d (connections w) = None ->
        Dict.get d (connections (snd (heartbeat_sweep w))) = None)
  /\ same_calls w (snd (heartbeat_sweep w)).
Proof.
  rewrite heartbeat_sweep_loop. cbn [fst snd]. split; [reflexivity|]. split.
  - intros d Hd.
    pose proof (follows_for_each (evolves (fun _ => True))
                  (evolves_refl _) (evolves_trans _) (connections w) sweep_body
                  (fun x _ => evolves_sweep_body (fun _ => True) x I)
                  (set_clock_reads (S (clock_reads w)) w)) as (_ & _ & _ & Hnone & _).
    apply Hnone. exact Hd.
  - apply same_calls_trans with (set_clock_reads (S (clock_reads w)) w);
      [now split|].
    apply (follows_for_each same_calls same_calls_refl same_calls_trans).
    intros x _. apply same_calls_sweep_body.
Qed.

(** *** Broadcast *)

Lemma same_wiring_refl (w : World) : same_wiring w w.
Proof. repeat split. Qed.

Lemma same_wiring_trans (w1 w2 w3 : World) :
  same_wiring w1 w2 -> same_wiring w2 w3 -> same_wiring w1 w3.
Proof.
  intros (A1 & A2 & A3) (B1 & B2 & B3). split; [congruence|]. split.
  - intros c. now rewrite B2, A2.
  - intros ws. now rewrite B3, A3.
Qed.

Lemma deliverable_wiring device_id (w w' : World) :
  same_wiring w w' -> deliverable device_id w' = deliverable device_id w.
Proof.
  intros (Hconns & Hweb & Hsock). unfold deliverable, lookup_conn. rewrite Hconns.
  destruct (Dict.get device_id (connections w)) as [c|]; [|reflexivity].
  specialize (Hweb c).
  destruct (conn_store w' !! c) as [conn'|], (conn_store w !! c) as [conn|];
    simpl in Hweb; try discriminate; [|reflexivity].
  injection Hweb as ->.
  destruct (DeviceConnection.websocket conn) as [ws|]; [|reflexivity].
  specialize (Hsock ws).
  destruct (socket_store w' !! ws) as [s'|], (socket_store w !! ws) as [s|];
    simpl in Hsock; try discriminate; [|reflexivity].
  now injection Hsock as -> ->.
Qed.

(** [send] tells whether the device was deliverable, and leaves the
    wiring as it is. *)
Lemma send_deliverable device_id message (w : World) :
  fst (send device_id message w) = Return (deliverable device_id w)
  /\ same_wiring w (snd (send device_id message w)).
Proof.
  unfold deliverable.
  destruct (lookup_conn device_id w) as [[c conn]|] eqn:Hlook.
  2:{ unfold send. rewrite Hlook. split; [reflexivity|apply same_wiring_refl]. }
  destruct (lookup_conn_inv _ _ _ _ Hlook) as [_ Hc].
  assert (Hlt : c < length (conn_store w)) by now apply lookup_lt_Some in Hc.
  destruct (DeviceConnection.websocket conn) as [ws|] eqn:Hws.
  2:{ unfold send. rewrite Hlook, Hws. split; [reflexivity|apply same_wiring_refl]. }
  assert (Hconn : forall g (w0 : World),
             connections w0 = connections w ->
             socket_store w0 = socket_store w ->
             conn_store w0 = <[c := g conn]> (conn_store w) ->
             DeviceConnection.websocket (g conn) = DeviceConnection.websocket conn ->
             same_wiring w w0).
  { intros g w0 H1 H2 H3 H4. split; [exact H1|]. split.
    - intros c0. rewrite H3. destruct (decide (c0 = c)) as [->|Hne].
      + rewrite list_lookup_insert_eq by exact Hlt. rewrite Hc. simpl. now rewrite H4.
      + now rewrite list_lookup_insert_ne by congruence.
    - intros ws0. now rewrite H2. }
  destruct (socket_store w !! ws) as [s|] eqn:Hs.
  - destruct (ws_closed s || ws_broken s) eqn:Hbad.
    + rewrite (send_refused w device_id message c conn ws s Hlook Hws Hs Hbad).
      split; [reflexivity|]. cbn [snd].
      apply (Hconn DeviceConnection.incr_errors); reflexivity.
    + apply orb_false_iff in Hbad. destruct Hbad as [Hclosed Hbroken].
      destruct (send_written w device_id message c conn ws s Hlook Hws Hs Hclosed Hbroken)
        as (w' & -> & Hsock' & Hconn' & Hconns' & _).
      split; [reflexivity|]. cbn [snd].
      split; [exact Hconns'|]. split.
      * intros c0. rewrite Hconn'. destruct (decide (c0 = c)) as [->|Hne].
        -- rewrite list_lookup_insert_eq by exact Hlt. now rewrite Hc.
        -- now rewrite list_lookup_insert_ne by congruence.
      * intros ws0. rewrite Hsock'. destruct (decide (ws0 = ws)) as [->|Hne].
        -- rewrite list_lookup_insert_eq by now apply lookup_lt_Some in Hs.
           rewrite Hs. simpl. now rewrite Hclosed, Hbroken.
        -- now rewrite list_lookup_insert_ne by congruence.
  - unfold send. rewrite Hlook, Hws.
    unfold try_except, bind, ws_send_text, update_conn, modify, ret.
    rewrite Hs. cbn [fst snd]. rewrite Hc. split; [reflexivity|].
    apply (Hconn DeviceConnection.incr_errors); reflexivity.
Qed.

Lemma broadcast_loop_spec message (w : World) ids :
  forall results (w0 : World),
    same_wiring w w0 ->
    exists results' w',
      broadcast_loop message ids results w0 = (Return results', w')
      /\ same_wiring w w'
      /\ same_core w0 w'
      /\ (forall d, In d ids -> Dict.get d results' = Some (deliverable d w))
      /\ (forall d, ~ In d ids -> Dict.get d results' = Dict.get d results).
Proof.
  induction ids as [|d0 ids IH]; intros results w0 Hw0.
  - exists results, w0. simpl. split; [reflexivity|]. split; [exact Hw0|].
    split; [apply same_core_refl|]. split; [contradiction|reflexivity].
  - simpl. unfold bind.
    destruct (send_deliverable d0 message w0) as [Hres Hwire].
    pose proof (keeps_core_send d0 message w0) as Hcore.
    destruct (send d0 message w0) as [o w1]. cbn [fst snd] in *. subst o.
    rewrite (deliverable_wiring d0 w w0 Hw0).
    destruct (IH (Dict.set d0 (deliverable d0 w) results) w1
                (same_wiring_trans _ _ _ Hw0 Hwire))
      as (results' & w' & Hloop & Hw' & Hcore' & Hin & Hout).
    exists results', w'. split; [exact Hloop|]. split; [exact Hw'|].
    split; [eapply same_core_trans; eassumption|]. split.
    + intros d [->|Hd].
      * destruct (in_dec string_dec d ids) as [Hi|Hn]; [now apply Hin|].
        rewrite Hout by exact Hn. apply DictFacts.get_set_eq.
      * now apply Hin.
    + intros d Hd. rewrite Hout by tauto.
      apply DictFacts.get_set_ne. intros ->. apply Hd. now left.
Qed.

(** X12: [broadcast] raises nothing and reports on exactly the devices
    it was asked for, all the connected ones when none is named: the
    result maps each of them to whether it was deliverable when the
    broadcast began (connected, on a socket that is neither closed nor
    broken), and holds no other key.  The broadcast changes neither the
    connection map nor a future nor a correlation table, and every
    socket is as open and as sound as before. *)
Theorem broadcast_reports (w : World) message device_ids :
  exists results w',
    broadcast message device_ids w = (Return results, w')
    /\ (forall d,
          Dict.get d results
          = if in_dec string_dec d
                 (match device_ids with
                  | Some ids => ids
                  | None => Dict.keys (connections w)
                  end)
            then Some (deliverable d w) else None)
    /\ same_wiring w w'
    /\ same_core w w'.
Proof.
  unfold broadcast, bind.
  set (ids := match device_ids with
              | Some ids => ids
              | None => Dict.keys (connections w)
              end).
  assert (Hids : match device_ids with
                 | Some ids => ret ids
                 | None => gets (fun w : World => Dict.keys (connections w))
                 end w = (Return ids, w)) by (destruct device_ids; reflexivity).
  rewrite Hids.
  destruct (broadcast_loop_spec message w ids [] w (same_wiring_refl w))
    as (results & w' & Hloop & Hw' & Hcore & Hin & Hout).
  exists results, w'. split; [exact Hloop|]. split; [|now split].
  intros d. destruct (in_dec string_dec d ids) as [Hi|Hn]; [now apply Hin|].
  now rewrite Hout.
Qed.

(** *** The list of connected devices *)

Lemma list_alive_spec entries :
  forall w : World,
    exists ids reads,
      list_alive entries w = (Return ids, set_clock_reads (clock_reads w + reads) w)
      /\ sublist ids (Dict.keys entries)
      /\ reads <= length entries.
Proof.
  induction entries as [|[d c] entries IH]; intros w.
  - exists [], 0. simpl. unfold ret. rewrite Nat.add_0_r.
    split; [now destruct w|]. split; [constructor|lia].
  - simpl. unfold bind at 1. unfold gets at 1. cbn [fst snd].
    destruct (conn_store w !! c) as [conn|].
    + unfold bind at 1. unfold gets at 1. cbn [fst snd].
      unfold bind at 1. unfold time_time at 1. cbn [fst snd].
      destruct (IH (set_clock_reads (S (clock_reads w)) w)) as (ids & reads & Hrec & Hsub & Hle).
      unfold bind. rewrite Hrec. unfold ret.
      exists (if DeviceConnection.is_alive (clock w (clock_reads w)) (heartbeat_timeout w) conn
              then d :: ids else ids), (S reads).
      split.
      { f_equal. cbn [clock_reads set_clock_reads].
        replace (clock_reads w + S reads) with (S (clock_reads w) + reads) by lia.
        reflexivity. }
      split; [|simpl; lia].
      destruct (DeviceConnection.is_alive _ _ conn); [now constructor|now constructor].
    + destruct (IH w) as (ids & reads & Hrec & Hsub & Hle).
      exists ids, reads. split; [exact Hrec|]. split; [now constructor|simpl; lia].
Qed.

(** X13: [list_connected_devices] raises nothing and lists connected
    devices only, each at most once per entry of the connection map and
    in the order of the map; it changes nothing but the clock, which it
    reads at most once per connection. *)
Theorem list_connected_devices_lists_connections (w : World) :
  exists ids reads,
    list_connected_devices w = (Return ids, set_clock_reads (clock_reads w + reads) w)
    /\ sublist ids (Dict.keys (connections w))
    /\ reads <= length (connections w).
Proof.
  unfold list_connected_devices, bind, gets. cbn [fst snd]. apply list_alive_spec.
Qed.

End QueryFacts.

(** ** Statistics *)

Section StatsFacts.
Context `{PyFloat}.

(** The sum that [get_stats] takes of a counter, over any list of
    entries and any store. *)
Lemma sum_over_fold (f : DeviceConnection.t -> nat) (w : World) :
  sum_over f w
  = fold_right (fun entry acc =>
                  match conn_store w !! snd entry with
                  | Some conn => f conn + acc
                  | None => acc
                  end) 0 (connections w).
Proof. reflexivity. Qed.

Lemma fold_counter_ext (f : DeviceConnection.t -> nat)
    (store store' : list DeviceConnection.t) (entries : list (string * nat)) :
  (forall d c, In (d, c) entries ->
     option_map f (store' !! c) = option_map f (store !! c)) ->
  fold_right (fun entry acc =>
                match store' !! snd entry with
                | Some conn => f conn + acc
                | None => acc
                end) 0 entries
  = fold_right (fun entry acc =>
                  match store !! snd entry with
                  | Some conn => f conn + acc
                  | None => acc
                  end) 0 entries.
Proof.
  induction entries as [|[d c] entries IH]; intros Hsame; [reflexivity|].
  simpl. rewrite IH by (intros d' c' Hin; apply (Hsame d' c'); now right).
  specialize (Hsame d c (or_introl eq_refl)).
  destruct (store' !! c), (store !! c); simpl in Hsame; congruence.
Qed.

Lemma fold_counter_update (f : DeviceConnection.t -> nat)
    (store : list DeviceConnection.t) (entries : list (string * nat)) d c conn conn' :
  NoDup (Dict.values entries) ->
  In (d, c) entries ->
  store !! c = Some conn ->
  fold_right (fun entry acc =>
                match <[c := conn']> store !! snd entry with
                | Some conn => f conn + acc
                | None => acc
                end) 0 entries + f conn
  = fold_right (fun entry acc =>
                  match store !! snd entry with
                  | Some conn => f conn + acc
                  | None => acc
                  end) 0 entries + f conn'.
Proof.
  intros Hnd Hin Hc.
  assert (Hlt : c < length store) by now apply lookup_lt_Some in Hc.
  induction entries as [|[d0 c0] entries IH]; [contradiction|].
  simpl in Hnd. apply NoDup_cons in Hnd. destruct Hnd as [Hnot Hnd].
  rewrite list_elem_of_In in Hnot. simpl.
  destruct (decide (c0 = c)) as [->|Hne].
  - rewrite list_lookup_insert_eq by exact Hlt. rewrite Hc.
    rewrite (fold_counter_ext f store (<[c := conn']> store) entries).
    + lia.
    + intros d' c' Hin'. rewrite list_lookup_insert_ne; [reflexivity|].
      intros <-. apply Hnot. unfold Dict.values.
      change c with (snd (d', c)). now apply in_map.
  - rewrite list_lookup_insert_ne by congruence.
    destruct Hin as [Heq|Hin]; [congruence|].
    specialize (IH Hnd Hin). destruct (store !! c0); lia.
Qed.

(** X14: after [connect] of a device that was not connected,
    [get_stats] counts one more connected device and the same four
    totals: the new connection starts with its counters at zero. *)
Theorem stats_after_connect (w : World) device_id websocket :
  Dict.get device_id (connections w) = None ->
  (forall d c, In (d, c) (connections w) -> c < length (conn_store w)) ->
  get_stats (snd (connect device_id websocket w))
  = {| connected_devices := S (connected_devices (get_stats w));
       total_messages_sent := total_messages_sent (get_stats w);
       total_messages_received := total_messages_received (get_stats w);
       total_commands := total_commands (get_stats w);
       total_errors := total_errors (get_stats w) |}.
Proof.
  intros Hnone Hrefs.
  destruct (connect_spec device_id websocket w)
    as (conn_new & _ & Hconns & Hstore & _ & _ & _ & Hs & Hr & Hc & He & _).
  set (w1 := snd (connect device_id websocket w)) in *.
  assert (Happ : connections w1
                 = (connections w ++ [(device_id, length (conn_store w))])%list).
  { rewrite Hconns. apply DictFacts.set_fresh. now apply DictFacts.get_None_not_in. }
  assert (Hsum : forall f, f conn_new = 0 -> sum_over f w1 = sum_over f w).
  { intros f Hzero. rewrite !sum_over_fold, Happ, Hstore, fold_right_app. simpl.
    rewrite lookup_app_r by lia. rewrite Nat.sub_diag. simpl. rewrite Hzero. simpl.
    apply fold_counter_ext. intros d c Hin.
    now rewrite lookup_app_l by exact (Hrefs d c Hin). }
  unfold get_stats. cbn [connected_devices total_messages_sent total_messages_received
                        total_commands total_errors].
  rewrite !Hsum by assumption. f_equal.
  rewrite Happ, length_app. simpl. lia.
Qed.

(** X15: a message that [send] delivers is counted once: afterwards
    [get_stats] shows one more sent message and everything else as
    before. *)
Theorem stats_after_send (w : World) device_id message c conn ws s :
  well_wired w ->
  lookup_conn device_id w = Some (c, conn) ->
  DeviceConnection.websocket conn = Some ws ->
  socket_store w !! ws = Some s ->
  ws_closed s = false ->
  ws_broken s = false ->
  fst (send device_id message w) = Return true
  /\ get_stats (snd (send device_id message w))
     = {| connected_devices := connected_devices (get_stats w);
          total_messages_sent := S (total_messages_sent (get_stats w));
          total_messages_received := total_messages_received (get_stats w);
          total_commands := total_commands (get_stats w);
          total_errors := total_errors (get_stats w) |}.
Proof.
  intros [Hnd Hrefs] Hlook Hws Hs Hclosed Hbroken.
  destruct (lookup_conn_inv _ _ _ _ Hlook) as [Hget Hc].
  destruct (send_written w device_id message c conn ws s Hlook Hws Hs Hclosed Hbroken)
    as (w' & -> & _ & Hstore & Hconns & _).
  cbn [fst snd]. split; [reflexivity|].
  assert (Hsame : forall f,
             f (DeviceConnection.set_last_message (clock w (clock_reads w))
                  (DeviceConnection.incr_messages_sent conn)) = f conn ->
             sum_over f w' = sum_over f w).
  { intros f Hf. rewrite !sum_over_fold, Hconns, Hstore.
    apply fold_counter_ext. intros d0 c0 _.
    destruct (decide (c0 = c)) as [->|Hne].
    - rewrite list_lookup_insert_eq by now apply lookup_lt_Some in Hc.
      rewrite Hc. simpl. now rewrite Hf.
    - now rewrite list_lookup_insert_ne by congruence. }
  unfold get_stats. cbn [connected_devices total_messages_sent total_messages_received
                        total_commands total_errors].
  rewrite Hconns.
  rewrite (Hsame DeviceConnection.messages_received eq_refl).
  rewrite (Hsame DeviceConnection.commands_executed eq_refl).
  rewrite (Hsame DeviceConnection.errors eq_refl). f_equal.
  pose proof (fold_counter_update DeviceConnection.messages_sent (conn_store w)
                (connections w) device_id c conn
                (DeviceConnection.set_last_message (clock w (clock_reads w))
                   (DeviceConnection.incr_messages_sent conn))
                Hnd (DictFacts.get_Some_In _ _ _ Hget) Hc) as Hupd.
  rewrite !sum_over_fold, Hconns, Hstore. simpl in Hupd. lia.
Qed.

End StatsFacts.

(** ** The MCP loader: lifecycle and calls *)

Section LoaderLifecycle.
Context `{PyFloat}.

(** [stop] on a registered server. *)
Lemma stop_registered server_id (l : Loader) server :
  Dict.get server_id (servers l) = Some server ->
  exists l',
    stop server_id l = (Return true, l')
    /\ Dict.get server_id (servers l')
       = Some (set_status MCPServerStatus.STOPPED (set_process None server))
    /\ (forall other, other <> server_id ->
          Dict.get other (servers l') = Dict.get other (servers l))
    /\ _request_id l' = _request_id l
    /\ process_store l'
       = match process server with
         | Some p =>
             match process_store l !! p with
             | Some pr => <[p := process_stop pr]> (process_store l)
             | None => process_store l
             end
         | None => process_store l
         end.
Proof.
  intros Hget. unfold stop. rewrite Hget.
  destruct (process server) as [p|] eqn:Hproc.
  - unfold bind at 1. unfold bind at 1. unfold modify at 1. cbn [fst snd].
    erewrite update_server_stored.
    2:{ destruct (process_store l !! p); exact Hget. }
    cbn [fst snd]. unfold bind at 1.
    erewrite update_server_stored.
    2:{ destruct (process_store l !! p); cbn [servers set_servers set_process_store];
        apply DictFacts.get_set_eq. }
    cbn [fst snd ret]. eexists. split; [reflexivity|].
    destruct (process_store l !! p) as [pr|];
      cbn [servers set_servers set_process_store process_store _request_id].
    all: split; [apply DictFacts.get_set_eq|].
    all: split; [intros other Hne; now rewrite !DictFacts.get_set_ne by congruence|].
    all: split; reflexivity.
  - unfold bind at 1. unfold bind at 1. unfold ret at 1. cbn [fst snd].
    erewrite update_server_stored by exact Hget.
    cbn [fst snd ret]. eexists. split; [reflexivity|].
    cbn [servers set_servers process_store _request_id].
    split.
    { rewrite DictFacts.get_set_eq. do 2 f_equal. destruct server.
      cbn in Hproc. subst. reflexivity. }
    split; [intros other Hne; now rewrite DictFacts.get_set_ne by congruence|].
    split; reflexivity.
Qed.

(** A process that was stopped has exited. *)
Lemma process_stop_exited (pr : Process) : returncode (process_stop pr) <> None.
Proof.
  unfold process_stop. destruct (returncode pr) eqn:Hr; [now rewrite Hr|].
  destruct (exits_on_terminate pr); discriminate.
Qed.

(** X16: [unload] of a registered server stops it and removes it: the
    result is the success with the id and the name of the server, the
    id is no longer in the table of servers, the other servers are as
    they were, and the process of the server, if it had one, has exited.
    [unload] of an id that is not registered returns the error
    [服务器不存在] and changes nothing. *)
Theorem unload_removes_server (l : Loader) server_id :
  match Dict.get server_id (servers l) with
  | Some server =>
      exists l',
        unload server_id l
        = (Return (JObj [("success", JBool true); ("server_id", JStr server_id);
                         ("name", JStr (name server))]), l')
        /\ Dict.get server_id (servers l') = None
        /\ (forall other, other <> server_id ->
              Dict.get other (servers l') = Dict.get other (servers l))
        /\ (forall p pr, process server = Some p -> process_store l !! p = Some pr ->
              exists pr', process_store l' !! p = Some pr' /\ returncode pr' <> None)
  | None => unload server_id l = (Return (failure "服务器不存在"), l)
  end.
Proof.
  destruct (Dict.get server_id (servers l)) as [server|] eqn:Hget.
  - destruct (stop_registered server_id l server Hget)
      as (l1 & Hstop & _ & Hother & _ & Hstore).
    eexists. split.
    { unfold unload. rewrite Hget. unfold bind at 1. rewrite Hstop. cbn [fst snd].
      unfold bind, modify, ret. cbn [fst snd]. reflexivity. }
    cbn [servers set_servers process_store].
    split; [apply DictFacts.get_pop_eq|]. split.
    + intros other Hne. rewrite DictFacts.get_pop_ne by congruence. now apply Hother.
    + intros p pr Hp Hpr. rewrite Hstore, Hp, Hpr.
      rewrite list_lookup_insert_eq by now apply lookup_lt_Some in Hpr.
      eexists. split; [reflexivity|apply process_stop_exited].
  - unfold unload. now rewrite Hget.
Qed.

(** X17: [call_tool] asks before it sends: for an id that is not
    registered it returns the error [服务器不存在], for a server whose
    status is not [running] the error [服务器未运行]; in both cases
    nothing is written to any process and no request id is used.  So
    it answers after [stop], which leaves the status [stopped]. *)
Theorem call_tool_requires_running (l : Loader) server_id tool arguments :
  (Dict.get server_id (servers l) = None ->
   call_tool server_id tool arguments l = (Return (failure "服务器不存在"), l))
  /\ (forall server,
        Dict.get server_id (servers l) = Some server ->
        status server <> MCPServerStatus.RUNNING ->
        call_tool server_id tool arguments l = (Return (failure "服务器未运行"), l))
  /\ (forall server,
        Dict.get server_id (servers l) = Some server ->
        call_tool server_id tool arguments (snd (stop server_id l))
        = (Return (failure "服务器未运行"), snd (stop server_id l))).
Proof.
  assert (Hcheck : forall (l0 : Loader) server,
             Dict.get server_id (servers l0) = Some server ->
             status server <> MCPServerStatus.RUNNING ->
             call_tool server_id tool arguments l0 = (Return (failure "服务器未运行"), l0)).
  { intros l0 server Hget Hst. unfold call_tool. rewrite Hget.
    now rewrite decide_False by exact Hst. }
  split; [|split].
  - intros Hget. unfold call_tool. now rewrite Hget.
  - apply Hcheck.
  - intros server Hget.
    destruct (stop_registered server_id l server Hget) as (l1 & Hstop & Hget1 & _).
    rewrite Hstop. cbn [snd]. apply (Hcheck l1 _ Hget1). discriminate.
Qed.


(** X18: [_send_request] gives [None] without a trace when the server is
    not registered or has no process: no id is used and nothing is
    written.  When the stdin of the process is broken the result is
    [None] too, but the request has used an id: the counter has
    advanced although nothing was written. *)
Theorem send_request_unavailable (l : Loader) server_id method params :
  (Dict.get server_id (servers l) = None ->
   _send_request server_id method params l = (Return None, l))
  /\ (forall server,
        Dict.get server_id (servers l) = Some server ->
        process server = None ->
        _send_request server_id method params l = (Return None, l))
  /\ (forall server p pr,
        Dict.get server_id (servers l) = Some server ->
        process server = Some p ->
        process_store l !! p = Some pr ->
        stdin_broken pr = true ->
        _send_request server_id method params l
        = (Return None, set_request_id (_request_id l + 1) l)).
Proof.
  split; [|split].
  - intros Hget. unfold _send_request. now rewrite Hget.
  - intros server Hget Hproc. unfold _send_request. now rewrite Hget, Hproc.
  - intros server p pr Hget Hproc Hpr Hbroken.
    rewrite (send_request_live _ _ _ _ _ _ Hget Hproc).
    unfold exchange, try_except, bind, write_line, ret.
    cbn [process_store set_request_id]. rewrite Hpr.
    unfold process_write. now rewrite Hbroken.
Qed.

(** [_send_request] on a server whose process takes the write. *)
Lemma send_request_answer server_id method params (l : Loader) server p pr :
  Dict.get server_id (servers l) = Some server ->
  process server = Some p ->
  process_store l !! p = Some pr ->
  stdin_broken pr = false ->
  exists l',
    _send_request server_id method params l
    = (Return (decode_response_line (hd EmptyString (stdout_lines pr))), l')
    /\ _request_id l' = (_request_id l + 1)%Z
    /\ servers l' = servers l
    /\ written_to p l'
       = (stdin_written pr ++ [request_line (_request_id l + 1) method params])%list.
Proof.
  intros Hget Hproc Hpr Hbroken.
  rewrite (send_request_live _ _ _ _ _ _ Hget Hproc).
  set (request := {| req_jsonrpc := "2.0"; req_id := Some (_request_id l + 1)%Z;
                     req_method := method;
                     req_params := match params with
                                   | Some v => if py_truthy v then v else JObj []
                                   | None => JObj []
                                   end |}).
  set (l1 := set_request_id (_request_id l + 1) l).
  destruct (exchange_frame p request l1) as [Hid Hservers].
  destruct (exchange_live p request l1 pr Hpr Hbroken) as (Hres & pr' & Hpr' & Hin & _).
  destruct (exchange p request l1) as [o l']. cbn [fst snd] in *. subst o.
  exists l'. split; [reflexivity|]. split; [exact Hid|]. split; [exact Hservers|].
  unfold written_to. rewrite Hpr'. exact Hin.
Qed.



End LoaderLifecycle.

(** ** The MCP loader: the ways [load] ends *)

Section LoaderStart.
Context `{PyFloat}.

(** The state in which [load] calls [start]: the new server registered
    under the id drawn. *)
Lemma load_before_start name line extra env cwd auto_start (l : Loader) :
  exists server0 l0,
    load name line extra env cwd auto_start l
    = (started <- (if auto_start then start (loader_uuid8 l (loader_uuid_draws l))
                   else ret true) ;;
       server <- gets (fun l1 =>
                   match Dict.get (loader_uuid8 l (loader_uuid_draws l)) (servers l1) with
                   | Some s => s
                   | None => server0
                   end) ;;
       if started then
         ret (JObj [("success", JBool true);
                    ("server_id", JStr (loader_uuid8 l (loader_uuid_draws l)));
                    ("name", JStr name);
                    ("status", JStr (MCPServerStatus.value (status server)))])
       else
         ret (JObj [("success", JBool false);
                    ("error", match error server with Some e => JStr e | None => JNull end);
                    ("server_id", JStr (loader_uuid8 l (loader_uuid_draws l)))])) l0
    /\ server0
       = {| id := loader_uuid8 l (loader_uuid_draws l); name := name;
            command := match line with
                       | CommandStr s => str_split s
                       | CommandList c => c
                       end;
            args := match extra with Some a => a | None => [] end;
            env := match env with Some e => e | None => [] end;
            cwd := cwd; status := MCPServerStatus.STOPPED; process := None;
            error := None; tools := []; resources := []; prompts := [];
            server_info := JObj []; capabilities := JObj [];
            created_at := loader_clock l (loader_clock_reads l) |}
    /\ servers l0 = Dict.set (loader_uuid8 l (loader_uuid_draws l)) server0 (servers l)
    /\ process_store l0 = process_store l
    /\ _request_id l0 = _request_id l
    /\ popen l0 = popen l
    /\ exn_text l0 = exn_text l.
Proof.
  eexists. eexists. split.
  { unfold load. unfold bind at 1. cbn [fst snd].
    unfold bind at 1. cbn [fst snd].
    unfold bind at 1. unfold modify at 1. cbn [fst snd]. reflexivity. }
  repeat split.
Qed.

(** X21: [load] with [auto_start=False] starts nothing: it returns the
    success with the status [stopped], no process is spawned and no
    request is sent; the server is registered under the id returned,
    with the command split into words, and [get_server] shows it. *)
Theorem load_without_start (l : Loader) name line extra env cwd :
  exists l' server,
    load name line extra env cwd false l
    = (Return (JObj [("success", JBool true);
                     ("server_id", JStr (loader_uuid8 l (loader_uuid_draws l)));
                     ("name", JStr name); ("status", JStr "stopped")]), l')
    /\ process_store l' = process_store l
    /\ _request_id l' = _request_id l
    /\ Dict.get (loader_uuid8 l (loader_uuid_draws l)) (servers l') = Some server
    /\ get_server (loader_uuid8 l (loader_uuid_draws l)) l'
       = Some (MCPServerInstance_to_dict server)
    /\ status server = MCPServerStatus.STOPPED
    /\ process server = None
    /\ (command server ++ args server)%list = full_command line extra
    /\ forall other, other <> loader_uuid8 l (loader_uuid_draws l) ->
         Dict.get other (servers l') = Dict.get other (servers l).
Proof.
  destruct (load_before_start name line extra env cwd false l)
    as (server0 & l0 & Hload & Hs0 & Hservers & Hstore & Hid & _).
  assert (Hget : Dict.get (loader_uuid8 l (loader_uuid_draws l)) (servers l0) = Some server0).
  { rewrite Hservers. apply DictFacts.get_set_eq. }
  exists l0, server0. split.
  { rewrite Hload. unfold bind, gets, ret. cbn [fst snd]. rewrite Hget.
    rewrite Hs0. reflexivity. }
  split; [exact Hstore|]. split; [exact Hid|]. split; [exact Hget|].
  split; [unfold get_server; now rewrite Hget|].
  rewrite Hs0. cbn. repeat split.
  intros other Hne. rewrite Hservers. now apply DictFacts.get_set_ne.
Qed.

(** [start] when [subprocess.Popen] raises. *)
Lemma start_raised server_id (l : Loader) server e :
  Dict.get server_id (servers l) = Some server ->
  popen l (command server ++ args server)%list = Raise e ->
  exists l',
    start server_id l = (Return false, l')
    /\ Dict.get server_id (servers l')
       = Some (set_error (Some (exn_text l e))
                 (set_status MCPServerStatus.ERROR
                    (set_status MCPServerStatus.STARTING server)))
    /\ process_store l' = process_store l
    /\ _request_id l' = _request_id l.
Proof.
  intros Hget Hpopen. eexists. split.
  { unfold start. rewrite Hget.
    unfold try_except. unfold bind at 1.
    rewrite (update_server_stored _ _ _ _ Hget). cbn [fst snd].
    unfold bind at 1. cbn [popen set_servers fst snd]. rewrite Hpopen.
    unfold bind at 1.
    erewrite update_server_stored
      by (cbn [servers set_servers]; apply DictFacts.get_set_eq).
    cbn [fst snd]. unfold bind at 1. unfold gets at 1. cbn [fst snd].
    unfold bind at 1.
    erewrite update_server_stored
      by (cbn [servers set_servers]; apply DictFacts.get_set_eq).
    cbn [fst snd ret exn_text set_servers]. reflexivity. }
  cbn [servers set_servers process_store _request_id].
  split; [apply DictFacts.get_set_eq|]. split; reflexivity.
Qed.

(** X22: when [subprocess.Popen] raises for the command of [load] (the
    program is not found, say), [load] raises nothing and returns the
    failure with the text of the exception as its error.  The server
    stays in the table under the id returned, with the status [error],
    that text as its error and no process; no process was spawned. *)
Theorem load_command_not_found (l : Loader) name line extra env cwd e :
  popen l (full_command line extra) = Raise e ->
  exists l' server,
    load name line extra env cwd true l
    = (Return (JObj [("success", JBool false);
                     ("error", JStr (exn_text l e));
                     ("server_id", JStr (loader_uuid8 l (loader_uuid_draws l)))]), l')
    /\ Dict.get (loader_uuid8 l (loader_uuid_draws l)) (servers l') = Some server
    /\ status server = MCPServerStatus.ERROR
    /\ error server = Some (exn_text l e)
    /\ process server = None
    /\ process_store l' = process_store l.
Proof.
  intros Hpopen.
  destruct (load_before_start name line extra env cwd true l)
    as (server0 & l0 & Hload & Hs0 & Hservers & Hstore & Hid & Hp & Hx).
  assert (Hget : Dict.get (loader_uuid8 l (loader_uuid_draws l)) (servers l0) = Some server0).
  { rewrite Hservers. apply DictFacts.get_set_eq. }
  assert (Hpopen0 : popen l0 (command server0 ++ args server0)%list
                    = Raise e).
  { rewrite Hp, Hs0. exact Hpopen. }
  destruct (start_raised _ l0 server0 e Hget Hpopen0) as (l' & Hstart & Hserver & Hstore' & _).
  exists l'. eexists. split; [|split; [exact Hserver|]].
  - rewrite Hload. unfold bind at 1. rewrite Hstart. cbn [fst snd].
    unfold bind, gets, ret. cbn [fst snd]. rewrite Hserver. cbn [error set_error].
    now rewrite Hx.
  - rewrite Hs0, Hx. cbn. repeat split. congruence.
Qed.




End LoaderStart.

(** ** The MCP loader: the tools of a server *)

Section ToolFacts.
Context `{PyFloat}.

(** The comprehension of [_refresh_tools] over a list of dictionaries. *)
Lemma tools_from_dicts (memberss : list (list (string * json))) :
  exists values,
    map_outcome MCPTool_from_dict (map JObj memberss) = Return values
    /\ map (fun t => JObj [("name", tool_name t);
                           ("description", tool_description t);
                           ("inputSchema", tool_inputSchema t)]) values
       = map advertised_tool memberss.
Proof.
  induction memberss as [|members memberss (values & Hmap & Hshow)].
  - exists []. now split.
  - eexists. simpl. rewrite Hmap. split; [reflexivity|].
    simpl. now rewrite Hshow.
Qed.

(** X24: when the server answers [tools/list] with a result whose
    [tools] is a list of dictionaries, [_refresh_tools] stores them and
    [list_tools] shows one entry per dictionary, in the order of the
    answer: its [name], [description] and [inputSchema], with an empty
    string or an empty dict for a member that is missing.  A result
    without [tools] empties the list. *)
Theorem refreshed_tools_are_listed (l : Loader) server_id server p pr r memberss :
  Dict.get server_id (servers l) = Some server ->
  process server = Some p ->
  process_store l !! p = Some pr ->
  stdin_broken pr = false ->
  decode_response_line (hd EmptyString (stdout_lines pr)) = Some r ->
  py_truthy (resp_result r) = true ->
  py_get (resp_result r) "tools" (JArr []) = Return (JArr (map JObj memberss)) ->
  exists l',
    _refresh_tools server_id l = (Return tt, l')
    /\ list_tools server_id l' = map advertised_tool memberss
    /\ list_resources server_id l' = list_resources server_id l
    /\ list_prompts server_id l' = list_prompts server_id l
    /\ _request_id l' = (_request_id l + 1)%Z.
Proof.
  intros Hget Hproc Hpr Hbroken Hline Htruthy Htools.
  destruct (send_request_answer server_id "tools/list" (Some (JObj []))
              l server p pr Hget Hproc Hpr Hbroken)
    as (l1 & Hreq & Hid & Hservers & _).
  destruct (tools_from_dicts memberss) as (values & Hmap & Hshow).
  assert (Hget1 : Dict.get server_id (servers l1) = Some server) by now rewrite Hservers.
  eexists. split.
  { unfold _refresh_tools, refresh. unfold bind at 1. rewrite Hreq, Hline.
    cbn [fst snd]. rewrite Htruthy.
    unfold bind, lift. rewrite Htools. cbn [py_iter fst snd]. rewrite Hmap.
    cbn [fst snd]. rewrite (update_server_stored _ _ _ _ Hget1). reflexivity. }
  unfold list_tools, list_resources, list_prompts.
  cbn [servers set_servers _request_id]. rewrite !DictFacts.get_set_eq, Hget.
  cbn [tools resources prompts set_tools]. repeat split; assumption.
Qed.


End ToolFacts.

(** ** The MCP loader: the initialization of a server *)

Section InitializeFacts.
Context `{PyFloat}.

(** One request to a process that takes the write. *)
Lemma request_step (l : Loader) server_id server p pr n method params :
  loader_at l server_id server p pr n ->
  stdin_broken pr = false ->
  exists l',
    _send_request server_id method params l
    = (Return (decode_response_line (hd EmptyString (stdout_lines pr))), l')
    /\ loader_at l' server_id server p
         (exchanged (request_line (n + 1) method params) pr) (n + 1)%Z
    /\ exn_text l' = exn_text l.
Proof.
  intros (Hget & Hproc & Hpr & Hn) Hbroken. subst n.
  assert (Hlt : p < length (process_store l)) by now apply lookup_lt_Some in Hpr.
  rewrite (send_request_live _ _ _ _ _ _ Hget Hproc).
  unfold exchange, try_except, bind, write_line, read_line, lift, ret.
  cbn [process_store set_request_id]. rewrite Hpr.
  unfold process_write. rewrite Hbroken. cbn [fst snd].
  cbn [process_store set_process_store].
  rewrite list_lookup_insert_eq by exact Hlt.
  unfold process_readline. cbn [stdout_lines set_stdin_written].
  unfold loader_at, exchanged, request_line.
  destruct (stdout_lines pr) as [|line rest] eqn:Hlines.
  - cbn [fst snd hd tl decode_response_line].
    eexists. split; [reflexivity|]. split; [|reflexivity].
    cbn [servers process_store _request_id set_process_store set_request_id].
    rewrite list_insert_insert_eq, list_lookup_insert_eq by exact Hlt.
    repeat split; try assumption.
    f_equal. unfold set_stdout_lines, set_stdin_written. cbn. now rewrite Hlines.
  - cbn [hd tl]. unfold decode_response_line. destruct line as [|ch line].
    + cbn [fst snd]. eexists. split; [reflexivity|]. split; [|reflexivity].
      cbn [servers process_store _request_id set_process_store set_request_id].
      rewrite list_insert_insert_eq, list_lookup_insert_eq by exact Hlt.
      repeat split; assumption.
    + destruct (MCPResponse_from_json (String ch line)) as [r|e]; cbn [fst snd].
      all: eexists; (split; [reflexivity|]); (split; [|reflexivity]).
      all: cbn [servers process_store _request_id set_process_store set_request_id].
      all: rewrite list_insert_insert_eq, list_lookup_insert_eq by exact Hlt.
      all: repeat split; assumption.
Qed.

(** An assignment on the server that leaves its process. *)
Lemma update_step (l : Loader) server_id server p pr n f :
  loader_at l server_id server p pr n ->
  process (f server) = process server ->
  exists l',
    update_server server_id f l = (Return tt, l')
    /\ loader_at l' server_id (f server) p pr n
    /\ exn_text l' = exn_text l.
Proof.
  intros (Hget & Hproc & Hpr & Hn) Hf.
  rewrite (update_server_stored _ _ _ _ Hget). eexists. split; [reflexivity|].
  split; [|reflexivity]. unfold loader_at. cbn [servers process_store _request_id set_servers].
  rewrite DictFacts.get_set_eq. repeat split; congruence.
Qed.

(** One notification to a process that takes the write. *)
Lemma notification_step (l : Loader) server_id server p pr n method :
  loader_at l server_id server p pr n ->
  stdin_broken pr = false ->
  exists l',
    _send_notification server_id method l = (Return tt, l')
    /\ loader_at l' server_id server p
         (set_stdin_written (stdin_written pr ++ [notification_line method])%list pr) n
    /\ exn_text l' = exn_text l.
Proof.
  intros (Hget & Hproc & Hpr & Hn) Hbroken.
  assert (Hlt : p < length (process_store l)) by now apply lookup_lt_Some in Hpr.
  unfold _send_notification. rewrite Hget, Hproc.
  unfold write_line. rewrite Hpr. unfold process_write. rewrite Hbroken.
  eexists. split; [reflexivity|]. split; [|reflexivity].
  unfold loader_at. cbn [servers process_store _request_id set_process_store].
  rewrite list_lookup_insert_eq by exact Hlt. repeat split; assumption.
Qed.


(** A refresh whose answer holds an entry that is no dict raises out of
    the list comprehension, after the request was written. *)
Lemma refresh_raises {A} (l : Loader) server_id server p pr n method key
    (from_dict : json -> outcome A) store r listed items e :
  loader_at l server_id server p pr n ->
  stdin_broken pr = false ->
  decode_response_line (hd EmptyString (stdout_lines pr)) = Some r ->
  py_truthy (resp_result r) = true ->
  py_get (resp_result r) key (JArr []) = Return listed ->
  py_iter listed = Return items ->
  map_outcome from_dict items = Raise e ->
  exists l',
    refresh server_id method key from_dict store l = (Raise e, l')
    /\ loader_at l' server_id server p
         (exchanged (request_line (n + 1) method (Some (JObj []))) pr) (n + 1)%Z
    /\ exn_text l' = exn_text l.
Proof.
  intros Hat Hbroken Hdecode Htruthy Hget Hiter Hmap.
  destruct (request_step l server_id server p pr n method (Some (JObj [])) Hat Hbroken)
    as (l' & Hreq & Hat' & Hx).
  exists l'. split; [|split; [exact Hat'|exact Hx]].
  unfold refresh, bind. rewrite Hreq, Hdecode, Htruthy.
  unfold lift. rewrite Hget, Hiter, Hmap. reflexivity.
Qed.

(** [_initialize] when the answer to [tools/list] holds an entry that is
    no dict. *)
Lemma initialize_raises (l : Loader) server_id server p pr n line0 line1 rest
    r0 info caps r1 listed items e :
  loader_at l server_id server p pr n ->
  stdin_broken pr = false ->
  stdout_lines pr = line0 :: line1 :: rest ->
  decode_response_line line0 = Some r0 ->
  py_truthy (resp_result r0) = true ->
  py_get (resp_result r0) "serverInfo" (JObj []) = Return info ->
  py_get (resp_result r0) "capabilities" (JObj []) = Return caps ->
  decode_response_line line1 = Some r1 ->
  py_truthy (resp_result r1) = true ->
  py_get (resp_result r1) "tools" (JArr []) = Return listed ->
  py_iter listed = Return items ->
  map_outcome MCPTool_from_dict items = Raise e ->
  exists l' pr',
    _initialize server_id l = (Raise e, l')
    /\ loader_at l' server_id (set_server_info info caps server) p pr' (n + 2)%Z
    /\ returncode pr' = returncode pr
    /\ exn_text l' = exn_text l.
Proof.
  intros Hat Hbroken Hlines Hdec0 Htruthy0 Hinfo Hcaps Hdec1 Htruthy1 Hget Hiter Hmap.
  destruct (request_step l server_id server p pr n "initialize"
              (Some initialize_params) Hat Hbroken) as (l1 & Hreq & Hat1 & Hx1).
  rewrite Hlines in Hreq. cbn [hd] in Hreq. rewrite Hdec0 in Hreq.
  destruct (update_step l1 server_id server p _ _
              (fun s => set_server_info info (capabilities s) s) Hat1 eq_refl)
    as (l2 & Hup1 & Hat2 & Hx2).
  destruct (update_step l2 server_id _ p _ _
              (fun s => set_server_info (server_info s) caps s) Hat2 eq_refl)
    as (l3 & Hup2 & Hat3 & Hx3).
  destruct (notification_step l3 server_id _ p _ _ "notifications/initialized"
              Hat3 Hbroken) as (l4 & Hnote & Hat4 & Hx4).
  destruct (refresh_raises l4 server_id _ p _ _ "tools/list" "tools"
              MCPTool_from_dict set_tools r1 listed items e Hat4 Hbroken)
    as (l5 & Htools & Hat5 & Hx5); try assumption.
  { cbn [exchanged stdout_lines set_stdout_lines set_stdin_written].
    rewrite Hlines. exact Hdec1. }
  eexists l5, _. split; [|split; [|split]].
  - unfold _initialize, bind. fold initialize_params. rewrite Hreq, Htruthy0.
    unfold lift. rewrite Hinfo, Hup1, Hcaps, Hup2, Hnote.
    unfold _refresh_tools. rewrite Htools. reflexivity.
  - replace (n + 2)%Z with (n + 1 + 1)%Z by lia. exact Hat5.
  - reflexivity.
  - congruence.
Qed.


(** [start] when the answer to [tools/list] holds an entry that is no
    dict. *)
Lemma start_tools_malformed (l : Loader) server_id server spawned line0 line1 rest
    r0 info caps r1 listed items e :
  Dict.get server_id (servers l) = Some server ->
  popen l (command server ++ args server)%list = Return spawned ->
  returncode spawned = None ->
  stdin_broken spawned = false ->
  stdout_lines spawned = line0 :: line1 :: rest ->
  decode_response_line line0 = Some r0 ->
  py_truthy (resp_result r0) = true ->
  py_get (resp_result r0) "serverInfo" (JObj []) = Return info ->
  py_get (resp_result r0) "capabilities" (JObj []) = Return caps ->
  decode_response_line line1 = Some r1 ->
  py_truthy (resp_result r1) = true ->
  py_get (resp_result r1) "tools" (JArr []) = Return listed ->
  py_iter listed = Return items ->
  map_outcome MCPTool_from_dict items = Raise e ->
  exists l' pr',
    start server_id l = (Return false, l')
    /\ Dict.get server_id (servers l')
       = Some (set_error (Some (exn_text l e))
                 (set_status MCPServerStatus.ERROR
                    (set_server_info info caps
                       (set_process (Some (length (process_store l)))
                          (set_status MCPServerStatus.STARTING server)))))
    /\ process_store l' !! length (process_store l) = Some pr'
    /\ returncode pr' = None
    /\ _request_id l' = (_request_id l + 2)%Z.
Proof.
  intros Hget Hpopen Hcode Hbroken Hlines Hdec0 Htruthy0 Hinfo Hcaps
    Hdec1 Htruthy1 Htools Hiter Hmap.
  destruct (start server_id l) as [o l'] eqn:Hstart.
  unfold start in Hstart. rewrite Hget in Hstart.
  unfold try_except in Hstart. unfold bind at 1 in Hstart.
  rewrite (update_server_stored _ _ _ _ Hget) in Hstart. cbn [fst snd] in Hstart.
  unfold bind at 1 in Hstart. cbn [popen set_servers fst snd] in Hstart.
  rewrite Hpopen in Hstart.
  unfold bind at 1 in Hstart. cbn [fst snd process_store set_servers] in Hstart.
  unfold bind at 1 in Hstart.
  erewrite update_server_stored in Hstart
    by (cbn [servers set_process_store set_servers]; apply DictFacts.get_set_eq).
  cbn [fst snd] in Hstart. rewrite Hcode in Hstart.
  unfold bind at 1 in Hstart.
  lazymatch type of Hstart with
  | context [_initialize server_id ?l3] =>
      destruct (initialize_raises l3 server_id
                  (set_process (Some (length (process_store l)))
                     (set_status MCPServerStatus.STARTING server))
                  (length (process_store l)) spawned (_request_id l)
                  line0 line1 rest r0 info caps r1 listed items e)
        as (l5 & pr' & Hinit & Hat5 & Hcode5 & Hx5); try assumption;
        [ repeat split;
          [ cbn [servers set_servers set_process_store]; apply DictFacts.get_set_eq
          | cbn [process_store set_servers set_process_store];
            rewrite lookup_app_r by lia; now rewrite Nat.sub_diag ]
        | rewrite Hinit in Hstart ]
  end.
  cbn [fst snd] in Hstart. destruct Hat5 as (Hget5 & Hproc5 & Hpr5 & Hid5).
  unfold bind at 1 in Hstart.
  rewrite (update_server_stored _ _ _ _ Hget5) in Hstart. cbn [fst snd] in Hstart.
  unfold bind at 1 in Hstart. unfold gets at 1 in Hstart. cbn [fst snd] in Hstart.
  unfold bind at 1 in Hstart.
  erewrite update_server_stored in Hstart
    by (cbn [servers set_servers]; apply DictFacts.get_set_eq).
  cbn [fst snd ret exn_text set_servers] in Hstart.
  injection Hstart as <- <-.
  eexists. exists pr'. split; [reflexivity|].
  cbn [servers set_servers process_store _request_id].
  split; [rewrite DictFacts.get_set_eq; now rewrite Hx5|].
  split; [exact Hpr5|]. split; [congruence|exact Hid5].
Qed.

(** X30: when the process of [load] answers [initialize] and then answers
    [tools/list] with a list that holds an entry that is no dict, the
    exception of the list comprehension ends [start]: [load] returns the
    failure with the text of the exception, and the server stays registered
    with the status [error] while its process is still attached and has not
    been terminated. *)
Theorem malformed_tool_list_fails_load (l : Loader) name line extra env cwd spawned
    line0 line1 rest r0 info caps r1 listed items e :
  popen l (full_command line extra) = Return spawned ->
  returncode spawned = None ->
  stdin_broken spawned = false ->
  stdout_lines spawned = line0 :: line1 :: rest ->
  decode_response_line line0 = Some r0 ->
  py_truthy (resp_result r0) = true ->
  py_get (resp_result r0) "serverInfo" (JObj []) = Return info ->
  py_get (resp_result r0) "capabilities" (JObj []) = Return caps ->
  decode_response_line line1 = Some r1 ->
  py_truthy (resp_result r1) = true ->
  py_get (resp_result r1) "tools" (JArr []) = Return listed ->
  py_iter listed = Return items ->
  map_outcome MCPTool_from_dict items = Raise e ->
  exists l' server pr',
    load name line extra env cwd true l
    = (Return (JObj [("success", JBool false);
                     ("error", JStr (exn_text l e));
                     ("server_id", JStr (loader_uuid8 l (loader_uuid_draws l)))]), l')
    /\ Dict.get (loader_uuid8 l (loader_uuid_draws l)) (servers l') = Some server
    /\ status server = MCPServerStatus.ERROR
    /\ error server = Some (exn_text l e)
    /\ tools server = []
    /\ process server = Some (length (process_store l))
    /\ process_store l' !! length (process_store l) = Some pr'
    /\ returncode pr' = None.
Proof.
  intros Hpopen Hcode Hbroken Hlines Hdec0 Htruthy0 Hinfo Hcaps
    Hdec1 Htruthy1 Htools Hiter Hmap.
  destruct (load_before_start name line extra env cwd true l)
    as (server0 & l0 & Hload & Hs0 & Hservers & Hstore & Hid & Hp & Hx).
  assert (Hget : Dict.get (loader_uuid8 l (loader_uuid_draws l)) (servers l0) = Some server0).
  { rewrite Hservers. apply DictFacts.get_set_eq. }
  assert (Hpopen0 : popen l0 (command server0 ++ args server0)%list = Return spawned).
  { rewrite Hp, Hs0. exact Hpopen. }
  destruct (start_tools_malformed l0 _ server0 spawned line0 line1 rest
              r0 info caps r1 listed items e Hget Hpopen0 Hcode Hbroken Hlines
              Hdec0 Htruthy0 Hinfo Hcaps Hdec1 Htruthy1 Htools Hiter Hmap)
    as (l' & pr' & Hstart & Hserver & Hpr' & Hcode' & _).
  rewrite Hstore, Hx in *.
  exists l'. eexists. exists pr'. split; [|split; [exact Hserver|]].
  - rewrite Hload. unfold bind at 1. rewrite Hstart. cbn [fst snd].
    unfold bind, gets, ret. cbn [fst snd]. rewrite Hserver. reflexivity.
  - rewrite Hs0. cbn. repeat split; assumption.
Qed.

End InitializeFacts.

(** ** Commands on the wire *)

Section CommandFacts.
Context `{PyFloat}.

(** X26: [send_command] to a device that is deliverable reaches its wait
    after one write: the socket has received the encoding of one
    [command] message with the action and the parameters of the call
    (an empty dict when there are none), a fresh message id and the id
    of the device; the correlation table of the connection maps that
    message id to a new future, which is pending. *)
Theorem send_command_registers_and_sends (w : World) device_id action params timeout
    c conn ws s :
  lookup_conn device_id w = Some (c, conn) ->
  DeviceConnection.websocket conn = Some ws ->
  socket_store w !! ws = Some s ->
  ws_closed s = false ->
  ws_broken s = false ->
  exists call w',
    send_command_begin device_id action params timeout w = (Return (Awaiting call), w')
    /\ call_conn call = c
    /\ call_message_id call = uuid8 w (uuid_draws w)
    /\ call_future call = length (future_store w)
    /\ future_store w' = (future_store w ++ [Pending])%list
    /\ table_of w' c
       = Dict.set (uuid8 w (uuid_draws w)) (length (future_store w))
           (DeviceConnection.pending_requests conn)
    /\ exists s',
         socket_store w' !! ws = Some s'
         /\ ws_sent s'
            = (ws_sent s
               ++ [DeviceMessage.to_json
                     {| DeviceMessage.type := MessageType.COMMAND;
                        DeviceMessage.action := JStr action;
                        DeviceMessage.payload :=
                          match params with
                          | Some p => if py_truthy p then p else JObj []
                          | None => JObj []
                          end;
                        DeviceMessage.message_id := JStr (uuid8 w (uuid_draws w));
                        DeviceMessage.timestamp := JFloat (Finite (clock w (clock_reads w)));
                        DeviceMessage.device_id := JStr device_id;
                        DeviceMessage.correlation_id := JStr EmptyString |}])%list.
Proof.
  intros Hlook Hws Hs Hclosed Hbroken.
  destruct (lookup_conn_inv _ _ _ _ Hlook) as [Hget Hc].
  assert (Hlt : c < length (conn_store w)) by now apply lookup_lt_Some in Hc.
  unfold send_command_begin. rewrite Hlook, Hws.
  unfold bind at 1. unfold uuid4_8 at 1. cbv beta iota.
  unfold bind at 1. unfold time_time at 1. cbv beta iota.
  unfold bind at 1. unfold new_future at 1. cbv beta iota.
  unfold bind at 1. unfold update_conn at 1, modify at 1. cbv beta iota.
  cbn [conn_store set_future_store set_clock_reads set_uuid_draws]. rewrite Hc.
  unfold bind at 1.
  lazymatch goal with
  | |- context [send device_id ?m ?wr] =>
      destruct (send_written wr device_id m c
                  (DeviceConnection.set_pending_requests
                     (Dict.set (uuid8 w (uuid_draws w)) (length (future_store w))
                        (DeviceConnection.pending_requests conn)) conn) ws s)
        as (w' & Hsend & Hsock & Hconn & _ & Hfut & _)
  end.
  - unfold lookup_conn. cbn [connections conn_store set_conn_store set_future_store
                             set_clock_reads set_uuid_draws].
    rewrite Hget. rewrite list_lookup_insert_eq by exact Hlt. reflexivity.
  - destruct conn; exact Hws.
  - exact Hs.
  - exact Hclosed.
  - exact Hbroken.
  - rewrite Hsend. cbv beta iota. unfold ret.
    eexists _, w'. split; [reflexivity|].
    cbn [call_conn call_message_id call_future].
    split; [reflexivity|]. split; [reflexivity|]. split; [reflexivity|].
    split; [exact Hfut|]. split.
    + unfold table_of. rewrite Hconn.
      cbn [conn_store set_conn_store set_future_store set_clock_reads set_uuid_draws].
      rewrite list_insert_insert_eq.
      rewrite list_lookup_insert_eq by exact Hlt. reflexivity.
    + rewrite Hsock.
      cbn [socket_store set_conn_store set_future_store set_clock_reads set_uuid_draws].
      rewrite list_lookup_insert_eq by now apply lookup_lt_Some in Hs.
      eexists. split; reflexivity.
Qed.

(** X27: a connected device that sends, in the standard format and
    without a [payload] member, a message of type [status] is answered
    with an [ack] of action [status] that bears the message id of the
    status as its correlation id; the message is counted as received
    and nothing else changes on the connection. *)
Theorem status_is_acknowledged (w : World) device_id c conn message_data kvs :
  lookup_conn device_id w = Some (c, conn) ->
  loads message_data = Return (JObj kvs) ->
  Dict.get "type" kvs = Some (JStr "status") ->
  Dict.get "payload" kvs = None ->
  exists reply w',
    handle_message device_id message_data w = (Return (Some reply), w')
    /\ DeviceMessage.type reply = MessageType.ACK
    /\ DeviceMessage.action reply = JStr "status"
    /\ DeviceMessage.correlation_id reply
       = match Dict.get "message_id" kvs with
         | Some v => v
         | None => JStr EmptyString
         end
    /\ conn_store w'
       = <[c := DeviceConnection.set_last_message (clock w (S (clock_reads w)))
                  (DeviceConnection.incr_messages_received conn)]> (conn_store w)
    /\ future_store w' = future_store w.
Proof.
  intros Hlook Hloads Htype Hpayload.
  destruct (lookup_conn_inv _ _ _ _ Hlook) as [Hget Hc].
  assert (Hlt : c < length (conn_store w)) by now apply lookup_lt_Some in Hc.
  unfold handle_message. rewrite Hlook.
  unfold handle_message_body, from_json. run_glue. rewrite Hloads. simpl py_get.
  rewrite Htype. cbv beta iota.
  change (py_eq_str (JStr "status") "handshake") with false.
  change (py_eq_str (JStr "status") "heartbeat") with false. cbv beta iota.
  unfold Dict.mem. rewrite Htype, Hpayload. cbv beta iota.
  change (true && false) with false. cbv beta iota.
  simpl py_get. rewrite Htype, Hpayload. cbv beta iota.
  change (MessageType_call (JStr "status")) with (Return MessageType.STATUS).
  cbv beta iota.
  unfold time_time, update_conn, _handle_status, new_message, uuid4_8, time_time.
  run_glue.
  cbn [fst snd conn_store set_conn_store set_clock_reads DeviceMessage.type
       DeviceMessage.message_id].
  rewrite Hc. cbn [fst snd conn_store set_conn_store set_clock_reads].
  rewrite list_lookup_insert_eq by exact Hlt.
  cbn [fst snd conn_store set_conn_store set_clock_reads set_uuid_draws].
  eexists _, _. split; [reflexivity|].
  cbn [DeviceMessage.type DeviceMessage.action DeviceMessage.correlation_id
       conn_store future_store set_conn_store set_clock_reads set_uuid_draws
       clock clock_reads].
  rewrite list_insert_insert_eq. repeat split.
Qed.

(** X28: a connected device that reports, in the standard format and
    without a [payload] member, a message of type [error] gets no
    reply; the report is counted both as a received message and in the
    [errors] of the connection, and no future changes. *)
Theorem error_report_is_counted (w : World) device_id c conn message_data kvs :
  lookup_conn device_id w = Some (c, conn) ->
  loads message_data = Return (JObj kvs) ->
  Dict.get "type" kvs = Some (JStr "error") ->
  Dict.get "payload" kvs = None ->
  exists w',
    handle_message device_id message_data w = (Return None, w')
    /\ conn_store w'
       = <[c := DeviceConnection.incr_errors
                  (DeviceConnection.set_last_message (clock w (S (clock_reads w)))
                     (DeviceConnection.incr_messages_received conn))]> (conn_store w)
    /\ future_store w' = future_store w
    /\ socket_store w' = socket_store w.
Proof.
  intros Hlook Hloads Htype Hpayload.
  destruct (lookup_conn_inv _ _ _ _ Hlook) as [Hget Hc].
  assert (Hlt : c < length (conn_store w)) by now apply lookup_lt_Some in Hc.
  unfold handle_message. rewrite Hlook.
  unfold handle_message_body, from_json. run_glue. rewrite Hloads. simpl py_get.
  rewrite Htype. cbv beta iota.
  change (py_eq_str (JStr "error") "handshake") with false.
  change (py_eq_str (JStr "error") "heartbeat") with false. cbv beta iota.
  unfold Dict.mem. rewrite Htype, Hpayload. cbv beta iota.
  change (true && false) with false. cbv beta iota.
  simpl py_get. rewrite Htype, Hpayload. cbv beta iota.
  change (MessageType_call (JStr "error")) with (Return MessageType.ERROR).
  cbv beta iota.
  unfold time_time, update_conn. run_glue.
  cbn [fst snd conn_store set_conn_store set_clock_reads DeviceMessage.type].
  rewrite Hc. cbn [fst snd conn_store set_conn_store set_clock_reads].
  rewrite list_lookup_insert_eq by exact Hlt.
  cbn [fst snd conn_store set_conn_store set_clock_reads].
  rewrite list_lookup_insert_eq by (rewrite length_insert; exact Hlt).
  eexists. split; [reflexivity|].
  cbn [conn_store future_store socket_store set_conn_store set_clock_reads].
  rewrite !list_insert_insert_eq. repeat split.
Qed.

End CommandFacts.

(** ** The further properties at concrete sessions and loaders *)

(** X1 at [connected_world]. *)
Lemma send_delivers_witness :
  exists w',
    send "d1" example_message connected_world = (Return true, w')
    /\ clock_reads w' = S (clock_reads connected_world).
Proof.
  assert (Hconn : exists conn,
             lookup_conn "d1" connected_world = Some (0, conn)
             /\ DeviceConnection.websocket conn = Some 0)
    by (cbv -[whole_repr whole_of_literal]; eexists; split; reflexivity).
  destruct Hconn as (conn & Hlook & Hws).
  assert (Hsock : exists s,
             socket_store connected_world !! 0 = Some s
             /\ ws_closed s = false /\ ws_broken s = false)
    by (cbv -[whole_repr whole_of_literal]; eexists; repeat split).
  destruct Hsock as (s & Hs & Hclosed & Hbroken).
  destruct (@send_delivers whole_floats connected_world "d1" example_message
              0 conn 0 s Hlook Hws Hs Hclosed Hbroken)
    as (w' & Hsend & _ & _ & _ & _ & Hreads).
  exists w'. split; [exact Hsend|exact Hreads].
Defined.

(** X2 at [broken_socket_world]. *)
Lemma send_failure_witness :
  fst (send "d1" example_message broken_socket_world) = Return false.
Proof.
  assert (Hconn : exists conn,
             lookup_conn "d1" broken_socket_world = Some (0, conn)
             /\ DeviceConnection.websocket conn = Some 0)
    by (cbv -[whole_repr whole_of_literal]; eexists; split; reflexivity).
  destruct Hconn as (conn & Hlook & Hws).
  assert (Hsock : exists s,
             socket_store broken_socket_world !! 0 = Some s
             /\ ws_closed s || ws_broken s = true)
    by (cbv -[whole_repr whole_of_literal]; eexists; repeat split).
  destruct Hsock as (s & Hs & Hbad).
  rewrite (@send_failure_is_counted whole_floats broken_socket_world "d1" example_message
             0 conn 0 s Hlook Hws Hs Hbad).
  reflexivity.
Defined.

(** X3 at [broken_socket_world]. *)
Lemma send_command_write_failure_witness :
  exists w',
    send_command_begin "d1" "click" None None broken_socket_world
    = (Return (Returned (failure "发送失败")), w').
Proof.
  assert (Hconn : exists conn,
             lookup_conn "d1" broken_socket_world = Some (0, conn)
             /\ DeviceConnection.websocket conn = Some 0)
    by (cbv -[whole_repr whole_of_literal]; eexists; split; reflexivity).
  destruct Hconn as (conn & Hlook & Hws).
  assert (Hsock : exists s,
             socket_store broken_socket_world !! 0 = Some s
             /\ ws_closed s || ws_broken s = true)
    by (cbv -[whole_repr whole_of_literal]; eexists; repeat split).
  destruct Hsock as (s & Hs & Hbad).
  destruct (@send_command_write_failure whole_floats broken_socket_world "d1" "click"
              None None 0 conn 0 s Hlook Hws Hs Hbad) as (w' & Hbegin & _).
  exists w'. exact Hbegin.
Defined.

(** X4 at [waiting_world]: the response to [click_call]. *)
Lemma response_completes_call_witness :
  exists w1 w2,
    handle_message "d1" late_response_text waiting_world = (Return None, w1)
    /\ send_command_resume click_call false w1 = Some (JObj [], w2).
Proof.
  assert (Hconn : exists conn,
             lookup_conn "d1" waiting_world = Some (0, conn)
             /\ Dict.get (call_message_id click_call)
                  (DeviceConnection.pending_requests conn)
                = Some (call_future click_call))
    by (cbv -[whole_repr whole_of_literal]; eexists; split; reflexivity).
  destruct Hconn as (conn & Hlook & Hentry).
  assert (Hloads : @loads whole_floats late_response_text
                   = Return (JObj [("type", JStr "response");
                                   ("correlation_id", JStr "00000000")]))
    by (cbv -[whole_repr whole_of_literal]; reflexivity).
  assert (Hpending : future_store waiting_world !! call_future click_call = Some Pending)
    by (cbv -[whole_repr whole_of_literal]; reflexivity).
  destruct (@response_completes_call whole_floats waiting_world "d1" 0 conn
              late_response_text _ click_call Hlook Hloads eq_refl eq_refl eq_refl
              eq_refl Hentry Hpending)
    as (w1 & Hhandle & _ & w2 & Hresume & _).
  exists w1, w2. split; [exact Hhandle|exact Hresume].
Defined.

(** X5 at [waiting_world]: the response to [click_call] as [to_json]
    encodes it completes nothing. *)
Lemma encoded_message_witness :
  exists w',
    handle_message "d1" (DeviceMessage.to_json encoded_response) waiting_world
    = (Return None, w')
    /\ future_store w' = future_store waiting_world.
Proof.
  assert (Hconn : exists conn, lookup_conn "d1" waiting_world = Some (0, conn))
    by (cbv -[whole_repr whole_of_literal]; eexists; reflexivity).
  destruct Hconn as (conn & Hlook).
  assert (Hvalid : @valid_message whole_floats encoded_response = true)
    by (cbv -[whole_repr whole_of_literal]; reflexivity).
  destruct (@encoded_message_is_an_event whole_floats whole_floats_laws waiting_world
              "d1" 0 conn encoded_response Hlook Hvalid)
    as (w' & Hhandle & (Hfut & _) & _).
  - discriminate.
  - exists w'. split; [exact Hhandle|exact Hfut].
Defined.

(** X6 at [fresh_world]. *)
Lemma connect_then_disconnect_witness :
  connections (snd (disconnect "d1" (snd (connect "d1" 0 fresh_world))))
  = connections fresh_world.
Proof.
  assert (Hsock : exists s, socket_store fresh_world !! 0 = Some s)
    by (cbv -[whole_repr whole_of_literal]; eexists; reflexivity).
  destruct Hsock as (s & Hs).
  exact (proj1 (proj2 (proj2 (@connect_then_disconnect whole_floats fresh_world "d1" 0 s
                                 eq_refl Hs)))).
Defined.

(** X8 at [connected_world]. *)
Lemma handshake_witness :
  exists reply w',
    handle_message "d1" handshake_text connected_world = (Return (Some reply), w')
    /\ DeviceMessage.type reply = MessageType.ACK.
Proof.
  assert (Hconn : exists conn, lookup_conn "d1" connected_world = Some (0, conn))
    by (cbv -[whole_repr whole_of_literal]; eexists; reflexivity).
  destruct Hconn as (conn & Hlook).
  assert (Hloads : @loads whole_floats handshake_text
                   = Return (JObj [("type", JStr "handshake");
                                   ("platform", JStr "android");
                                   ("version", JStr "2.0")]))
    by (cbv -[whole_repr whole_of_literal]; reflexivity).
  destruct (@handshake_is_acknowledged whole_floats connected_world "d1" 0 conn
              handshake_text _ Hlook Hloads eq_refl)
    as (reply & w' & Hhandle & Hty & _).
  exists reply, w'. split; [exact Hhandle|exact Hty].
Defined.

(** X14 at [connected_world]: a second device connects. *)
Lemma stats_after_connect_witness :
  connected_devices (get_stats (snd (connect "d2" 0 connected_world))) = 2.
Proof.
  assert (Hnone : Dict.get "d2" (connections connected_world) = None)
    by (cbv -[whole_repr whole_of_literal]; reflexivity).
  assert (Hconns : connections connected_world = [("d1", 0)]
                   /\ length (conn_store connected_world) = 1)
    by (split; cbv -[whole_repr whole_of_literal]; reflexivity).
  destruct Hconns as [Hconns Hlen].
  rewrite (@stats_after_connect whole_floats connected_world "d2" 0 Hnone).
  - cbn [connected_devices]. unfold get_stats. cbn [connected_devices].
    now rewrite Hconns.
  - intros d c Hin. rewrite Hconns in Hin. rewrite Hlen.
    destruct Hin as [[= _ <-]|[]]. lia.
Defined.

(** X15 at [connected_world]. *)
Lemma stats_after_send_witness :
  total_messages_sent (get_stats (snd (send "d1" example_message connected_world)))
  = S (total_messages_sent (get_stats connected_world)).
Proof.
  assert (Hconn : exists conn,
             lookup_conn "d1" connected_world = Some (0, conn)
             /\ DeviceConnection.websocket conn = Some 0)
    by (cbv -[whole_repr whole_of_literal]; eexists; split; reflexivity).
  destruct Hconn as (conn & Hlook & Hws).
  assert (Hsock : exists s,
             socket_store connected_world !! 0 = Some s
             /\ ws_closed s = false /\ ws_broken s = false)
    by (cbv -[whole_repr whole_of_literal]; eexists; repeat split).
  destruct Hsock as (s & Hs & Hclosed & Hbroken).
  assert (Hconns : connections connected_world = [("d1", 0)]
                   /\ length (conn_store connected_world) = 1)
    by (split; cbv -[whole_repr whole_of_literal]; reflexivity).
  destruct Hconns as [Hconns Hlen].
  assert (Hwired : well_wired connected_world).
  { split.
    - rewrite Hconns. apply NoDup_cons. split; [|apply NoDup_nil_2].
      intros Hin. inversion Hin.
    - intros d c Hin. rewrite Hconns in Hin. rewrite Hlen.
      destruct Hin as [[= _ <-]|[]]. lia. }
  destruct (@stats_after_send whole_floats connected_world "d1" example_message
              0 conn 0 s Hwired Hlook Hws Hs Hclosed Hbroken) as [_ Hstats].
  now rewrite Hstats.
Defined.


(** X22 at [missing_command_loader]. *)
Lemma load_command_not_found_witness :
  exists l',
    load "files" (CommandStr "nothing here") None None EmptyString true
      missing_command_loader
    = (Return (JObj [("success", JBool false);
                     ("error", JStr "No such file or directory");
                     ("server_id", JStr "00000000")]), l').
Proof.
  destruct (@load_command_not_found whole_floats missing_command_loader
              "files" (CommandStr "nothing here") None None EmptyString
              FileNotFoundError eq_refl)
    as (l' & server & Hload & _).
  exists l'. exact Hload.
Defined.


(** X24 at [listing_loader]. *)
Lemma refreshed_tools_witness :
  exists l',
    _refresh_tools "s1" listing_loader = (Return tt, l')
    /\ list_tools "s1" l'
       = [JObj [("name", JStr "read_file"); ("description", JStr "Read a file");
                ("inputSchema", JObj [])];
          JObj [("name", JStr "list_dir"); ("description", JStr EmptyString);
                ("inputSchema", JObj [])]].
Proof.
  assert (Hline : @decode_response_line whole_floats (hd EmptyString [tools_line])
                  = Some tools_response) by (cbv -[whole_repr whole_of_literal]; reflexivity).
  destruct (@refreshed_tools_are_listed whole_floats listing_loader "s1" _ 0 _
              tools_response tools_members eq_refl eq_refl eq_refl eq_refl Hline
              eq_refl eq_refl)
    as (l' & Hrefresh & Hlist & _).
  exists l'. split; [exact Hrefresh|]. rewrite Hlist. reflexivity.
Defined.

(** X26 at [connected_world]. *)
Lemma send_command_witness :
  exists call w',
    send_command_begin "d1" "click" None None connected_world
    = (Return (Awaiting call), w')
    /\ call_message_id call = "00000000".
Proof.
  assert (Hconn : exists conn,
             lookup_conn "d1" connected_world = Some (0, conn)
             /\ DeviceConnection.websocket conn = Some 0)
    by (cbv -[whole_repr whole_of_literal]; eexists; split; reflexivity).
  destruct Hconn as (conn & Hlook & Hws).
  assert (Hsock : exists s,
             socket_store connected_world !! 0 = Some s
             /\ ws_closed s = false /\ ws_broken s = false)
    by (cbv -[whole_repr whole_of_literal]; eexists; repeat split).
  destruct Hsock as (s & Hs & Hclosed & Hbroken).
  destruct (@send_command_registers_and_sends whole_floats connected_world "d1" "click"
              None None 0 conn 0 s Hlook Hws Hs Hclosed Hbroken)
    as (call & w' & Hbegin & _ & Hid & _).
  exists call, w'. split; [exact Hbegin|]. rewrite Hid. vm_compute. reflexivity.
Defined.

(** X27 and X28 at [connected_world]. *)
Lemma status_witness :
  exists reply w',
    handle_message "d1" status_text connected_world = (Return (Some reply), w')
    /\ DeviceMessage.correlation_id reply = JStr "s0000001".
Proof.
  assert (Hconn : exists conn, lookup_conn "d1" connected_world = Some (0, conn))
    by (cbv -[whole_repr whole_of_literal]; eexists; reflexivity).
  destruct Hconn as (conn & Hlook).
  assert (Hloads : @loads whole_floats status_text
                   = Return (JObj [("type", JStr "status");
                                   ("message_id", JStr "s0000001")]))
    by (cbv -[whole_repr whole_of_literal]; reflexivity).
  destruct (@status_is_acknowledged whole_floats connected_world "d1" 0 conn
              status_text _ Hlook Hloads eq_refl eq_refl)
    as (reply & w' & Hhandle & _ & _ & Hcorr & _).
  exists reply, w'. split; [exact Hhandle|exact Hcorr].
Defined.

(** X28 at [connected_world]. *)
Lemma error_report_witness :
  exists w', handle_message "d1" error_text connected_world = (Return None, w').
Proof.
  assert (Hconn : exists conn, lookup_conn "d1" connected_world = Some (0, conn))
    by (cbv -[whole_repr whole_of_literal]; eexists; reflexivity).
  destruct Hconn as (conn & Hlook).
  assert (Hloads : @loads whole_floats error_text
                   = Return (JObj [("type", JStr "error");
                                   ("message_id", JStr "e0000001")]))
    by (cbv -[whole_repr whole_of_literal]; reflexivity).
  destruct (@error_report_is_counted whole_floats connected_world "d1" 0 conn
              error_text _ Hlook Hloads eq_refl eq_refl)
    as (w' & Hhandle & _).
  exists w'. exact Hhandle.
Defined.


(** X30 at [malformed_loader]. *)
Lemma malformed_tool_list_witness :
  exists l',
    load "files" (CommandStr "server") None None EmptyString true malformed_loader
    = (Return (JObj [("success", JBool false);
                     ("error", JStr "'str' object has no attribute 'get'");
                     ("server_id", JStr "00000000")]), l').
Proof.
  assert (Hline0 : @decode_response_line whole_floats initialize_line
                   = Some initialize_response)
    by (cbv -[whole_repr whole_of_literal]; reflexivity).
  assert (Hline1 : @decode_response_line whole_floats malformed_tools_line
                   = Some malformed_tools_response)
    by (cbv -[whole_repr whole_of_literal]; reflexivity).
  destruct (@malformed_tool_list_fails_load whole_floats malformed_loader
              "files" (CommandStr "server") None None EmptyString
              malformed_process initialize_line malformed_tools_line []
              initialize_response _ _ malformed_tools_response _ _ AttributeError
              eq_refl eq_refl eq_refl eq_refl Hline0 eq_refl eq_refl eq_refl
              Hline1 eq_refl eq_refl eq_refl eq_refl)
    as (l' & server & pr' & Hload & _).
  exists l'. exact Hload.
Defined.

(** X7 at [fresh_world], where no device is connected. *)
Lemma disconnect_twice_witness :
  disconnect "d1" fresh_world = (Return false, fresh_world).
Proof.
  exact (proj1 (@disconnect_twice whole_floats fresh_world "d1") eq_refl).
Defined.


(** X10 at the value [ack]. *)
Lemma message_type_of_value_witness :
  "ack" = MessageType.value MessageType.ACK.
Proof.
  exact (proj1 (proj2 (message_type_of_value MessageType.ACK "ack")) eq_refl).
Defined.

(** X11 at [stale_world], for a device that was never connected. *)
Lemma sweep_only_evicts_witness :
  Dict.get "d2" (connections (snd (heartbeat_sweep stale_world))) = None.
Proof.
  exact (proj1 (proj2 (@sweep_only_evicts whole_floats stale_world)) "d2" eq_refl).
Defined.

(** X16 at [running_loader]. *)
Lemma unload_removes_server_witness :
  exists l',
    unload "s1" running_loader
    = (Return (JObj [("success", JBool true); ("server_id", JStr "s1");
                     ("name", JStr "files")]), l')
    /\ Dict.get "s1" (servers l') = None.
Proof.
  pose proof (@unload_removes_server whole_floats running_loader "s1") as Hunload.
  cbn [Dict.get servers running_loader] in Hunload.
  destruct Hunload as (l' & Hrun & Hgone & _).
  exists l'. split; [exact Hrun|exact Hgone].
Defined.

(** X17 at [fresh_loader], where no server is registered, and at
    [running_loader] after [stop]. *)
Lemma call_tool_requires_running_witness :
  call_tool "s1" "read_file" None fresh_loader
  = (Return (failure "服务器不存在"), fresh_loader)
  /\ call_tool "s1" "read_file" None (snd (stop "s1" running_loader))
     = (Return (failure "服务器未运行"), snd (stop "s1" running_loader)).
Proof.
  split.
  - exact (proj1 (@call_tool_requires_running whole_floats fresh_loader
                    "s1" "read_file" None) eq_refl).
  - exact (proj2 (proj2 (@call_tool_requires_running whole_floats running_loader
                           "s1" "read_file" None)) _ eq_refl).
Defined.

(** X18 at [fresh_loader] and at [broken_pipe_loader]. *)
Lemma send_request_unavailable_witness :
  _send_request "s1" "ping" None fresh_loader = (Return None, fresh_loader)
  /\ _send_request "s1" "ping" None broken_pipe_loader
     = (Return None, set_request_id 1 broken_pipe_loader).
Proof.
  split.
  - exact (proj1 (@send_request_unavailable whole_floats fresh_loader "s1" "ping" None)
             eq_refl).
  - exact (proj2 (proj2 (@send_request_unavailable whole_floats broken_pipe_loader
                           "s1" "ping" None))
             _ 0 _ eq_refl eq_refl eq_refl eq_refl).
Defined.


